(** * WakatimeBlender: activity tracking and heartbeat delivery

    A shallow embedding of the tracking core of the add-on
    ([wakatime_blender/settings.py], [state_store.py], [heartbeat_queue.py],
    [timeline_logger.py] and the tracking part of [__init__.py]) together
    with the properties its specification states about it.

    Conventions of the embedding:
    - a Python [str] is a [string]; one character is one code point below 256;
    - [time.time()] and [time.monotonic()] values are rationals ([Q]): every
      finite float is one, and the difference of two clock values that lie
      within a factor of two of each other, as two epoch times do, is
      computed without rounding;
    - a [datetime.datetime] is its number of microseconds on the local
      time line ([Z]); a [timedelta] is a difference of two of them, so
      [total_seconds()] is that difference divided by [10^6];
    - module globals and object attributes are fields of explicit state
      records; clock reads and other inputs from the host are arguments;
    - the [log] calls of the queue and of the tracking code, which only
      print, are left out; the delivery client keeps its own. *)

From Stdlib Require Import ZArith QArith Lia Lqa Ascii String List Bool Sorted.
From Stdlib Require Import DecimalString.
From stdpp Require Import gmap strings.

Local Open Scope Z_scope.

(* ===================================================================== *)
(** * Python string operations used by the sources                       *)
(* ===================================================================== *)

Module PyStr.

(** [str.isspace] on one character, for code points below 256:
    TAB..CR, FS..US, SPACE, NEL and NBSP. *)
Definition isspace (c : ascii) : bool :=
  let n := N_of_ascii c in
  (((9 <=? n) && (n <=? 13)) || ((28 <=? n) && (n <=? 32))
   || (n =? 133) || (n =? 160))%N.

(** [not s] for a string. *)
Definition is_empty (s : string) : bool :=
  match s with EmptyString => true | String _ _ => false end.

(** [a or b] on strings: [a] unless it is empty. *)
Definition str_or (a b : string) : string :=
  if is_empty a then b else a.

(** Remove the leading characters that satisfy [p]. *)
Fixpoint lstrip_by (p : ascii -> bool) (s : string) : string :=
  match s with
  | EmptyString => EmptyString
  | String c s' => if p c then lstrip_by p s' else s
  end.

(** Remove the trailing characters that satisfy [p]. *)
Fixpoint rstrip_by (p : ascii -> bool) (s : string) : string :=
  match s with
  | EmptyString => EmptyString
  | String c s' =>
      match rstrip_by p s' with
      | EmptyString => if p c then EmptyString else String c EmptyString
      | r => String c r
      end
  end.

(** [s.strip()] *)
Definition strip (s : string) : string :=
  rstrip_by isspace (lstrip_by isspace s).

(** [s.rstrip(ch)] for a one-character argument. *)
Definition rstrip_char (ch : ascii) (s : string) : string :=
  rstrip_by (Ascii.eqb ch) s.

(** [s.endswith(suffix)] *)
Fixpoint endswith (s suffix : string) : bool :=
  String.eqb s suffix
  || match s with
     | EmptyString => false
     | String _ s' => endswith s' suffix
     end.

(** [s.startswith(prefix)] *)
Definition startswith (s pre : string) : bool := String.prefix pre s.

(** [s[:-n]] for [n > 0]: all but the last [n] characters, the empty
    string when [s] is shorter than that. *)
Definition drop_last (n : nat) (s : string) : string :=
  String.substring 0 (String.length s - n) s.

(** [str.lower] on one character, for code points below 256: the ASCII
    capitals and the Latin-1 capitals other than the multiplication sign. *)
Definition lower_char (c : ascii) : ascii :=
  let n := N_of_ascii c in
  if (((65 <=? n) && (n <=? 90))
      || ((192 <=? n) && (n <=? 222) && negb (n =? 215)))%N
  then ascii_of_N (n + 32)
  else c.

(** [s.lower()] *)
Fixpoint lower (s : string) : string :=
  match s with
  | EmptyString => EmptyString
  | String c s' => String (lower_char c) (lower s')
  end.

(** Last character, if any. *)
Fixpoint last_char (s : string) : option ascii :=
  match s with
  | EmptyString => None
  | String c EmptyString => Some c
  | String _ s' => last_char s'
  end.

(** The string is empty or begins with a non-space character. *)
Definition clean_head (s : string) : bool :=
  match s with
  | EmptyString => true
  | String c _ => negb (isspace c)
  end.

End PyStr.

(* ===================================================================== *)
(** * Calls that may raise                                               *)
(* ===================================================================== *)

Module Py.

(** The exceptions the modelled code can meet. *)
Inductive exn : Type :=
| AttributeError
| FileNotFoundError
| OtherError (msg : string).

(** The outcome of a call: a value, or an exception that leaves it. *)
Inductive result (A : Type) : Type :=
| Ok (a : A)
| Raise (e : exn).

Arguments Ok {A} a.
Arguments Raise {A} e.

Definition bind {A B : Type} (r : result A) (k : A -> result B) : result B :=
  match r with
  | Ok a => k a
  | Raise e => Raise e
  end.

(** [try: body  except Exception: handler] *)
Definition try_except {A : Type} (body : result A) (handler : exn -> result A)
  : result A :=
  match body with
  | Ok a => Ok a
  | Raise e => handler e
  end.

End Py.

(* ===================================================================== *)
(** * settings.py: endpoint derivation                                   *)
(* ===================================================================== *)

Module Settings.
Import PyStr.

Definition DEFAULT_API_SERVER_URL : string := "https://api.wakatime.com/".
Definition DEFAULT_SYNC_OFFLINE_ACTIVITY : string := "100".

(** The [while cleaned.endswith('/'): cleaned = cleaned[:-1]] loop. Every
    turn shortens [cleaned] by one character, so [String.length cleaned]
    turns are enough fuel. *)
Fixpoint strip_slashes_loop (fuel : nat) (cleaned : string) : string :=
  match fuel with
  | O => cleaned
  | S fuel' =>
      if endswith cleaned "/"
      then strip_slashes_loop fuel' (drop_last 1 cleaned)
      else cleaned
  end.

Definition heartbeat_suffixes : list string :=
  [ "/users/current/heartbeats.bulk"; "/heartbeats.bulk"; "/heartbeats" ].

(** The [for suffix in suffixes: ... break] loop: only the first suffix
    that matches is cut off. *)
Fixpoint cut_first_suffix (suffixes : list string) (cleaned : string) : string :=
  match suffixes with
  | [] => cleaned
  | suffix :: rest =>
      if endswith cleaned suffix
      then drop_last (String.length suffix) cleaned
      else cut_first_suffix rest cleaned
  end.

Definition _strip_heartbeats_suffix (url : string) : string :=
  if is_empty url then ""
  else
    let cleaned := strip url in
    let cleaned := strip_slashes_loop (String.length cleaned) cleaned in
    cut_first_suffix heartbeat_suffixes cleaned.

Definition _normalize_api_v1_base (raw_url : string) : string :=
  let base := _strip_heartbeats_suffix (str_or raw_url DEFAULT_API_SERVER_URL) in
  let base := rstrip_char "/" base in
  if endswith base "/api/v1" || endswith base "/v1" then base
  else if endswith base "/api" then base +:+ "/v1"
  else base +:+ "/api/v1".

Definition api_heartbeats_url_for_value (raw_url : string) : string :=
  let base := rstrip_char "/" (_normalize_api_v1_base raw_url) in
  if endswith base "/users/current/heartbeats.bulk" then base
  else if endswith base "/users/current" then base +:+ "/heartbeats.bulk"
  else base +:+ "/users/current/heartbeats.bulk".

(** ** The settings store

    [_cfg] holds the options of the [settings] section of the
    configuration; the two [pref_] fields are what [_get_pref_value] gives
    for the add-on preferences of the host ([None] when there are none).
    The configuration file is taken as already read ([_loaded] is true),
    as it is after the first [get]; writing it back is not modelled, and
    values are taken to be free of [%], which [ConfigParser] would
    interpolate. *)
Record state : Type := {
  _cfg : gmap string string;
  _api_url_synced : bool;
  pref_api_key : option string;
  pref_api_server_url : option string
}.

Definition with_cfg (cfg : gmap string string) (s : state) : state :=
  {| _cfg := cfg; _api_url_synced := _api_url_synced s;
     pref_api_key := pref_api_key s;
     pref_api_server_url := pref_api_server_url s |}.

Definition with_synced (b : bool) (s : state) : state :=
  {| _cfg := _cfg s; _api_url_synced := b;
     pref_api_key := pref_api_key s;
     pref_api_server_url := pref_api_server_url s |}.

(** [_cfg.get(_section, option, fallback=fallback)] *)
Definition cfg_get (option fallback : string) (s : state) : string :=
  default fallback (_cfg s !! option).

(** [set(option, value)]: [_cfg.set(_section, option, value)] and a save. *)
Definition set (option value : string) (s : state) : state :=
  with_cfg (<[option := value]> (_cfg s)) s.

(** A value is truthy when it is there and not empty. *)
Definition truthy (v : option string) : bool :=
  match v with
  | Some x => negb (is_empty x)
  | None => false
  end.

Definition api_key (s : state) : string :=
  if truthy (pref_api_key s) then default "" (pref_api_key s)
  else cfg_get "api_key" "" s.

Definition api_server_url (s : state) : string :=
  let pref_value :=
    if truthy (pref_api_server_url s)
    then _strip_heartbeats_suffix (strip (default "" (pref_api_server_url s)))
    else default "" (pref_api_server_url s) in
  let cfg_value := _strip_heartbeats_suffix (strip (cfg_get "api_server_url" "" s)) in
  let cfg_value :=
    if is_empty cfg_value
    then _strip_heartbeats_suffix (strip (cfg_get "api_url" "" s))
    else cfg_value in
  let cfg_value := if is_empty cfg_value then cfg_value else strip cfg_value in
  if negb (is_empty pref_value)
     && negb (String.eqb pref_value DEFAULT_API_SERVER_URL)
  then pref_value
  else if negb (is_empty cfg_value) then cfg_value
  else if negb (is_empty pref_value) then pref_value
  else DEFAULT_API_SERVER_URL.

Definition _ensure_api_url_synced (expected_endpoint : string) (s : state)
  : state :=
  if _api_url_synced s then s
  else
    let current := strip (cfg_get "api_url" "" s) in
    let s := if negb (String.eqb current expected_endpoint)
             then set "api_url" expected_endpoint s
             else s in
    with_synced true s.

(** [api_heartbeats_url()]: the endpoint, and the store after the sync. *)
Definition api_heartbeats_url (s : state) : string * state :=
  let endpoint := api_heartbeats_url_for_value (api_server_url s) in
  (endpoint, _ensure_api_url_synced endpoint s).

Section WithInt.

(** Python's [int(s)] on a string: the integer it denotes, or [None] when
    it raises [ValueError]. *)
Variable int_of_str : string -> option Z.

(** [int(text) <= 0], with [ValueError] counted as a failed check. *)
Definition not_positive (text : string) : bool :=
  match int_of_str text with
  | Some n => n <=? 0
  | None => true
  end.

Definition _enforce_offline_defaults (s : state) : state :=
  let current_offline :=
    match _cfg s !! "offline" with
    | Some v => lower (strip v)
    | None => ""
    end in
  let s := if negb (String.eqb current_offline "true")
           then set "offline" "true" s
           else s in
  let current_sync :=
    match _cfg s !! "sync_offline_activity" with
    | Some v => strip v
    | None => ""
    end in
  if is_empty current_sync
  then set "sync_offline_activity" DEFAULT_SYNC_OFFLINE_ACTIVITY s
  else if String.eqb (lower current_sync) "none" || not_positive current_sync
  then set "sync_offline_activity" DEFAULT_SYNC_OFFLINE_ACTIVITY s
  else s.

(** [ensure_offline_defaults], the configuration being loaded. *)
Definition ensure_offline_defaults (s : state) : state :=
  _enforce_offline_defaults s.

Definition sync_offline_activity_amount (s : state) : string :=
  let value := strip (cfg_get "sync_offline_activity"
                              DEFAULT_SYNC_OFFLINE_ACTIVITY s) in
  if is_empty value then DEFAULT_SYNC_OFFLINE_ACTIVITY
  else if String.eqb (lower value) "none" || not_positive value
  then DEFAULT_SYNC_OFFLINE_ACTIVITY
  else value.

End WithInt.

End Settings.

(* ===================================================================== *)
(** * state_store.py: the persisted counter                              *)
(* ===================================================================== *)

Module Store.
Import PyStr Py.

(** A [datetime.date]. *)
Record date : Type := { year : Z; month : Z; day : Z }.

Definition date_eqb (a b : date) : bool :=
  (year a =? year b) && (month a =? month b) && (day a =? day b).

(** The ranges every [datetime.date] object satisfies. *)
Definition valid_date (d : date) : bool :=
  (1 <=? year d) && (year d <=? 9999) && (1 <=? month d) && (month d <=? 12)
  && (1 <=? day d) && (day d <=? 31).

(** The decimal digit for the last digit of [n]. *)
Definition digit (n : Z) : ascii := ascii_of_N (48 + Z.to_N (n mod 10)).

(** [date.isoformat()]: [YYYY-MM-DD], zero padded. *)
Definition isoformat (d : date) : string :=
  String (digit (year d / 1000)) (String (digit (year d / 100))
  (String (digit (year d / 10)) (String (digit (year d))
  (String "-" (String (digit (month d / 10)) (String (digit (month d))
  (String "-" (String (digit (day d / 10)) (String (digit (day d))
  EmptyString))))))))).

(** What [json.load] can return. [JNonFinite] stands for [NaN] and the
    infinities, which Python's parser accepts. The fields of [JObj] are the
    items of the resulting [dict], so keys are distinct. *)
#[warnings="-register-all"]
Inductive json : Type :=
| JNull
| JBool (b : bool)
| JInt (n : Z)
| JFloat (q : Q)
| JNonFinite
| JStr (s : string)
| JArr (items : list json)
| JObj (fields : list (string * json)).

(** [dict.get(key)] on the items of a dict. *)
Fixpoint dict_get (key : string) (fields : list (string * json)) : option json :=
  match fields with
  | [] => None
  | (k, v) :: rest => if String.eqb k key then Some v else dict_get key rest
  end.

(** [stored == text] where [stored] came from [dict.get] ([None] when the
    key is absent) and [text] is a [str]. *)
Definition equals_str (stored : option json) (text : string) : bool :=
  match stored with
  | Some (JStr s) => String.eqb s text
  | _ => false
  end.

Section WithInt.

(** Python's [int(s)] on a string: the integer it denotes, or [None] when
    it raises [ValueError]. *)
Variable int_of_str : string -> option Z.

(** [int(v)] on a parsed JSON value; [None] when it raises ([TypeError],
    [ValueError] or [OverflowError]). Floats are truncated towards zero. *)
Definition py_int (v : json) : option Z :=
  match v with
  | JInt n => Some n
  | JBool b => Some (if b then 1 else 0)
  | JFloat q => Some (Z.quot (Qnum q) (Zpos (Qden q)))
  | JStr s => int_of_str s
  | JNull | JNonFinite | JArr _ | JObj _ => None
  end.

(** The state file as the add-on sees it. [file] is what [json.load] gives
    for it, [None] when it is missing, unreadable or not JSON; [writable]
    tells whether opening it for writing succeeds; [journal] records every
    payload written so far, oldest first (the file itself only holds the
    last one). *)
Record disk : Type := {
  file : option json;
  writable : bool;
  journal : list json
}.

(** [load_tracked_seconds]; creating the folder first leaves no trace
    here. Only a failure to open or parse the file is caught: a file that
    holds JSON other than an object makes [data.get] raise. *)
Definition load_tracked_seconds (day : date) (d : disk) : result (Z * bool) :=
  match file d with
  | None => Ok (0, false)                      (* except Exception *)
  | Some (JObj data) =>
      let stored_date := dict_get "date" data in
      if negb (equals_str stored_date (isoformat day)) then Ok (0, false)
      else
        let seconds :=
          match py_int (default (JInt 0) (dict_get "seconds" data)) with
          | Some n => n
          | None => 0                          (* except Exception *)
          end in
        Ok (Z.max 0 seconds, true)
  | Some _ => Raise AttributeError             (* data.get on a non-dict *)
  end.

End WithInt.

Definition payload (day : date) (seconds : Z) : json :=
  JObj [("date", JStr (isoformat day)); ("seconds", JInt (Z.max 0 seconds))].

(** [seconds] is always a Python [int] here, so [int(seconds)] is
    [seconds]. A failure to open the file is swallowed and leaves it as it
    was. *)
Definition save_tracked_seconds (day : date) (seconds : Z) (d : disk) : disk :=
  if writable d then
    {| file := Some (payload day seconds);
       writable := true;
       journal := journal d ++ [payload day seconds] |}
  else d.

End Store.

(* ===================================================================== *)
(** * heartbeat_queue.py: tracked time and throttled heartbeats          *)
(* ===================================================================== *)

Module Queue.
Import PyStr Py Store.

Record HeartBeat : Type := {
  entity : string;
  project : string;
  timestamp : Q;
  is_write : bool
}.

(** The clock reads of one [enqueue] call, in the order the code makes
    them: [time.time()], [datetime.datetime.now()] (microseconds) and
    [datetime.date.today()]. *)
Record clock : Type := {
  time_time : Q;
  datetime_now : Z;
  date_today : date
}.

(** The attributes of a [HeartbeatQueue] that the tracking code reads or
    writes, and the state file it persists to. [_queue] holds the pending
    items, oldest first; [None] is the stop sentinel. The thread, its lock
    and [_last_access_wall], which is never read, are left out. *)
Record state : Type := {
  _version : string;
  _queue : list (option HeartBeat);
  _last_hb : option HeartBeat;
  _running : bool;
  _total_tracked_seconds : Z;
  _last_tracked_time : option Z;
  _current_day : date;
  _disk : disk
}.

Definition set_total (n : Z) (s : state) : state :=
  {| _version := _version s; _queue := _queue s; _last_hb := _last_hb s;
     _running := _running s; _total_tracked_seconds := n;
     _last_tracked_time := _last_tracked_time s;
     _current_day := _current_day s; _disk := _disk s |}.

Definition set_day (d : date) (s : state) : state :=
  {| _version := _version s; _queue := _queue s; _last_hb := _last_hb s;
     _running := _running s; _total_tracked_seconds := _total_tracked_seconds s;
     _last_tracked_time := _last_tracked_time s;
     _current_day := d; _disk := _disk s |}.

Definition set_last_tracked (t : option Z) (s : state) : state :=
  {| _version := _version s; _queue := _queue s; _last_hb := _last_hb s;
     _running := _running s; _total_tracked_seconds := _total_tracked_seconds s;
     _last_tracked_time := t;
     _current_day := _current_day s; _disk := _disk s |}.

Definition set_disk (d : disk) (s : state) : state :=
  {| _version := _version s; _queue := _queue s; _last_hb := _last_hb s;
     _running := _running s; _total_tracked_seconds := _total_tracked_seconds s;
     _last_tracked_time := _last_tracked_time s;
     _current_day := _current_day s; _disk := d |}.

Definition set_running (b : bool) (s : state) : state :=
  {| _version := _version s; _queue := _queue s; _last_hb := _last_hb s;
     _running := b; _total_tracked_seconds := _total_tracked_seconds s;
     _last_tracked_time := _last_tracked_time s;
     _current_day := _current_day s; _disk := _disk s |}.

(** [self._last_hb = hb; self._queue.put_nowait(hb)] *)
Definition put_heartbeat (hb : HeartBeat) (s : state) : state :=
  {| _version := _version s; _queue := _queue s ++ [Some hb];
     _last_hb := Some hb;
     _running := _running s; _total_tracked_seconds := _total_tracked_seconds s;
     _last_tracked_time := _last_tracked_time s;
     _current_day := _current_day s; _disk := _disk s |}.

(** [self._queue.put_nowait(None)] *)
Definition put_sentinel (s : state) : state :=
  {| _version := _version s; _queue := _queue s ++ [None];
     _last_hb := _last_hb s;
     _running := _running s; _total_tracked_seconds := _total_tracked_seconds s;
     _last_tracked_time := _last_tracked_time s;
     _current_day := _current_day s; _disk := _disk s |}.

(** [save_tracked_seconds(self._current_day, self._total_tracked_seconds)] *)
Definition persist (s : state) : state :=
  set_disk (save_tracked_seconds (_current_day s) (_total_tracked_seconds s)
                                 (_disk s)) s.

(** Microseconds in a second. *)
Definition MICRO : Z := 1000000.

(** [x < y] on rationals, as a boolean. *)
Definition Qlt_bool (x y : Q) : bool := negb (Qle_bool y x).

(** [HeartbeatQueue.__init__]: [today] is the [date.today()] read there.
    The constructor raises when [load_tracked_seconds] does. *)
Definition init (int_of_str : string -> option Z)
    (version : string) (today : date) (dk : disk) : result state :=
  bind (load_tracked_seconds int_of_str today dk) (fun r =>
    let '(restored_seconds, restored) := r in
    Ok {| _version := version;
          _queue := [];
          _last_hb := None;
          _running := true;
          _total_tracked_seconds := if restored then restored_seconds else 0;
          _last_tracked_time := None;
          _current_day := today;
          _disk := if restored then dk else save_tracked_seconds today 0 dk |}).

Definition get_tracked_time (s : state) : Z := _total_tracked_seconds s.

(** [get_tracked_time_live]; [now] is the [datetime.now()] read there.
    [int(delta)] of a positive number of seconds is the whole part of the
    microsecond count divided by [10^6]. *)
Definition get_tracked_time_live (now : Z) (s : state) : Z :=
  let base_time := _total_tracked_seconds s in
  match _last_tracked_time s with
  | Some last =>
      let delta := now - last in
      if (0 <? delta) && (delta <? 120 * MICRO)
      then base_time + Z.quot delta MICRO
      else base_time
  | None => base_time
  end.

Definition _enough_time_passed (now : Q) (is_write : bool) (s : state) : bool :=
  let threshold : Q := if is_write then 2 # 1 else 30 # 1 in
  match _last_hb s with
  | None => true
  | Some hb => Qlt_bool threshold (now - timestamp hb)
  end.

(** The "daily reset check" block of [enqueue]. *)
Definition daily_reset (today : date) (s : state) : state :=
  if negb (date_eqb today (_current_day s)) then
    let s := set_total 0 s in
    let s := set_day today s in
    set_disk (save_tracked_seconds (_current_day s) 0 (_disk s)) s
  else s.

(** The "update live time tracking" block of [enqueue]. *)
Definition update_live_time (now : Z) (s : state) : state :=
  let s :=
    match _last_tracked_time s with
    | Some last =>
        let delta := now - last in
        if (0 <? delta) && (delta <? 600 * MICRO) then
          persist (set_total (_total_tracked_seconds s + Z.quot delta MICRO) s)
        else s
    | None => s
    end in
  set_last_tracked (Some now) s.

Section WithProjectName.

(** [simple_project_name]: the display name derived from the file name
    with [os.path], whose splitting rules belong to the host platform. *)
Variable simple_project_name : string -> string.

Definition enqueue (clk : clock) (filename : string) (is_write : bool)
    (s : state) : state :=
  let timestamp := time_time clk in
  let last_file :=
    match _last_hb s with Some hb => entity hb | None => "" end in
  let now := datetime_now clk in
  let today := date_today clk in
  let s := daily_reset today s in
  let s := update_live_time now s in
  if is_empty filename then s
  else if String.eqb filename last_file
          && negb (_enough_time_passed timestamp is_write s) then s
  else
    let project_name := simple_project_name filename in
    let hb := {| entity := filename; project := project_name;
                 timestamp := timestamp; is_write := is_write |} in
    persist (put_heartbeat hb s).

End WithProjectName.

(** [shutdown]: stop flag, final save, sentinel. *)
Definition shutdown (s : state) : state :=
  put_sentinel (persist (set_running false s)).

End Queue.

(* ===================================================================== *)
(** * Vocabulary for stating the queue's properties                      *)
(* ===================================================================== *)

Module QueueSpec.
Import PyStr Py Store Queue.

(** The seconds one [enqueue] call adds to the day's total: the whole
    seconds since the previous call when that gap is positive and under
    600 s, nothing otherwise. *)
Definition elapsed_credit (last : option Z) (now : Z) : Z :=
  match last with
  | Some l =>
      if (0 <? now - l) && (now - l <? 600 * MICRO)
      then Z.quot (now - l) MICRO
      else 0
  | None => 0
  end.

(** The state after the accounting part of [enqueue], before the
    decision about the heartbeat. *)
Definition accounted (clk : clock) (s : state) : state :=
  update_live_time (datetime_now clk) (daily_reset (date_today clk) s).

Section WithProjectName.
Variable simple_project_name : string -> string.

(** The heartbeat an [enqueue] call builds. *)
Definition new_heartbeat (clk : clock) (filename : string) (is_write : bool)
  : HeartBeat :=
  {| entity := filename; project := simple_project_name filename;
     timestamp := time_time clk; is_write := is_write |}.

(** The call put exactly one new heartbeat at the end of the queue. *)
Definition queued (clk : clock) (filename : string) (is_write : bool)
    (s : state) : Prop :=
  _queue (enqueue simple_project_name clk filename is_write s)
  = _queue s ++ [Some (new_heartbeat clk filename is_write)].

(** What happens to a queue over time: [enqueue] calls and reads of the
    live counter. *)
Inductive event : Type :=
| Enqueue (clk : clock) (filename : string) (is_write : bool)
| ReadLive (now : Z).

(** Run the events in order; the result is the final state and the values
    the reads returned, oldest first. *)
Fixpoint replay (s : state) (evs : list event) : state * list Z :=
  match evs with
  | [] => (s, [])
  | Enqueue clk filename is_write :: rest =>
      replay (enqueue simple_project_name clk filename is_write s) rest
  | ReadLive now :: rest =>
      let '(s', reads) := replay s rest in
      (s', get_tracked_time_live now s :: reads)
  end.

End WithProjectName.

(** The throttling rule in the words of the specification: nothing was
    queued yet, or the entity differs from the last queued one, or strictly
    more than the threshold (2 s for a write, 30 s otherwise) has passed
    since the last queued heartbeat's timestamp. *)
Definition heartbeat_due (clk : clock) (filename : string) (is_write : bool)
    (s : state) : Prop :=
  match _last_hb s with
  | None => True
  | Some hb =>
      entity hb <> filename
      \/ ((if is_write then 2 # 1 else 30 # 1) < time_time clk - timestamp hb)%Q
  end.

(** A history as the specification describes it. The events are in
    chronological order starting from [prev]; every [enqueue] call is made
    on the calendar day [day] and less than 600 s after the [enqueue] call
    before it, whose time is [last]. *)
Fixpoint spaced (day : date) (prev : Z) (last : option Z) (evs : list event)
  : bool :=
  match evs with
  | [] => true
  | Enqueue clk _ _ :: rest =>
      (prev <=? datetime_now clk)
      && date_eqb (date_today clk) day
      && match last with
         | Some l => datetime_now clk - l <? 600 * MICRO
         | None => true
         end
      && spaced day (datetime_now clk) (Some (datetime_now clk)) rest
  | ReadLive now :: rest =>
      (prev <=? now) && spaced day now last rest
  end.

(** Every read is made less than 120 s after the [enqueue] call before it,
    whose time is [last]. *)
Fixpoint reads_hot (last : option Z) (evs : list event) : bool :=
  match evs with
  | [] => true
  | Enqueue clk _ _ :: rest => reads_hot (Some (datetime_now clk)) rest
  | ReadLive now :: rest =>
      match last with
      | Some l => now - l <? 120 * MICRO
      | None => true
      end
      && reads_hot last rest
  end.

(** The history in which the live counter is read at every [enqueue]
    call, at the moment of the call. *)
Fixpoint read_at_calls (calls : list (clock * string * bool)) : list event :=
  match calls with
  | [] => []
  | (clk, filename, is_write) :: rest =>
      Enqueue clk filename is_write :: ReadLive (datetime_now clk)
      :: read_at_calls rest
  end.

End QueueSpec.

(* ===================================================================== *)
(** * heartbeat_queue.py: the delivery client                            *)
(* ===================================================================== *)

Module Delivery.
Import PyStr Py Queue.

Inductive level : Type := DEBUG | INFO | WARNING | ERROR.

(** Modelled from the spec: the module [wakatime_blender.log] is not among
    the sources. Delivery problems are "logged, not thrown": [log] appends
    the level and the message template to a console and never raises. *)
Definition log (lvl : level) (template : string)
    (console : list (level * string)) : list (level * string) :=
  console ++ [(lvl, template)].

(** What starting the CLI and waiting for it comes to: it ran and exited
    with [retcode], having printed [output] (decoded, as [u] returns it),
    or [Popen] raised. The command line handed to [Popen] is not modelled:
    the child enters only through this outcome. *)
Inductive popen_outcome : Type :=
| Exited (retcode : Z) (output : string)
| NotFound
| Failed (msg : string).

(** The settings store and the console, which the delivery call changes. *)
Record world : Type := {
  settings : Settings.state;
  console : list (level * string)
}.

Definition with_settings (st : Settings.state) (w : world) : world :=
  {| settings := st; console := console w |}.

Definition say (lvl : level) (template : string) (w : world) : world :=
  {| settings := settings w; console := log lvl template (console w) |}.

(** The three checks made before anything is sent; [client_path] is what
    [settings.api_client_path()] found on disk. *)
Definition has_api_key (w : world) : bool :=
  negb (is_empty (Settings.api_key (settings w))).

Definition has_api_url (w : world) : bool :=
  let api_url := rstrip_char "/" (Settings.api_server_url (settings w)) in
  negb (is_empty api_url)
  && (startswith api_url "http://" || startswith api_url "https://").

Definition has_client (client_path : option string) : bool :=
  Settings.truthy client_path.

(** The reading of the exit status: the [if]/[elif] chain and the two
    [if]s that follow it. *)
Definition interpret (retcode : Z) (output : string) (w : world) : world :=
  let w :=
    if ((retcode =? 0) || (retcode =? 102)) && is_empty output then
      say DEBUG "Heartbeat sent successfully" w
    else if retcode =? 104 then
      let w := say ERROR "Invalid Wakatime API key. Please check your API key in preferences." w in
      let w := say ERROR "You can get your API key from: https://wakatime.com/api-key" w in
      with_settings (Settings.set "api_key" "" (settings w)) w
    else if retcode =? 103 then
      say ERROR "Wakatime configuration error. Please check your API key and server URL." w
    else if retcode =? 105 then
      say ERROR "Wakatime API timeout. Please check your internet connection and API server URL." w
    else
      say ERROR "Wakatime API error (code: {})" w in
  let w :=
    if negb (retcode =? 0) && negb (retcode =? 102) then
      say (if retcode =? 102 then DEBUG else ERROR)
          "wakatime-core exited with status: {}" w
    else w in
  if negb (is_empty output) then say ERROR "wakatime-core output: {}" w else w.

(** The body of the [try]: it raises what [Popen] raised. *)
Definition run_client (proc : popen_outcome) (w : world) : result world :=
  match proc with
  | Exited retcode output => Ok (interpret retcode output w)
  | NotFound => Raise FileNotFoundError
  | Failed msg => Raise (OtherError msg)
  end.

(** The two [except] clauses. *)
Definition on_error (w : world) (e : exn) : result world :=
  match e with
  | FileNotFoundError =>
      Ok (say ERROR "Wakatime CLI not found. Please ensure the wakatime client is properly installed." w)
  | _ =>
      Ok (say ERROR "Failed to send heartbeat to Wakatime: {}" w)
  end.

Section WithInt.
Variable int_of_str : string -> option Z.

Definition _send_to_wakatime (heartbeat : HeartBeat)
    (extra_heartbeats : list HeartBeat) (client_path : option string)
    (proc : popen_outcome) (w : world) : result world :=
  if negb (has_api_key w) then
    Ok (say ERROR "Wakatime API key not configured. Please set your API key in preferences." w)
  else if negb (has_api_url w) then
    Ok (say ERROR "Invalid Wakatime API server URL: {}. Please check your configuration." w)
  else if negb (has_client client_path) then
    Ok (say ERROR "Wakatime CLI not found. Open Preferences > Force Sync to download the runtime." w)
  else
    let '(heartbeats_url, st) := Settings.api_heartbeats_url (settings w) in
    let st := Settings.ensure_offline_defaults int_of_str st in
    let w := with_settings st w in
    let w := say DEBUG "{cmd}" w in
    try_except (run_client proc w) (on_error w).

End WithInt.

End Delivery.

(* ===================================================================== *)
(** * Vocabulary for stating the delivery client's properties            *)
(* ===================================================================== *)

Module DeliverySpec.
Import PyStr Py Queue Delivery.

(** All three checks pass, so the CLI is started. *)
Definition ready (client_path : option string) (w : world) : bool :=
  has_api_key w && has_api_url w && has_client client_path.

(** The [api_key] option of the configuration. *)
Definition stored_key (w : world) : option string :=
  Settings._cfg (settings w) !! "api_key".

End DeliverySpec.

(* ===================================================================== *)
(** * timeline_logger.py                                                 *)
(* ===================================================================== *)

Module Timeline.
Import PyStr.

(** The timeline folder: the lines appended so far, oldest first, each
    with the name of the file it went to, and whether a file there can be
    opened for appending. *)
Record files : Type := {
  lines : list (string * string);
  appendable : bool
}.

(** The two UTC clock reads of one [log_event] call: the time stamp of the
    line ([isoformat()] to the second) and the day that names the file
    ([%Y-%m-%d]). *)
Record utc : Type := {
  stamp : string;
  day_name : string
}.

(** [log_event(message)]. A failure to write is swallowed. *)
Definition log_event (now : utc) (message : string) (t : files) : files :=
  if is_empty message then t
  else
    let timestamp := stamp now +:+ "Z" in
    let line := timestamp +:+ " - " +:+ strip message in
    if appendable t then
      {| lines := lines t ++ [(day_name now +:+ ".log", line)];
         appendable := true |}
    else t.

End Timeline.

(* ===================================================================== *)
(** * __init__.py: the activity signal and the tracking state            *)
(* ===================================================================== *)

Module Tracking.
Import PyStr Py.

(** The module globals that the tracking code reads or writes, and the
    timeline folder it logs to. *)
Record state : Type := {
  _heartbeat_queue : option Queue.state;
  _last_activity_monotonic : Q;
  _idle_timeout : Q;
  _tracking_active : bool;
  _tracking_reason : string;
  _last_focus_state : bool;
  _sync_status : string;
  _tracking_status : string;
  _cached_time_display : string;
  timeline : Timeline.files
}.

(** What one call reads from the host and the clocks.
    - [blend_filepath]: the result of [_blend_filepath()];
    - [settings]: the settings store;
    - [focus_probe]: the answer of the platform's focus query, [None] when
      the query raised;
    - [monotonic_check]: [time.monotonic()] in [_compute_tracking_condition];
    - [monotonic_enqueue]: [time.monotonic()] in [_enqueue_current_file];
    - [clk]: the clock reads of [HeartbeatQueue.enqueue];
    - [live_now]: [datetime.now()] in [get_tracked_time_live] when the
      status text is refreshed;
    - [utc_now]: the clock reads of [timeline_log_event]. *)
Record env : Type := {
  blend_filepath : string;
  settings : Settings.state;
  focus_probe : option bool;
  monotonic_check : Q;
  monotonic_enqueue : Q;
  clk : Queue.clock;
  live_now : Z;
  utc_now : Timeline.utc
}.

Definition set_queue (q : option Queue.state) (s : state) : state :=
  {| _heartbeat_queue := q;
     _last_activity_monotonic := _last_activity_monotonic s;
     _idle_timeout := _idle_timeout s;
     _tracking_active := _tracking_active s;
     _tracking_reason := _tracking_reason s;
     _last_focus_state := _last_focus_state s;
     _sync_status := _sync_status s;
     _tracking_status := _tracking_status s;
     _cached_time_display := _cached_time_display s;
     timeline := timeline s |}.

Definition set_last_activity (t : Q) (s : state) : state :=
  {| _heartbeat_queue := _heartbeat_queue s;
     _last_activity_monotonic := t;
     _idle_timeout := _idle_timeout s;
     _tracking_active := _tracking_active s;
     _tracking_reason := _tracking_reason s;
     _last_focus_state := _last_focus_state s;
     _sync_status := _sync_status s;
     _tracking_status := _tracking_status s;
     _cached_time_display := _cached_time_display s;
     timeline := timeline s |}.

Definition set_tracking (active : bool) (reason : string) (s : state) : state :=
  {| _heartbeat_queue := _heartbeat_queue s;
     _last_activity_monotonic := _last_activity_monotonic s;
     _idle_timeout := _idle_timeout s;
     _tracking_active := active;
     _tracking_reason := reason;
     _last_focus_state := _last_focus_state s;
     _sync_status := _sync_status s;
     _tracking_status := _tracking_status s;
     _cached_time_display := _cached_time_display s;
     timeline := timeline s |}.

Definition set_focus (focused : bool) (s : state) : state :=
  {| _heartbeat_queue := _heartbeat_queue s;
     _last_activity_monotonic := _last_activity_monotonic s;
     _idle_timeout := _idle_timeout s;
     _tracking_active := _tracking_active s;
     _tracking_reason := _tracking_reason s;
     _last_focus_state := focused;
     _sync_status := _sync_status s;
     _tracking_status := _tracking_status s;
     _cached_time_display := _cached_time_display s;
     timeline := timeline s |}.

Definition set_display (status display : string) (s : state) : state :=
  {| _heartbeat_queue := _heartbeat_queue s;
     _last_activity_monotonic := _last_activity_monotonic s;
     _idle_timeout := _idle_timeout s;
     _tracking_active := _tracking_active s;
     _tracking_reason := _tracking_reason s;
     _last_focus_state := _last_focus_state s;
     _sync_status := _sync_status s;
     _tracking_status := status;
     _cached_time_display := display;
     timeline := timeline s |}.

Definition set_timeline (t : Timeline.files) (s : state) : state :=
  {| _heartbeat_queue := _heartbeat_queue s;
     _last_activity_monotonic := _last_activity_monotonic s;
     _idle_timeout := _idle_timeout s;
     _tracking_active := _tracking_active s;
     _tracking_reason := _tracking_reason s;
     _last_focus_state := _last_focus_state s;
     _sync_status := _sync_status s;
     _tracking_status := _tracking_status s;
     _cached_time_display := _cached_time_display s;
     timeline := t |}.

(** [timeline_log_event(message)] *)
Definition timeline_log_event (e : env) (message : string) (s : state) : state :=
  set_timeline (Timeline.log_event (utc_now e) message (timeline s)) s.

(** Decimal digits of a natural number. *)
Definition decimal (n : Z) : string :=
  NilZero.string_of_uint (N.to_uint (Z.to_N n)).

(** The format [{n:02d}] for [n >= 0]. *)
Definition two_digits (n : Z) : string :=
  if n <? 10 then "0" +:+ decimal n else decimal n.

Definition format_tracking_time (raw_seconds : Z) : string :=
  let seconds := Z.max 0 raw_seconds in
  let hours := seconds / 3600 in
  let remainder := seconds mod 3600 in
  let minutes := remainder / 60 in
  let secs := remainder mod 60 in
  two_digits hours +:+ ":" +:+ two_digits minutes +:+ ":" +:+ two_digits secs.

Definition _compose_tracking_message (e : env) (s : state) : string :=
  match _tracking_active s, _heartbeat_queue s with
  | true, Some q =>
      "Tracking " +:+ format_tracking_time (Queue.get_tracked_time_live (live_now e) q)
  | _, _ =>
      if String.eqb (_tracking_reason s) "unsaved" then "Paused: Save file"
      else if String.eqb (_tracking_reason s) "idle" then "Paused: Idle"
      else if String.eqb (_tracking_reason s) "unfocused"
      then "Paused: Blender unfocused"
      else if String.eqb (_tracking_reason s) "api-key"
      then "Paused: Configure API key"
      else if String.eqb (_tracking_reason s) "disabled"
      then "Tracking unavailable"
      else "Tracking paused"
  end.

(** The separator of the status text, a bullet between two spaces. The
    bullet lies outside the characters below 256 and is kept here as the
    three bytes of its UTF-8 form. *)
Definition SEPARATOR : string := " • ".

(** [_refresh_statusbar_cache]; the redraw request to the host leaves no
    trace in the state. *)
Definition _refresh_statusbar_cache (e : env) (s : state) : state :=
  let status := _compose_tracking_message e s in
  set_display status (status +:+ SEPARATOR +:+ _sync_status s) s.

(** [_is_blender_focused]: the answer and the state with the remembered
    focus. *)
Definition _is_blender_focused (e : env) (s : state) : bool * state :=
  match focus_probe e with
  | Some focused => (focused, set_focus focused s)
  | None => (_last_focus_state s, s)
  end.

Definition _compute_tracking_condition (e : env) (s : state)
  : (bool * string) * state :=
  if is_empty (blend_filepath e) then ((false, "unsaved"), s)
  else if is_empty (Settings.api_key (settings e)) then ((false, "api-key"), s)
  else
    let '(focused, s) := _is_blender_focused e s in
    if negb focused then ((false, "unfocused"), s)
    else if Qle_bool (_idle_timeout s)
                     (monotonic_check e - _last_activity_monotonic s)
    then ((false, "idle"), s)
    else ((true, ""), s).

Section WithProjectName.
Variable simple_project_name : string -> string.

Definition _enqueue_current_file (e : env) (is_write : bool) (s : state)
  : state :=
  match _tracking_active s, _heartbeat_queue s with
  | true, Some q =>
      let s := set_last_activity (monotonic_enqueue e) s in
      let filepath := blend_filepath e in
      if is_empty filepath then s
      else set_queue
             (Some (Queue.enqueue simple_project_name (clk e) filepath is_write q))
             s
  | _, _ => s
  end.

Definition _set_tracking_state (e : env) (active : bool) (reason : string)
    (s : state) : state :=
  let previous_active := _tracking_active s in
  let previous_reason := _tracking_reason s in
  if Bool.eqb active previous_active && String.eqb reason previous_reason
  then s
  else
    let s := set_tracking active reason s in
    let s :=
      if active then
        if negb previous_active then
          _enqueue_current_file e false
            (timeline_log_event e "tracking resumed" s)
        else s
      else
        if previous_active || negb (String.eqb reason previous_reason) then
          timeline_log_event e ("tracking paused (" +:+ reason +:+ ")") s
        else s in
    _refresh_statusbar_cache e s.

Definition _update_tracking_state (e : env) (s : state) : bool * state :=
  let '((active, reason), s) := _compute_tracking_condition e s in
  (active, _set_tracking_state e active reason s).

End WithProjectName.

End Tracking.

(* ===================================================================== *)
(** * Vocabulary for stating the tracking properties                     *)
(* ===================================================================== *)

Module TrackingSpec.
Import PyStr Py Tracking.

(** The four inputs of the activity signal, as the evaluator sees them. *)
Definition saved (e : env) : bool := negb (is_empty (blend_filepath e)).

Definition has_key (e : env) : bool :=
  negb (is_empty (Settings.api_key (settings e))).

Definition focused (e : env) (s : state) : bool :=
  fst (_is_blender_focused e s).

(** Time since the last recorded activity. *)
Definition elapsed (e : env) (s : state) : Q :=
  monotonic_check e - _last_activity_monotonic s.

(** The [(active, reason)] pair the evaluator returns. *)
Definition decision (e : env) (s : state) : bool * string :=
  fst (_compute_tracking_condition e s).

End TrackingSpec.

(* ===================================================================== *)
(** * Sample inputs                                                      *)
(* ===================================================================== *)

Module Samples.
Import PyStr Py Store Queue.

Definition march_9 : date := {| year := 2025; month := 3; day := 9 |}.
Definition march_10 : date := {| year := 2025; month := 3; day := 10 |}.

(** No state file yet, in a folder that can be written. *)
Definition empty_disk : disk :=
  {| file := None; writable := true; journal := [] |}.

(** A queue as [__init__] leaves it on March 9 without stored seconds. *)
Definition fresh_queue : state :=
  {| _version := "2.0.2"; _queue := []; _last_hb := None; _running := true;
     _total_tracked_seconds := 0; _last_tracked_time := None;
     _current_day := march_9;
     _disk := {| file := Some (payload march_9 0); writable := true;
                 journal := [payload march_9 0] |} |}.

(** The clock reads of a call made [n] seconds into March 9. *)
Definition at_second (n : Z) : clock :=
  {| time_time := n # 1; datetime_now := n * MICRO; date_today := march_9 |}.

(** A queue that has queued [scene.blend] at second 1000 and has 5400 s
    on the counter. *)
Definition scene_heartbeat : HeartBeat :=
  {| entity := "/w/scene.blend"; project := "scene [blender]";
     timestamp := 1000 # 1; is_write := false |}.

Definition busy_queue : state :=
  {| _version := "2.0.2"; _queue := [Some scene_heartbeat];
     _last_hb := Some scene_heartbeat; _running := true;
     _total_tracked_seconds := 5400;
     _last_tracked_time := Some (1000 * MICRO);
     _current_day := march_9; _disk := empty_disk |}.

(** A configuration with an API key and nothing else. *)
Definition configured : Settings.state :=
  {| Settings._cfg := {[ "api_key" := "waka_0123" ]};
     Settings._api_url_synced := false;
     Settings.pref_api_key := None;
     Settings.pref_api_server_url := None |}.

Definition world_configured : Delivery.world :=
  {| Delivery.settings := configured; Delivery.console := [] |}.

(** The host with a saved file, a key and focus, 30 s after the last
    recorded activity. *)
Definition host : Tracking.env :=
  {| Tracking.blend_filepath := "/w/scene.blend";
     Tracking.settings := configured;
     Tracking.focus_probe := Some true;
     Tracking.monotonic_check := 30 # 1;
     Tracking.monotonic_enqueue := 30 # 1;
     Tracking.clk := at_second 1031;
     Tracking.live_now := 1031 * MICRO;
     Tracking.utc_now := {| Timeline.stamp := "2025-03-09T00:17:11";
                            Timeline.day_name := "2025-03-09" |} |}.

(** The host with nothing saved and no key. *)
Definition host_blank : Tracking.env :=
  {| Tracking.blend_filepath := "";
     Tracking.settings :=
       {| Settings._cfg := ∅; Settings._api_url_synced := false;
          Settings.pref_api_key := None;
          Settings.pref_api_server_url := None |};
     Tracking.focus_probe := Some true;
     Tracking.monotonic_check := 30 # 1;
     Tracking.monotonic_enqueue := 30 # 1;
     Tracking.clk := at_second 1031;
     Tracking.live_now := 1031 * MICRO;
     Tracking.utc_now := {| Timeline.stamp := "2025-03-09T00:17:11";
                            Timeline.day_name := "2025-03-09" |} |}.

(** Tracking paused for an unfocused window, last activity at second 0,
    timeout 30 s. *)
Definition paused_unfocused : Tracking.state :=
  {| Tracking._heartbeat_queue := Some busy_queue;
     Tracking._last_activity_monotonic := 0;
     Tracking._idle_timeout := 30 # 1;
     Tracking._tracking_active := false;
     Tracking._tracking_reason := "unfocused";
     Tracking._last_focus_state := false;
     Tracking._sync_status := "Sync idle";
     Tracking._tracking_status := "Paused: Blender unfocused";
     Tracking._cached_time_display :=
       "Paused: Blender unfocused" +:+ Tracking.SEPARATOR +:+ "Sync idle";
     Tracking.timeline := {| Timeline.lines := []; Timeline.appendable := true |} |}.

End Samples.

(* ===================================================================== *)
(** * Vocabulary for stating the settings store's properties             *)
(* ===================================================================== *)

Module SettingsSpec.
Import PyStr Settings.

(** The [offline] option as [_enforce_offline_defaults] reads it. *)
Definition current_offline (s : state) : string :=
  match _cfg s !! "offline" with
  | Some v => lower (strip v)
  | None => ""
  end.

(** The [sync_offline_activity] option as it reads it. *)
Definition current_sync (s : state) : string :=
  match _cfg s !! "sync_offline_activity" with
  | Some v => strip v
  | None => ""
  end.

(** A text that passes for a sync amount: not empty, not [none] in any
    case, and a positive integer for [int]. *)
Definition valid_amount (int_of_str : string -> option Z) (text : string)
  : bool :=
  negb (is_empty text)
  && negb (String.eqb (lower text) "none")
  && negb (not_positive int_of_str text).

(** The offline options are as [_enforce_offline_defaults] wants them. *)
Definition offline_ready (int_of_str : string -> option Z) (s : state) : bool :=
  String.eqb (current_offline s) "true"
  && valid_amount int_of_str (current_sync s).

(** The three stages of [api_server_url]: what the preference gives, what
    the two configuration options give, and the choice between them. *)
Definition pref_part (s : state) : string :=
  if truthy (pref_api_server_url s)
  then _strip_heartbeats_suffix (strip (default "" (pref_api_server_url s)))
  else default "" (pref_api_server_url s).

Definition cfg_part (server_url api_url : string) : string :=
  let cfg_value := _strip_heartbeats_suffix (strip server_url) in
  let cfg_value :=
    if is_empty cfg_value then _strip_heartbeats_suffix (strip api_url)
    else cfg_value in
  if is_empty cfg_value then cfg_value else strip cfg_value.

Definition choose (pref_value cfg_value : string) : string :=
  if negb (is_empty pref_value)
     && negb (String.eqb pref_value DEFAULT_API_SERVER_URL)
  then pref_value
  else if negb (is_empty cfg_value) then cfg_value
  else if negb (is_empty pref_value) then pref_value
  else DEFAULT_API_SERVER_URL.

End SettingsSpec.

(* ===================================================================== *)
(** * Vocabulary for the queue's persisted state                         *)
(* ===================================================================== *)

Module QueueInv.
Import PyStr Py Store Queue.

(** The state file holds the in-memory total: loading it for the stored
    day gives back [_total_tracked_seconds]. *)
Definition persisted (int_of_str : string -> option Z) (s : state) : Prop :=
  load_tracked_seconds int_of_str (_current_day s) (_disk s)
  = Ok (_total_tracked_seconds s, true).

(** A queue in good standing: the state file can be written, the total is
    not negative, and the file holds it. *)
Definition healthy (int_of_str : string -> option Z) (s : state) : Prop :=
  writable (_disk s) = true
  /\ 0 <= _total_tracked_seconds s
  /\ persisted int_of_str s.

End QueueInv.

(* ===================================================================== *)
(** * heartbeat_queue.py: the worker loop                                *)
(* ===================================================================== *)

Module Worker.
Import PyStr Py Queue Delivery.

(** What the worker thread works on: the queue object, the settings and
    console of the delivery client, and the time of the last warning about
    a missing API key ([None] while the attribute does not exist). *)
Record state : Type := {
  hq : Queue.state;
  world : Delivery.world;
  _last_api_key_warning : option Q
}.

(** The queue object with other pending items. *)
Definition with_queue (q : list (option HeartBeat)) (s : Queue.state)
  : Queue.state :=
  {| _version := _version s; _queue := q; _last_hb := _last_hb s;
     _running := _running s;
     _total_tracked_seconds := _total_tracked_seconds s;
     _last_tracked_time := _last_tracked_time s;
     _current_day := _current_day s; _disk := _disk s |}.

(** The inner [while True] loop: items are taken until the queue is empty
    or the sentinel comes out. The result is the extra heartbeats in the
    order they were queued, whether the sentinel was met, and what stays
    in the queue. *)
Fixpoint take_extras (q : list (option HeartBeat))
  : list HeartBeat * bool * list (option HeartBeat) :=
  match q with
  | [] => ([], false, [])
  | None :: rest => ([], true, rest)
  | Some hb :: rest =>
      let '(extras, stopped, remaining) := take_extras rest in
      (hb :: extras, stopped, remaining)
  end.

(** How one turn of the loop ends: with [continue] or at the end of the
    body, or with [return]. *)
Inductive outcome : Type :=
| Continue (w : state)
| Return (w : state).

(** The clock reads, the CLI location and the CLI's behaviour met by one
    turn: [time.time()] where the age of the last warning is tested and
    where the new warning is dated, [settings.api_client_path()] and the
    outcome of [Popen]. *)
Record turn : Type := {
  now_check : Q;
  now_set : Q;
  client_path : option string;
  proc : popen_outcome
}.

Section WithInt.
Variable int_of_str : string -> option Z.

(** The body of the [while self.running] loop after the sleep. Nothing is
    put into the queue while the turn takes items out of it. *)
Definition iteration (t : turn) (w : state) : outcome :=
  if is_empty (Settings.api_key (settings (world w))) then
    let warn :=
      Continue
        {| hq := hq w;
           world := say ERROR "Wakatime API key not configured. Please set your API key in Blender preferences." (world w);
           _last_api_key_warning := Some (now_set t) |} in
    match _last_api_key_warning w with
    | Some last =>
        if Qlt_bool (now_check t - last) (300 # 1) then Continue w else warn
    | None => warn
    end
  else
    match _queue (hq w) with
    | [] => Continue w
    | first :: rest =>
        let wd := say DEBUG "Processing heartbeat from queue" (world w) in
        match first with
        | None =>
            Return {| hq := with_queue rest (hq w);
                      world := say INFO "Wakatime heartbeat queue stopping" wd;
                      _last_api_key_warning := _last_api_key_warning w |}
        | Some heartbeat =>
            let '(extra_heartbeats, stopped, remaining) := take_extras rest in
            let q := with_queue remaining (hq w) in
            let q := if stopped then set_running false q else q in
            let wd := say DEBUG "Sending heartbeat: {} -> {}" wd in
            let wd :=
              match _send_to_wakatime int_of_str heartbeat extra_heartbeats
                      (client_path t) (proc t) wd with
              | Ok wd' => wd'
              | Raise _ => say ERROR "Failed to process heartbeat: {}" wd
              end in
            Continue {| hq := q; world := wd;
                        _last_api_key_warning := _last_api_key_warning w |}
        end
    end.

(** [run] without its opening log line: one turn for each element of
    [turns], as long as [self.running] holds at the head of the loop. *)
Fixpoint loop (turns : list turn) (w : state) : state :=
  match turns with
  | [] => w
  | t :: rest =>
      if _running (hq w) then
        match iteration t w with
        | Continue w' => loop rest w'
        | Return w' => w'
        end
      else w
  end.

Definition run (turns : list turn) (w : state) : state :=
  loop turns
    {| hq := hq w;
       world := say INFO "Wakatime heartbeat queue started" (world w);
       _last_api_key_warning := _last_api_key_warning w |}.

End WithInt.

End Worker.

(* ===================================================================== *)
(** * timeline_logger.py and __init__.py: recording activity             *)
(* ===================================================================== *)

Module Activity.
Import PyStr Py Tracking.

(** What [getattr] finds on a Blender operator; each attribute may be
    missing or [None]. [rna_name] and [rna_identifier] are the attributes
    of its [bl_rna], missing when [bl_rna] is. *)
Record operator : Type := {
  bl_label : option string;
  bl_idname : option string;
  rna_name : option string;
  rna_identifier : option string
}.

(** [a or b] on values that are [None] or a text. *)
Definition or_else (a b : option string) : option string :=
  if Settings.truthy a then a else b.

(** [log_operator_event(operator)] *)
Definition log_operator_event (now : Timeline.utc) (op : option operator)
    (t : Timeline.files) : Timeline.files :=
  match op with
  | None => t
  | Some o =>
      let label := or_else (bl_label o) (rna_name o) in
      let identifier := or_else (bl_idname o) (rna_identifier o) in
      if Settings.truthy label && Settings.truthy identifier then
        Timeline.log_event now
          ("operator " +:+ default "" label +:+ " (" +:+ default "" identifier
           +:+ ")") t
      else if Settings.truthy label then
        Timeline.log_event now ("operator " +:+ default "" label) t
      else if Settings.truthy identifier then
        Timeline.log_event now ("operator " +:+ default "" identifier) t
      else Timeline.log_event now "operator <unknown>" t
  end.

Section WithHost.

(** [simple_project_name] and [os.path.basename], both resting on the
    path rules of the host platform. *)
Variable simple_project_name : string -> string.
Variable basename : string -> string.

Local Abbreviation _update_tracking_state :=
  (Tracking._update_tracking_state simple_project_name).
Local Abbreviation _enqueue_current_file :=
  (Tracking._enqueue_current_file simple_project_name).

(** The three recorders. [now] is the [time.monotonic()] read that dates
    the activity, [logged_at] the clock reads of the recorder's own
    timeline line, [e] what the re-evaluation reads and [e2] what the
    [_enqueue_current_file] call at the end reads. *)
Definition _record_operator_activity (now : Q) (logged_at : Timeline.utc)
    (op : option operator) (e e2 : env) (s : state) : state :=
  let s := set_last_activity now s in
  let s := set_timeline (log_operator_event logged_at op (timeline s)) s in
  let '(active, s) := _update_tracking_state e s in
  if active then _enqueue_current_file e2 false s else s.

Definition _record_general_activity (now : Q) (e e2 : env) (s : state)
  : state :=
  let s := set_last_activity now s in
  let was_active := _tracking_active s in
  let '(active, s) := _update_tracking_state e s in
  if active && negb was_active then _enqueue_current_file e2 false s else s.

Definition _record_save_activity (now : Q) (logged_at : Timeline.utc)
    (filepath : option string) (e e2 : env) (s : state) : state :=
  let s := set_last_activity now s in
  let message :=
    if Settings.truthy filepath
    then "file saved " +:+ basename (default "" filepath)
    else "file saved" in
  let s := set_timeline (Timeline.log_event logged_at message (timeline s)) s in
  let '(active, s) := _update_tracking_state e s in
  if active then _enqueue_current_file e2 true s else s.

(** [_tracking_timer_fn]; [e2] is what the second refresh of the status
    text reads. Starting the event watchers of new windows leaves no trace
    in the state kept here. *)
Definition _tracking_timer_fn (e e2 : env) (s : state) : state :=
  let '(_, s) := _update_tracking_state e s in
  _refresh_statusbar_cache e2 s.

End WithHost.

End Activity.

(* ===================================================================== *)
(** * Vocabulary and sample inputs for the further properties            *)
(* ===================================================================== *)

Module MoreSpec.
Import PyStr Py.

(** No character of the text is white space. *)
Fixpoint no_space (s : string) : bool :=
  match s with
  | EmptyString => true
  | String c s' => negb (isspace c) && no_space s'
  end.



(** The sample state with tracking active. *)
Definition tracking_active : Tracking.state :=
  Tracking.set_tracking true "" Samples.paused_unfocused.

(** The sample state paused for an unsaved file. *)
Definition paused_unsaved : Tracking.state :=
  Tracking.set_tracking false "unsaved" Samples.paused_unfocused.

(** A CLI that is found and exits with the given code and output. *)
Definition cli_exit (retcode : Z) (output : string) : Worker.turn :=
  {| Worker.now_check := 1000 # 1; Worker.now_set := 1000 # 1;
     Worker.client_path := Some "/home/u/.wakatime/wakatime-runtime/cli.py";
     Worker.proc := Delivery.Exited retcode output |}.

(** A configuration without a key of its own under preferences that hold
    one. *)
Definition key_in_prefs : Delivery.world :=
  {| Delivery.settings :=
       {| Settings._cfg := ∅; Settings._api_url_synced := false;
          Settings.pref_api_key := Some "waka_pref_77";
          Settings.pref_api_server_url := None |};
     Delivery.console := [] |}.

(** An operator with a label and an identifier. *)
Definition translate_operator : Activity.operator :=
  {| Activity.bl_label := Some "Move";
     Activity.bl_idname := Some "TRANSFORM_OT_translate";
     Activity.rna_name := None; Activity.rna_identifier := None |}.

End MoreSpec.

(* ===================================================================== *)
(** * Facts about the string operations                                  *)
(* ===================================================================== *)

Module PyStrFacts.
Import PyStr.

Lemma append_cons (c : ascii) (s t : string) :
  String c s +:+ t = String c (s +:+ t).
Proof. reflexivity. Qed.

Lemma append_nil_l (t : string) : "" +:+ t = t.
Proof. reflexivity. Qed.

Lemma append_nil_r (s : string) : s +:+ "" = s.
Proof.
  induction s as [|c s IH]; [reflexivity|].
  now rewrite append_cons, IH.
Qed.

Lemma append_assoc (a b c : string) : (a +:+ b) +:+ c = a +:+ (b +:+ c).
Proof.
  induction a as [|x a IH]; [reflexivity|].
  now rewrite !append_cons, IH.
Qed.

Lemma length_append (a b : string) :
  String.length (a +:+ b) = (String.length a + String.length b)%nat.
Proof.
  induction a as [|x a IH]; [reflexivity|].
  rewrite append_cons. simpl. now rewrite IH.
Qed.

Lemma endswith_append (p suffix : string) : endswith (p +:+ suffix) suffix = true.
Proof.
  induction p as [|c p IH].
  - rewrite append_nil_l. destruct suffix; cbn [endswith]; now rewrite String.eqb_refl.
  - rewrite append_cons. cbn [endswith]. rewrite IH. apply orb_true_r.
Qed.

Lemma endswith_inv (s suffix : string) :
  endswith s suffix = true -> exists p, s = p +:+ suffix.
Proof.
  induction s as [|c s IH]; cbn [endswith]; intros H.
  - rewrite orb_false_r in H. apply String.eqb_eq in H. exists "". now subst.
  - apply orb_true_iff in H as [H|H].
    + apply String.eqb_eq in H. exists "". now subst.
    + destruct (IH H) as [p ->]. exists (String c p). now rewrite append_cons.
Qed.

Lemma last_char_append (p : string) (c : ascii) (t : string) :
  last_char (p +:+ String c t) = last_char (String c t).
Proof.
  induction p as [|x p IH]; [reflexivity|].
  rewrite append_cons.
  destruct (p +:+ String c t) eqn:E.
  - destruct p; discriminate.
  - rewrite <- IH. reflexivity.
Qed.

Lemma endswith_last_char (s suffix : string) (c : ascii) :
  endswith s suffix = true -> last_char suffix = Some c -> last_char s = Some c.
Proof.
  intros H L. destruct (endswith_inv _ _ H) as [p ->].
  destruct suffix as [|d t]; [discriminate|].
  now rewrite last_char_append.
Qed.

Lemma endswith_last_differs (s suffix : string) (c d : ascii) :
  last_char s = Some c -> last_char suffix = Some d -> c <> d ->
  endswith s suffix = false.
Proof.
  intros Ls Lt Hne. destruct (endswith s suffix) eqn:E; [|reflexivity].
  rewrite (endswith_last_char _ _ _ E Lt) in Ls. congruence.
Qed.

Lemma rstrip_by_keeps (p : ascii -> bool) (s : string) (c : ascii) :
  last_char s = Some c -> p c = false -> rstrip_by p s = s.
Proof.
  induction s as [|x s IH]; [discriminate|].
  intros L Hc. destruct s as [|y s].
  - simpl in *. injection L as ->. now rewrite Hc.
  - change (last_char (String y s) = Some c) in L.
    specialize (IH L Hc).
    change (match rstrip_by p (String y s) with
            | "" => if p x then "" else String x ""
            | r => String x r
            end = String x (String y s)).
    now rewrite IH.
Qed.

Lemma lstrip_by_keeps (s : string) :
  clean_head s = true -> lstrip_by isspace s = s.
Proof.
  destruct s as [|c s]; simpl; [reflexivity|].
  intros H. apply negb_true_iff in H. now rewrite H.
Qed.

Lemma substring_append_l (p t : string) :
  String.substring 0 (String.length p) (p +:+ t) = p.
Proof.
  induction p as [|c p IH]; [now destruct t|].
  rewrite append_cons. simpl. now rewrite IH.
Qed.

Lemma drop_last_append (p suffix : string) :
  drop_last (String.length suffix) (p +:+ suffix) = p.
Proof.
  unfold drop_last. rewrite length_append.
  replace (String.length p + String.length suffix - String.length suffix)%nat
    with (String.length p) by lia.
  apply substring_append_l.
Qed.

Lemma length_substring_0 (n : nat) (s : string) :
  String.length (String.substring 0 n s) = Nat.min n (String.length s).
Proof.
  revert n. induction s as [|c s IH]; intros [|n]; cbn; try reflexivity.
  now rewrite IH.
Qed.

Lemma endswith_char_iff (s : string) (c : ascii) :
  endswith s (String c "") = true <-> last_char s = Some c.
Proof.
  induction s as [|x s IH]; cbn [endswith last_char].
  - cbn. split; discriminate.
  - destruct s as [|y s].
    + cbn [String.eqb endswith]. rewrite !orb_false_r.
      destruct (Ascii.eqb_spec x c) as [->|Hne]; cbn.
      * tauto.
      * split; [discriminate | congruence].
    + rewrite <- IH.
      assert (E : String.eqb (String x (String y s)) (String c "") = false).
      { cbn. destruct (Ascii.eqb x c); [|reflexivity]. reflexivity. }
      now rewrite E.
Qed.

Lemma rstrip_by_snoc (p : ascii -> bool) (s : string) (c : ascii) :
  p c = true -> rstrip_by p (s +:+ String c "") = rstrip_by p s.
Proof.
  intros Hc. induction s as [|x s IH].
  - rewrite append_nil_l. cbn [rstrip_by]. now rewrite Hc.
  - rewrite append_cons. cbn [rstrip_by]. now rewrite IH.
Qed.

Lemma rstrip_by_unchanged (s : string) (c : ascii) :
  endswith s (String c "") = false -> rstrip_by (Ascii.eqb c) s = s.
Proof.
  intros H. destruct (last_char s) as [d|] eqn:L.
  - apply rstrip_by_keeps with (c := d); [exact L|].
    apply Ascii.eqb_neq. intros ->.
    apply endswith_char_iff in L. congruence.
  - destruct s as [|x s]; [reflexivity|].
    exfalso. clear H. revert x L.
    induction s as [|y s IH]; intros x L; [discriminate|].
    now apply (IH y).
Qed.

End PyStrFacts.

(* ===================================================================== *)
(** * Facts about the endpoint derivation                                *)
(* ===================================================================== *)

Module SettingsFacts.
Import PyStr PyStrFacts Settings.

Local Ltac last_of_literal :=
  first [ reflexivity | rewrite last_char_append; reflexivity ].

Lemma is_empty_append (p : string) (c : ascii) (t : string) :
  is_empty (p +:+ String c t) = false.
Proof. now destruct p. Qed.

Lemma clean_head_append (a t : string) :
  clean_head a = true -> clean_head t = true -> clean_head (a +:+ t) = true.
Proof. destruct a; [now rewrite append_nil_l | now rewrite append_cons]. Qed.

Lemma clean_head_prefix (a t : string) :
  clean_head (a +:+ t) = true -> clean_head a = true.
Proof. destruct a; [reflexivity | now rewrite append_cons]. Qed.

Lemma clean_head_lstrip (s : string) : clean_head (lstrip_by isspace s) = true.
Proof.
  induction s as [|c s IH]; [reflexivity|].
  cbn [lstrip_by]. destruct (isspace c) eqn:E; [exact IH|].
  cbn [clean_head]. now rewrite E.
Qed.

Lemma rstrip_by_prefix (p : ascii -> bool) (s : string) :
  exists t, s = rstrip_by p s +:+ t.
Proof.
  induction s as [|c s [t IH]]; [now exists ""|].
  cbn [rstrip_by]. destruct (rstrip_by p s) as [|d r] eqn:E.
  - destruct (p c).
    + now exists (String c s).
    + exists s. reflexivity.
  - exists t. rewrite append_cons. now rewrite <- IH.
Qed.

Lemma substring_prefix (n : nat) (s : string) :
  exists t, s = String.substring 0 n s +:+ t.
Proof.
  revert n. induction s as [|c s IH]; intros [|n]; cbn [String.substring].
  - now exists "".
  - now exists "".
  - now exists (String c s).
  - destruct (IH n) as [t Ht]. exists t. rewrite append_cons. now rewrite <- Ht.
Qed.

Lemma strip_slashes_loop_prefix (fuel : nat) (s : string) :
  exists t, s = strip_slashes_loop fuel s +:+ t.
Proof.
  revert s. induction fuel as [|fuel IH]; intros s; cbn [strip_slashes_loop].
  - exists "". now rewrite append_nil_r.
  - destruct (endswith s "/").
    + destruct (IH (drop_last 1 s)) as [t Ht].
      destruct (substring_prefix (String.length s - 1) s) as [t' Ht'].
      exists (t +:+ t'). rewrite <- append_assoc, <- Ht. exact Ht'.
    + exists "". now rewrite append_nil_r.
Qed.

Lemma cut_first_suffix_prefix (l : list string) (s : string) :
  exists t, s = cut_first_suffix l s +:+ t.
Proof.
  induction l as [|x l IH]; cbn [cut_first_suffix].
  - exists "". now rewrite append_nil_r.
  - destruct (endswith s x); [apply substring_prefix | exact IH].
Qed.

Lemma strip_slashes_loop_keeps (fuel : nat) (s : string) (c : ascii) :
  last_char s = Some c -> c <> "/"%char -> strip_slashes_loop fuel s = s.
Proof.
  intros L Hc. destruct fuel; cbn [strip_slashes_loop]; [reflexivity|].
  now rewrite (endswith_last_differs s "/" c "/" L eq_refl Hc).
Qed.

(** The loop has fuel enough: it does what [rstrip('/')] does. *)
Lemma strip_slashes_loop_rstrip (fuel : nat) (s : string) :
  (String.length s <= fuel)%nat ->
  strip_slashes_loop fuel s = rstrip_char "/" s.
Proof.
  revert s. induction fuel as [|fuel IH]; intros s Hlen.
  - destruct s; [reflexivity | cbn in Hlen; lia].
  - cbn [strip_slashes_loop]. unfold rstrip_char in *.
    destruct (endswith s "/") eqn:E.
    + destruct (endswith_inv _ _ E) as [p ->].
      change 1%nat with (String.length "/"). rewrite drop_last_append.
      rewrite rstrip_by_snoc by reflexivity.
      apply IH. rewrite length_append in Hlen. cbn in Hlen. lia.
    + symmetry. now apply rstrip_by_unchanged.
Qed.

(** The part of the text left after stripping never begins with a space. *)
Lemma clean_head_strip_heartbeats_suffix (url : string) :
  clean_head (_strip_heartbeats_suffix url) = true.
Proof.
  unfold _strip_heartbeats_suffix. destruct (is_empty url); [reflexivity|].
  cbv zeta. unfold strip.
  set (a := lstrip_by isspace url).
  assert (Ha : clean_head a = true) by apply clean_head_lstrip.
  destruct (rstrip_by_prefix isspace a) as [t1 H1].
  set (b := rstrip_by isspace a) in *.
  destruct (strip_slashes_loop_prefix (String.length b) b) as [t2 H2].
  set (c := strip_slashes_loop (String.length b) b) in *.
  destruct (cut_first_suffix_prefix heartbeat_suffixes c) as [t3 H3].
  apply clean_head_prefix with (t := t3). rewrite <- H3.
  apply clean_head_prefix with (t := t2). rewrite <- H2.
  apply clean_head_prefix with (t := t1). now rewrite <- H1.
Qed.

(** A text that already ends in [/v1/users/current/heartbeats.bulk] loses
    exactly the [/users/current/heartbeats.bulk] part. *)
Lemma strip_heartbeats_suffix_derived (p : string) :
  clean_head (p +:+ "/v1/users/current/heartbeats.bulk") = true ->
  _strip_heartbeats_suffix (p +:+ "/v1/users/current/heartbeats.bulk")
  = p +:+ "/v1".
Proof.
  intros Hc. unfold _strip_heartbeats_suffix.
  rewrite is_empty_append. cbv zeta. unfold strip.
  rewrite (lstrip_by_keeps _ Hc).
  rewrite (rstrip_by_keeps isspace _ "k"); [|last_of_literal|reflexivity].
  rewrite (strip_slashes_loop_keeps _ _ "k"); [|last_of_literal|discriminate].
  cbn [heartbeat_suffixes cut_first_suffix].
  change "/v1/users/current/heartbeats.bulk"
    with ("/v1" +:+ "/users/current/heartbeats.bulk").
  rewrite <- append_assoc, endswith_append.
  apply drop_last_append.
Qed.

Lemma normalize_api_v1_base_derived (p : string) :
  clean_head (p +:+ "/v1/users/current/heartbeats.bulk") = true ->
  _normalize_api_v1_base (p +:+ "/v1/users/current/heartbeats.bulk")
  = p +:+ "/v1".
Proof.
  intros Hc. unfold _normalize_api_v1_base, str_or.
  rewrite is_empty_append, (strip_heartbeats_suffix_derived _ Hc).
  cbv zeta. unfold rstrip_char.
  rewrite (rstrip_by_keeps _ _ "1"); [|last_of_literal|reflexivity].
  rewrite (endswith_append p "/v1"), orb_true_r. reflexivity.
Qed.

(** Appending the endpoint path to a base that ends in [/v1]. *)
Lemma heartbeats_url_of_v1_base (q : string) :
  (let base := rstrip_char "/" (q +:+ "/v1") in
   if endswith base "/users/current/heartbeats.bulk" then base
   else if endswith base "/users/current" then base +:+ "/heartbeats.bulk"
   else base +:+ "/users/current/heartbeats.bulk")
  = q +:+ "/v1/users/current/heartbeats.bulk".
Proof.
  cbv zeta. unfold rstrip_char.
  rewrite (rstrip_by_keeps _ _ "1"); [|last_of_literal|reflexivity].
  rewrite (endswith_last_differs _ "/users/current/heartbeats.bulk" "1" "k");
    [|last_of_literal|reflexivity|discriminate].
  rewrite (endswith_last_differs _ "/users/current" "1" "t");
    [|last_of_literal|reflexivity|discriminate].
  now rewrite append_assoc.
Qed.

(** The normalised base always ends in [/v1] and never begins with a
    space. *)
Lemma normalize_api_v1_base_shape (raw_url : string) :
  exists q, _normalize_api_v1_base raw_url = q +:+ "/v1"
            /\ clean_head (q +:+ "/v1") = true.
Proof.
  unfold _normalize_api_v1_base. cbv zeta.
  set (s := _strip_heartbeats_suffix _).
  assert (Hs : clean_head s = true) by apply clean_head_strip_heartbeats_suffix.
  destruct (rstrip_by_prefix (Ascii.eqb "/") s) as [t Ht].
  fold (rstrip_char "/" s) in Ht. set (b := rstrip_char "/" s) in *.
  assert (Hb : clean_head b = true).
  { apply clean_head_prefix with (t := t). now rewrite <- Ht. }
  destruct (endswith b "/api/v1") eqn:E1; cbn [orb].
  - destruct (endswith_inv _ _ E1) as [q Hq]. exists (q +:+ "/api").
    rewrite append_assoc. change ("/api" +:+ "/v1") with "/api/v1".
    now rewrite <- Hq.
  - destruct (endswith b "/v1") eqn:E2.
    + destruct (endswith_inv _ _ E2) as [q Hq]. exists q. now rewrite <- Hq.
    + destruct (endswith b "/api").
      * exists b. split; [reflexivity|]. now apply clean_head_append.
      * exists (b +:+ "/api"). rewrite append_assoc.
        change ("/api" +:+ "/v1") with "/api/v1".
        split; [reflexivity|]. now apply clean_head_append.
Qed.

(** Every derived endpoint is some base ending in [/v1] followed by the
    endpoint path. *)
Lemma api_heartbeats_url_shape (raw_url : string) :
  exists q,
    api_heartbeats_url_for_value raw_url
    = q +:+ "/v1/users/current/heartbeats.bulk"
    /\ clean_head (q +:+ "/v1/users/current/heartbeats.bulk") = true.
Proof.
  destruct (normalize_api_v1_base_shape raw_url) as [q [Hq Hc]].
  exists q. unfold api_heartbeats_url_for_value. rewrite Hq.
  split; [apply heartbeats_url_of_v1_base|].
  change "/v1/users/current/heartbeats.bulk"
    with ("/v1" +:+ "/users/current/heartbeats.bulk").
  rewrite <- append_assoc. now apply clean_head_append.
Qed.

Lemma api_heartbeats_url_fixed (p : string) :
  clean_head (p +:+ "/v1/users/current/heartbeats.bulk") = true ->
  api_heartbeats_url_for_value (p +:+ "/v1/users/current/heartbeats.bulk")
  = p +:+ "/v1/users/current/heartbeats.bulk".
Proof.
  intros Hc. unfold api_heartbeats_url_for_value.
  rewrite (normalize_api_v1_base_derived _ Hc).
  apply heartbeats_url_of_v1_base.
Qed.

(** C7. The default base URL [https://api.wakatime.com/] is mapped to
    [https://api.wakatime.com/api/v1/users/current/heartbeats.bulk], and
    the derivation is idempotent: deriving again from any derived endpoint
    returns it unchanged, and so does deriving from any text that ends in
    [/api/v1/users/current/heartbeats.bulk] and does not begin with white
    space (as no URL does). *)
Theorem api_heartbeats_url_idempotent :
  api_heartbeats_url_for_value "https://api.wakatime.com/"
  = "https://api.wakatime.com/api/v1/users/current/heartbeats.bulk"
  /\ (forall raw_url : string,
        api_heartbeats_url_for_value (api_heartbeats_url_for_value raw_url)
        = api_heartbeats_url_for_value raw_url)
  /\ (forall url : string,
        clean_head url = true ->
        endswith url "/api/v1/users/current/heartbeats.bulk" = true ->
        api_heartbeats_url_for_value url = url).
Proof.
  split; [vm_compute; reflexivity|]. split.
  - intros raw_url.
    destruct (api_heartbeats_url_shape raw_url) as [q [Hq Hc]].
    rewrite Hq. now apply api_heartbeats_url_fixed.
  - intros url Hc He.
    destruct (endswith_inv _ _ He) as [p Hp]. subst url.
    change "/api/v1/users/current/heartbeats.bulk"
      with ("/api" +:+ "/v1/users/current/heartbeats.bulk") in *.
    rewrite <- append_assoc in *. now apply api_heartbeats_url_fixed.
Qed.

Lemma api_heartbeats_url_idempotent_witness :
  api_heartbeats_url_for_value
    "https://waka.example.org/api/v1/users/current/heartbeats.bulk"
  = "https://waka.example.org/api/v1/users/current/heartbeats.bulk".
Proof.
  apply (proj2 (proj2 api_heartbeats_url_idempotent)); reflexivity.
Defined.

(** The condition on the first character matters only for text that is
    no URL: leading white space is stripped off. *)
Example api_heartbeats_url_leading_space :
  api_heartbeats_url_for_value
    " https://waka.example.org/api/v1/users/current/heartbeats.bulk"
  = "https://waka.example.org/api/v1/users/current/heartbeats.bulk".
Proof. vm_compute. reflexivity. Qed.

Example api_heartbeats_url_samples :
  api_heartbeats_url_for_value "" 
  = "https://api.wakatime.com/api/v1/users/current/heartbeats.bulk"
  /\ api_heartbeats_url_for_value "https://waka.example.org/api/"
     = "https://waka.example.org/api/v1/users/current/heartbeats.bulk"
  /\ api_heartbeats_url_for_value "https://waka.example.org/v1/heartbeats"
     = "https://waka.example.org/v1/users/current/heartbeats.bulk".
Proof. vm_compute. repeat split. Qed.

End SettingsFacts.

(* ===================================================================== *)
(** * Facts about the persisted counter                                  *)
(* ===================================================================== *)

Module StoreFacts.
Import PyStr Py Store.

Lemma digit_inj (a b : Z) : digit a = digit b -> a mod 10 = b mod 10.
Proof.
  unfold digit. intros H.
  assert (Ha : 0 <= a mod 10 < 10) by (apply Z.mod_pos_bound; lia).
  assert (Hb : 0 <= b mod 10 < 10) by (apply Z.mod_pos_bound; lia).
  apply (f_equal N_of_ascii) in H.
  rewrite !N_ascii_embedding in H by lia. lia.
Qed.

Lemma isoformat_inj (a b : date) :
  valid_date a = true -> valid_date b = true ->
  isoformat a = isoformat b -> a = b.
Proof.
  unfold valid_date, isoformat. intros Ha Hb H.
  destruct a as [ya ma da], b as [yb mb db]; cbn [year month day] in *.
  injection H as E1 E2 E3 E4 E5 E6 E7 E8.
  apply digit_inj in E1, E2, E3, E4, E5, E6, E7, E8.
  repeat (apply andb_prop in Ha as [Ha ?]).
  repeat (apply andb_prop in Hb as [Hb ?]).
  rewrite ?Z.leb_le in *.
  assert (ya = yb) by (Z.div_mod_to_equations; lia).
  assert (ma = mb) by (Z.div_mod_to_equations; lia).
  assert (da = db) by (Z.div_mod_to_equations; lia).
  congruence.
Qed.

Lemma equals_str_isoformat (a b : date) :
  valid_date a = true -> valid_date b = true -> a <> b ->
  equals_str (Some (JStr (isoformat a))) (isoformat b) = false.
Proof.
  intros Ha Hb Hne. cbn [equals_str].
  apply String.eqb_neq. intros E. apply Hne. now apply isoformat_inj.
Qed.

(** What a successful [save] leaves in the file. *)
Lemma file_after_save (d : date) (n : Z) (dk : disk) :
  writable dk = true ->
  file (save_tracked_seconds d n dk) = Some (payload d n).
Proof. intros W. unfold save_tracked_seconds. now rewrite W. Qed.

(** C4. When the state file can be written, [load(d)] after [save(d, N)]
    with [N >= 0] returns [(N, True)]; [load(d2)] for any other day [d2]
    returns [(0, False)]; and [load] returns [(0, False)] when there is no
    record at all. *)
Theorem load_after_save
    (int_of_str : string -> option Z) (d : date) (N : Z) (dk : disk) :
  0 <= N ->
  writable dk = true ->
  load_tracked_seconds int_of_str d (save_tracked_seconds d N dk) = Ok (N, true)
  /\ (forall d2 : date,
        valid_date d = true -> valid_date d2 = true -> d2 <> d ->
        load_tracked_seconds int_of_str d2 (save_tracked_seconds d N dk)
        = Ok (0, false))
  /\ (forall (d0 : date) (empty : disk),
        file empty = None ->
        load_tracked_seconds int_of_str d0 empty = Ok (0, false)).
Proof.
  intros HN W. split; [|split].
  - unfold load_tracked_seconds. rewrite (file_after_save d N dk W).
    unfold payload. cbn [dict_get String.eqb Ascii.eqb Bool.eqb].
    cbn [equals_str]. rewrite String.eqb_refl. cbn [negb].
    cbv [default from_option id py_int]. now rewrite !Z.max_r by lia.
  - intros d2 Hd Hd2 Hne. unfold load_tracked_seconds.
    rewrite (file_after_save d N dk W).
    unfold payload. cbn [dict_get String.eqb Ascii.eqb Bool.eqb].
    now rewrite (equals_str_isoformat d d2 Hd Hd2) by congruence.
  - intros d0 empty He. unfold load_tracked_seconds. now rewrite He.
Qed.

Lemma load_after_save_witness :
  let d := {| year := 2025; month := 3; day := 9 |} in
  let d2 := {| year := 2025; month := 3; day := 10 |} in
  let dk := {| file := None; writable := true; journal := [] |} in
  load_tracked_seconds (fun _ => None) d (save_tracked_seconds d 754 dk)
  = Ok (754, true)
  /\ load_tracked_seconds (fun _ => None) d2 (save_tracked_seconds d 754 dk)
     = Ok (0, false).
Proof.
  intros d d2 dk.
  assert (HN : 0 <= 754) by lia.
  assert (W : writable dk = true) by reflexivity.
  destruct (load_after_save (fun _ => None) d 754 dk HN W) as [H1 [H2 _]].
  split; [exact H1|].
  apply H2; [reflexivity | reflexivity | discriminate].
Defined.

End StoreFacts.

(* ===================================================================== *)
(** * Facts about the heartbeat queue                                    *)
(* ===================================================================== *)

Module QueueFacts.
Import PyStr Py Store Queue QueueSpec.

Lemma date_eqb_eq (a b : date) : date_eqb a b = true <-> a = b.
Proof.
  unfold date_eqb. destruct a, b; cbn [year month day].
  rewrite !andb_true_iff, !Z.eqb_eq. split.
  - intros [[-> ->] ->]. reflexivity.
  - intros H. injection H as -> -> ->. auto.
Qed.

Lemma date_eqb_neq (a b : date) : date_eqb a b = false <-> a <> b.
Proof.
  rewrite <- date_eqb_eq. destruct (date_eqb a b); split; congruence.
Qed.

Lemma Qlt_bool_iff (x y : Q) : Qlt_bool x y = true <-> (x < y)%Q.
Proof.
  unfold Qlt_bool. rewrite negb_true_iff, <- not_true_iff_false, Qle_bool_iff.
  split; [apply Qnot_le_lt | apply Qlt_not_le].
Qed.

Lemma is_empty_false (s : string) : s <> "" -> is_empty s = false.
Proof. now destruct s. Qed.

Lemma list_neq_snoc {A : Type} (l : list A) (x : A) : l <> l ++ [x].
Proof.
  intros E. apply (f_equal (@List.length A)) in E.
  rewrite List.length_app in E. cbn in E. lia.
Qed.

Lemma elapsed_credit_nonneg (last : option Z) (now : Z) :
  0 <= elapsed_credit last now.
Proof.
  unfold elapsed_credit. destruct last as [l|]; [|lia].
  destruct (0 <? now - l) eqn:E; cbn [andb]; [|lia].
  destruct (now - l <? 600 * MICRO); [|lia].
  apply Z.ltb_lt in E. apply Z.quot_pos; unfold MICRO; lia.
Qed.

Lemma elapsed_credit_bound (last : option Z) (now : Z) :
  elapsed_credit last now < 600.
Proof.
  unfold elapsed_credit. destruct last as [l|]; [|lia].
  destruct (0 <? now - l) eqn:E; cbn [andb]; [|lia].
  destruct (now - l <? 600 * MICRO) eqn:E2; [|lia].
  apply Z.ltb_lt in E, E2. unfold MICRO in *.
  apply Z.quot_lt_upper_bound; lia.
Qed.

(** ** The two accounting blocks, field by field *)

Section Blocks.
Variables (today : date) (now : Z) (s : state).

Lemma daily_reset_total :
  _total_tracked_seconds (daily_reset today s)
  = if date_eqb today (_current_day s) then _total_tracked_seconds s else 0.
Proof. unfold daily_reset. now destruct (date_eqb today (_current_day s)). Qed.

Lemma daily_reset_day : _current_day (daily_reset today s) = today.
Proof.
  unfold daily_reset. destruct (date_eqb today (_current_day s)) eqn:E.
  - symmetry. now apply date_eqb_eq.
  - reflexivity.
Qed.

Lemma daily_reset_disk :
  _disk (daily_reset today s)
  = if date_eqb today (_current_day s) then _disk s
    else save_tracked_seconds today 0 (_disk s).
Proof. unfold daily_reset. now destruct (date_eqb today (_current_day s)). Qed.

Lemma daily_reset_last_tracked :
  _last_tracked_time (daily_reset today s) = _last_tracked_time s.
Proof. unfold daily_reset. now destruct (date_eqb today (_current_day s)). Qed.

Lemma daily_reset_last_hb : _last_hb (daily_reset today s) = _last_hb s.
Proof. unfold daily_reset. now destruct (date_eqb today (_current_day s)). Qed.

Lemma daily_reset_queue : _queue (daily_reset today s) = _queue s.
Proof. unfold daily_reset. now destruct (date_eqb today (_current_day s)). Qed.

Lemma update_live_time_total :
  _total_tracked_seconds (update_live_time now s)
  = _total_tracked_seconds s + elapsed_credit (_last_tracked_time s) now.
Proof.
  unfold update_live_time, elapsed_credit.
  destruct (_last_tracked_time s) as [l|]; cbn; [|lia].
  destruct ((0 <? now - l) && (now - l <? 600 * MICRO)); cbn; lia.
Qed.

Lemma update_live_time_last_tracked :
  _last_tracked_time (update_live_time now s) = Some now.
Proof. reflexivity. Qed.

Lemma update_live_time_day :
  _current_day (update_live_time now s) = _current_day s.
Proof.
  unfold update_live_time. destruct (_last_tracked_time s) as [l|]; [|reflexivity].
  cbv zeta. now destruct ((0 <? now - l) && (now - l <? 600 * MICRO)).
Qed.

Lemma update_live_time_last_hb :
  _last_hb (update_live_time now s) = _last_hb s.
Proof.
  unfold update_live_time. destruct (_last_tracked_time s) as [l|]; [|reflexivity].
  cbv zeta. now destruct ((0 <? now - l) && (now - l <? 600 * MICRO)).
Qed.

Lemma update_live_time_queue :
  _queue (update_live_time now s) = _queue s.
Proof.
  unfold update_live_time. destruct (_last_tracked_time s) as [l|]; [|reflexivity].
  cbv zeta. now destruct ((0 <? now - l) && (now - l <? 600 * MICRO)).
Qed.

Lemma update_live_time_disk :
  _disk (update_live_time now s)
  = match _last_tracked_time s with
    | Some l =>
        if (0 <? now - l) && (now - l <? 600 * MICRO)
        then save_tracked_seconds (_current_day s)
               (_total_tracked_seconds s + Z.quot (now - l) MICRO) (_disk s)
        else _disk s
    | None => _disk s
    end.
Proof.
  unfold update_live_time. destruct (_last_tracked_time s) as [l|]; [|reflexivity].
  cbv zeta. now destruct ((0 <? now - l) && (now - l <? 600 * MICRO)).
Qed.

End Blocks.

Lemma accounted_last_hb (clk : clock) (s : state) :
  _last_hb (accounted clk s) = _last_hb s.
Proof.
  unfold accounted. now rewrite update_live_time_last_hb, daily_reset_last_hb.
Qed.

Lemma accounted_queue (clk : clock) (s : state) :
  _queue (accounted clk s) = _queue s.
Proof.
  unfold accounted. now rewrite update_live_time_queue, daily_reset_queue.
Qed.

Lemma accounted_total (clk : clock) (s : state) :
  _total_tracked_seconds (accounted clk s)
  = (if date_eqb (date_today clk) (_current_day s)
     then _total_tracked_seconds s else 0)
    + elapsed_credit (_last_tracked_time s) (datetime_now clk).
Proof.
  unfold accounted.
  now rewrite update_live_time_total, daily_reset_total, daily_reset_last_tracked.
Qed.

Lemma accounted_day (clk : clock) (s : state) :
  _current_day (accounted clk s) = date_today clk.
Proof. unfold accounted. now rewrite update_live_time_day, daily_reset_day. Qed.

(** ** What reaches the state file *)

Lemma writable_after_save (d : date) (n : Z) (dk : disk) :
  writable (save_tracked_seconds d n dk) = writable dk.
Proof. unfold save_tracked_seconds. now destruct (writable dk) eqn:E. Qed.

Lemma journal_after_save (d : date) (n : Z) (dk : disk) :
  writable dk = true ->
  journal (save_tracked_seconds d n dk) = journal dk ++ [payload d n].
Proof. intros W. unfold save_tracked_seconds. now rewrite W. Qed.

Lemma saved_file (d : date) (n : Z) (dk : disk) :
  writable dk = true ->
  file (save_tracked_seconds d n dk) = Some (payload d n).
Proof. intros W. unfold save_tracked_seconds. now rewrite W. Qed.

(** The accounting either leaves the file as the reset check left it or
    saves the new total of the current day. *)
Lemma accounted_disk (clk : clock) (s : state) :
  let reset := daily_reset (date_today clk) s in
  (elapsed_credit (_last_tracked_time s) (datetime_now clk) = 0
   /\ _disk (accounted clk s) = _disk reset)
  \/ _disk (accounted clk s)
     = save_tracked_seconds (date_today clk)
         (_total_tracked_seconds (accounted clk s)) (_disk reset).
Proof.
  cbv zeta. rewrite accounted_total. unfold accounted.
  rewrite update_live_time_disk, daily_reset_last_tracked, daily_reset_day,
    daily_reset_total.
  unfold elapsed_credit. destruct (_last_tracked_time s) as [l|]; [|now left].
  destruct (_ && _); [now right | now left].
Qed.

Lemma accounted_disk_credit (clk : clock) (s : state) (last : Z) :
  _last_tracked_time s = Some last ->
  0 < datetime_now clk - last < 600 * MICRO ->
  _total_tracked_seconds (accounted clk s)
  = (if date_eqb (date_today clk) (_current_day s)
     then _total_tracked_seconds s else 0)
    + Z.quot (datetime_now clk - last) MICRO
  /\ _disk (accounted clk s)
     = save_tracked_seconds (date_today clk)
         (_total_tracked_seconds (accounted clk s))
         (_disk (daily_reset (date_today clk) s)).
Proof.
  intros Hl [H0 H1]. rewrite accounted_total. unfold accounted.
  rewrite update_live_time_disk, daily_reset_last_tracked, daily_reset_day,
    daily_reset_total.
  unfold elapsed_credit. rewrite Hl.
  apply Z.ltb_lt in H0, H1. now rewrite H0, H1.
Qed.

Lemma queue_after_put (hb : HeartBeat) (s : state) :
  _queue (persist (put_heartbeat hb s)) = _queue s ++ [Some hb].
Proof. reflexivity. Qed.

Lemma last_hb_after_put (hb : HeartBeat) (s : state) :
  _last_hb (persist (put_heartbeat hb s)) = Some hb.
Proof. reflexivity. Qed.

Section WithProjectName.
Variable simple_project_name : string -> string.

Local Abbreviation enqueue := (Queue.enqueue simple_project_name).
Local Abbreviation new_heartbeat := (QueueSpec.new_heartbeat simple_project_name).

(** [enqueue] either stops after the accounting or goes on to queue the
    new heartbeat and save once more. *)
Lemma enqueue_cases (clk : clock) (filename : string) (is_write : bool)
    (s : state) :
  enqueue clk filename is_write s = accounted clk s
  \/ enqueue clk filename is_write s
     = persist (put_heartbeat (new_heartbeat clk filename is_write)
                              (accounted clk s)).
Proof.
  unfold Queue.enqueue. cbv zeta. fold (accounted clk s).
  destruct (is_empty filename); [now left|].
  destruct (_ && _); [now left | now right].
Qed.

Lemma enqueue_total (clk : clock) (filename : string) (is_write : bool)
    (s : state) :
  _total_tracked_seconds (enqueue clk filename is_write s)
  = (if date_eqb (date_today clk) (_current_day s)
     then _total_tracked_seconds s else 0)
    + elapsed_credit (_last_tracked_time s) (datetime_now clk).
Proof.
  rewrite <- accounted_total.
  now destruct (enqueue_cases clk filename is_write s) as [-> | ->].
Qed.

Lemma enqueue_last_tracked (clk : clock) (filename : string) (is_write : bool)
    (s : state) :
  _last_tracked_time (enqueue clk filename is_write s) = Some (datetime_now clk).
Proof. now destruct (enqueue_cases clk filename is_write s) as [-> | ->]. Qed.

Lemma enqueue_day (clk : clock) (filename : string) (is_write : bool)
    (s : state) :
  _current_day (enqueue clk filename is_write s) = date_today clk.
Proof.
  rewrite <- (accounted_day clk s).
  now destruct (enqueue_cases clk filename is_write s) as [-> | ->].
Qed.

Lemma enqueue_nonempty (clk : clock) (filename : string) (is_write : bool)
    (s : state) :
  filename <> "" ->
  enqueue clk filename is_write s
  = if String.eqb filename
         (match _last_hb s with Some hb => entity hb | None => "" end)
       && negb (_enough_time_passed (time_time clk) is_write (accounted clk s))
    then accounted clk s
    else persist (put_heartbeat (new_heartbeat clk filename is_write)
                                (accounted clk s)).
Proof.
  intros Hne. unfold Queue.enqueue. cbv zeta. fold (accounted clk s).
  now rewrite (is_empty_false _ Hne).
Qed.

(** The test that guards the queueing is false exactly when the
    heartbeat is due. *)
Lemma throttle_test_due (clk : clock) (filename : string) (is_write : bool)
    (s : state) :
  filename <> "" ->
  String.eqb filename
    (match _last_hb s with Some hb => entity hb | None => "" end)
  && negb (_enough_time_passed (time_time clk) is_write (accounted clk s))
  = false
  <-> heartbeat_due clk filename is_write s.
Proof.
  intros Hne. unfold _enough_time_passed, heartbeat_due.
  rewrite accounted_last_hb. destruct (_last_hb s) as [hb|].
  - destruct (String.eqb filename (entity hb)) eqn:E; cbn [andb].
    + apply String.eqb_eq in E. rewrite negb_false_iff, Qlt_bool_iff.
      destruct is_write; split; auto; intros [H|H]; congruence.
    + apply String.eqb_neq in E. split; auto.
  - apply String.eqb_neq in Hne. rewrite Hne. cbn [andb]. tauto.
Qed.

Lemma enqueue_when_due (clk : clock) (filename : string) (is_write : bool)
    (s : state) :
  filename <> "" -> heartbeat_due clk filename is_write s ->
  enqueue clk filename is_write s
  = persist (put_heartbeat (new_heartbeat clk filename is_write)
                           (accounted clk s)).
Proof.
  intros Hne Hd. rewrite (enqueue_nonempty _ _ _ _ Hne).
  apply (throttle_test_due clk filename is_write s Hne) in Hd. now rewrite Hd.
Qed.

Lemma enqueue_when_not_due (clk : clock) (filename : string) (is_write : bool)
    (s : state) :
  filename <> "" -> ~ heartbeat_due clk filename is_write s ->
  enqueue clk filename is_write s = accounted clk s.
Proof.
  intros Hne Hd. rewrite (enqueue_nonempty _ _ _ _ Hne).
  destruct (_ && _) eqn:E; [reflexivity|].
  now apply (throttle_test_due clk filename is_write s Hne) in E.
Qed.

Lemma queued_iff_due (clk : clock) (filename : string) (is_write : bool)
    (s : state) :
  filename <> "" ->
  queued simple_project_name clk filename is_write s
  <-> heartbeat_due clk filename is_write s.
Proof.
  intros Hne. unfold queued. split.
  - intros Hq.
    destruct (throttle_test_due clk filename is_write s Hne) as [H _].
    apply H. destruct (_ && _) eqn:E; [|reflexivity].
    rewrite (enqueue_nonempty _ _ _ _ Hne), E, accounted_queue in Hq.
    now apply list_neq_snoc in Hq.
  - intros Hd. rewrite (enqueue_when_due _ _ _ _ Hne Hd).
    now rewrite queue_after_put, accounted_queue.
Qed.

(** C1. For an [enqueue] call with a non-empty file name, a heartbeat is
    queued if and only if none was queued before, or the entity differs
    from the last queued one, or strictly more than the threshold (2 s for
    a write, 30 s otherwise) has passed since the last queued heartbeat's
    timestamp; when it is not queued, the queue and the last queued
    heartbeat stay as they were. In particular, for the same entity as
    the last heartbeat queued at [T]: a non-write call at [T + 29] queues
    nothing and one at [T + 31] queues one; a write at [T + 2.1] queues
    one and a write at [T + 1.9] does not. *)
Theorem enqueue_throttle (clk : clock) (filename : string) (is_write : bool)
    (s : state) :
  filename <> "" ->
  (queued simple_project_name clk filename is_write s
   <-> heartbeat_due clk filename is_write s)
  /\ (heartbeat_due clk filename is_write s ->
      _last_hb (enqueue clk filename is_write s)
      = Some (new_heartbeat clk filename is_write))
  /\ (~ heartbeat_due clk filename is_write s ->
      _queue (enqueue clk filename is_write s) = _queue s
      /\ _last_hb (enqueue clk filename is_write s) = _last_hb s)
  /\ (forall hb : HeartBeat,
        _last_hb s = Some hb -> entity hb = filename ->
        (is_write = false -> (time_time clk == timestamp hb + (29 # 1))%Q ->
         ~ queued simple_project_name clk filename is_write s)
        /\ (is_write = false -> (time_time clk == timestamp hb + (31 # 1))%Q ->
            queued simple_project_name clk filename is_write s)
        /\ (is_write = true -> (time_time clk == timestamp hb + (21 # 10))%Q ->
            queued simple_project_name clk filename is_write s)
        /\ (is_write = true -> (time_time clk == timestamp hb + (19 # 10))%Q ->
            ~ queued simple_project_name clk filename is_write s)).
Proof.
  intros Hne. split; [now apply queued_iff_due|]. split; [|split].
  - intros Hd. rewrite (enqueue_when_due _ _ _ _ Hne Hd).
    apply last_hb_after_put.
  - intros Hd. rewrite (enqueue_when_not_due _ _ _ _ Hne Hd).
    now rewrite accounted_queue, accounted_last_hb.
  - intros hb Hl He. rewrite (queued_iff_due _ _ _ _ Hne).
    unfold heartbeat_due. rewrite Hl.
    repeat split; intros -> Ht.
    + intros [H|H]; [congruence|]. rewrite Ht in H. lra.
    + right. rewrite Ht. lra.
    + right. rewrite Ht. lra.
    + intros [H|H]; [congruence|]. rewrite Ht in H. lra.
Qed.

(** Everything [enqueue] writes after the reset check is the final total
    of the current day. *)
Lemma enqueue_journal (clk : clock) (filename : string) (is_write : bool)
    (s : state) :
  writable (_disk s) = true ->
  let s' := enqueue clk filename is_write s in
  exists later : list json,
    journal (_disk s')
    = journal (_disk (daily_reset (date_today clk) s)) ++ later
    /\ Forall (eq (payload (date_today clk) (_total_tracked_seconds s'))) later.
Proof.
  intros W. cbv zeta.
  set (reset := daily_reset (date_today clk) s).
  assert (Wr : writable (_disk reset) = true).
  { unfold reset. rewrite daily_reset_disk.
    destruct (date_eqb _ _); [exact W | now rewrite writable_after_save]. }
  assert (Ha : exists l1,
             journal (_disk (accounted clk s)) = journal (_disk reset) ++ l1
             /\ Forall (eq (payload (date_today clk)
                              (_total_tracked_seconds (accounted clk s)))) l1
             /\ writable (_disk (accounted clk s)) = true).
  { destruct (accounted_disk clk s) as [[_ E] | E]; fold reset in E; rewrite E.
    - exists []. rewrite app_nil_r. auto.
    - rewrite (journal_after_save _ _ _ Wr), writable_after_save.
      eexists. split; [reflexivity|]. split; [|exact Wr]. now constructor. }
  destruct Ha as [l1 [E1 [F1 Wa]]].
  destruct (enqueue_cases clk filename is_write s) as [-> | ->].
  - exists l1. now split.
  - exists (l1 ++ [payload (date_today clk)
                      (_total_tracked_seconds (accounted clk s))]).
    unfold persist, set_disk, put_heartbeat.
    cbn [_disk _current_day _total_tracked_seconds].
    rewrite journal_after_save by exact Wa.
    rewrite accounted_day, E1, <- app_assoc. split; [reflexivity|].
    apply Forall_app. split; [exact F1 | now constructor].
Qed.

(** C3. An [enqueue] call made on a date other than the stored day first
    resets the total to zero, stores the new date and saves the zero; only
    then is the elapsed time of the call added, so that afterwards the
    total is that addition alone, the stored day is the current date, and
    the zero was written to the state file before any later total. *)
Theorem enqueue_day_rollover (clk : clock) (filename : string)
    (is_write : bool) (s : state) :
  date_today clk <> _current_day s ->
  let reset := daily_reset (date_today clk) s in
  let s' := enqueue clk filename is_write s in
  _total_tracked_seconds reset = 0
  /\ _current_day reset = date_today clk
  /\ _disk reset = save_tracked_seconds (date_today clk) 0 (_disk s)
  /\ _total_tracked_seconds s'
     = 0 + elapsed_credit (_last_tracked_time s) (datetime_now clk)
  /\ _current_day s' = date_today clk
  /\ (writable (_disk s) = true ->
      exists later : list json,
        journal (_disk s')
        = journal (_disk s) ++ payload (date_today clk) 0 :: later
        /\ Forall (eq (payload (date_today clk) (_total_tracked_seconds s')))
                  later).
Proof.
  intros Hne. cbv zeta. apply date_eqb_neq in Hne.
  rewrite daily_reset_total, daily_reset_day, daily_reset_disk, enqueue_total,
    enqueue_day, Hne.
  repeat split.
  intros W. destruct (enqueue_journal clk filename is_write s W) as [later [E F]].
  rewrite enqueue_total, Hne in F.
  exists later. split; [|exact F].
  rewrite E, daily_reset_disk, Hne, (journal_after_save _ _ _ W).
  now rewrite <- app_assoc.
Qed.

(** C10. An [enqueue] call with an empty file name queues nothing and
    leaves the last queued heartbeat alone, but does the accounting of any
    other call: the marker of the last tracked time becomes the present,
    and a positive gap under 600 s since the previous marker is added in
    whole seconds to the day's total, which is then saved. *)
Theorem enqueue_empty_filename (clk : clock) (is_write : bool) (s : state) :
  let s' := enqueue clk "" is_write s in
  _queue s' = _queue s
  /\ _last_hb s' = _last_hb s
  /\ _last_tracked_time s' = Some (datetime_now clk)
  /\ (forall last : Z,
        _last_tracked_time s = Some last ->
        0 < datetime_now clk - last < 600 * MICRO ->
        _total_tracked_seconds s'
        = (if date_eqb (date_today clk) (_current_day s)
           then _total_tracked_seconds s else 0)
          + Z.quot (datetime_now clk - last) MICRO
        /\ _disk s'
           = save_tracked_seconds (date_today clk) (_total_tracked_seconds s')
               (_disk (daily_reset (date_today clk) s))
        /\ (writable (_disk s) = true ->
            file (_disk s')
            = Some (payload (date_today clk) (_total_tracked_seconds s'))))
  /\ (forall (filename : string) (w : bool),
        let t := enqueue clk filename w s in
        _total_tracked_seconds t = _total_tracked_seconds s'
        /\ _last_tracked_time t = _last_tracked_time s'
        /\ _current_day t = _current_day s').
Proof.
  cbv zeta.
  assert (E : enqueue clk "" is_write s = accounted clk s) by reflexivity.
  rewrite E, accounted_queue, accounted_last_hb.
  split; [reflexivity|]. split; [reflexivity|]. split; [reflexivity|]. split.
  - intros last Hl Hgap.
    destruct (accounted_disk_credit clk s last Hl Hgap) as [Ht Hd].
    split; [exact Ht|]. split; [exact Hd|].
    intros W. rewrite Hd. apply saved_file.
    rewrite daily_reset_disk.
    destruct (date_eqb _ _); [exact W | now rewrite writable_after_save].
  - intros filename w.
    rewrite enqueue_total, enqueue_last_tracked, enqueue_day.
    now rewrite accounted_total, accounted_day.
Qed.

End WithProjectName.

(** A queue whose stored day is the 9th, called on the 10th, 20 s after
    the previous call. *)
Lemma enqueue_day_rollover_witness :
  let s := {| _version := "2.0.2"; _queue := []; _last_hb := None;
              _running := true; _total_tracked_seconds := 5400;
              _last_tracked_time := Some 0;
              _current_day := {| year := 2025; month := 3; day := 9 |};
              _disk := {| file := None; writable := true; journal := [] |} |} in
  let clk := {| time_time := 20 # 1; datetime_now := 20 * MICRO;
                date_today := {| year := 2025; month := 3; day := 10 |} |} in
  _total_tracked_seconds (enqueue (fun f => f) clk "/w/scene.blend" false s)
  = 0 + 20.
Proof.
  intros s clk.
  assert (Hne : date_today clk <> _current_day s) by discriminate.
  destruct (enqueue_day_rollover (fun f => f) clk "/w/scene.blend" false s Hne)
    as [_ [_ [_ [H _]]]].
  exact H.
Defined.

(** An empty file name, 45.5 s after the previous call on the same day. *)
Lemma enqueue_empty_filename_witness :
  let day := {| year := 2025; month := 3; day := 9 |} in
  let s := {| _version := "2.0.2"; _queue := []; _last_hb := None;
              _running := true; _total_tracked_seconds := 100;
              _last_tracked_time := Some 0; _current_day := day;
              _disk := {| file := None; writable := true; journal := [] |} |} in
  let clk := {| time_time := 45 # 1; datetime_now := 45500000;
                date_today := day |} in
  _total_tracked_seconds (enqueue (fun f => f) clk "" false s) = 100 + 45
  /\ file (_disk (enqueue (fun f => f) clk "" false s))
     = Some (payload day 145).
Proof.
  intros day s clk.
  destruct (enqueue_empty_filename (fun f => f) clk false s)
    as [_ [_ [_ [H _]]]].
  assert (Hgap : 0 < datetime_now clk - 0 < 600 * MICRO)
    by (unfold clk, MICRO; cbn; lia).
  destruct (H 0 eq_refl Hgap) as [Ht [_ Hf]].
  split; [exact Ht | exact (Hf eq_refl)].
Defined.

(** The sample queue, which queued [scene.blend] at second 1000, asked
    again for the same file 31 s later. *)
Lemma enqueue_throttle_witness :
  queued (fun f => f) (Samples.at_second 1031) "/w/scene.blend" false
         Samples.busy_queue.
Proof.
  assert (Hne : "/w/scene.blend" <> "") by discriminate.
  destruct (enqueue_throttle (fun f => f) (Samples.at_second 1031)
              "/w/scene.blend" false Samples.busy_queue Hne)
    as [_ [_ [_ H]]].
  destruct (H Samples.scene_heartbeat eq_refl eq_refl) as [_ [H31 _]].
  apply H31; reflexivity.
Defined.

(** The same call 29 s later is throttled, and a save 2.1 s later is not. *)
Example enqueue_throttle_samples :
  _queue (Queue.enqueue (fun f => f) (Samples.at_second 1029)
            "/w/scene.blend" false Samples.busy_queue)
  = _queue Samples.busy_queue
  /\ List.length
       (_queue (Queue.enqueue (fun f => f)
                  {| time_time := 10021 # 10; datetime_now := 1002100000;
                     date_today := Samples.march_9 |}
                  "/w/scene.blend" true Samples.busy_queue)) = 2%nat.
Proof. vm_compute. split; reflexivity. Qed.

(** [shutdown] stops the worker, saves the total once more and puts the
    sentinel behind whatever is still queued. *)
Lemma shutdown_persists (s : state) :
  _running (shutdown s) = false
  /\ _queue (shutdown s) = _queue s ++ [None]
  /\ _total_tracked_seconds (shutdown s) = _total_tracked_seconds s
  /\ (writable (_disk s) = true ->
      file (_disk (shutdown s))
      = Some (payload (_current_day s) (_total_tracked_seconds s))).
Proof.
  repeat split. intros W. unfold shutdown, persist. cbn.
  now apply saved_file.
Qed.

(** [__init__] on a day without a state file gives the sample fresh
    queue. *)
Example init_fresh :
  Queue.init (fun _ => None) "2.0.2" Samples.march_9 Samples.empty_disk
  = Ok Samples.fresh_queue.
Proof. reflexivity. Qed.

End QueueFacts.

(* ===================================================================== *)
(** * The live counter over a history                                    *)
(* ===================================================================== *)

Module LiveCounterFacts.
Import PyStr Py Store Queue QueueSpec QueueFacts Samples.

Lemma live_at_least_total (now : Z) (s : state) :
  _total_tracked_seconds s <= get_tracked_time_live now s.
Proof.
  unfold get_tracked_time_live. destruct (_last_tracked_time s) as [l|]; [|lia].
  cbv zeta. destruct (0 <? now - l) eqn:E; cbn [andb]; [|lia].
  destruct (now - l <? 120 * MICRO); [|lia].
  apply Z.ltb_lt in E.
  assert (0 <= Z.quot (now - l) MICRO) by (apply Z.quot_pos; unfold MICRO; lia).
  lia.
Qed.

(** Between two [enqueue] calls a later read returns at least as much as
    an earlier one, as long as it is still within 120 s of the marker. *)
Lemma live_mono_hot (a b : Z) (s : state) :
  a <= b ->
  match _last_tracked_time s with
  | Some l => b - l < 120 * MICRO
  | None => True
  end ->
  get_tracked_time_live a s <= get_tracked_time_live b s.
Proof.
  intros Hab Hhot. unfold get_tracked_time_live.
  destruct (_last_tracked_time s) as [l|]; [|lia]. cbv zeta.
  destruct (0 <? a - l) eqn:Ea; cbn [andb].
  - apply Z.ltb_lt in Ea.
    assert (E1 : (a - l <? 120 * MICRO) = true) by (apply Z.ltb_lt; lia).
    assert (E2 : (0 <? b - l) = true) by (apply Z.ltb_lt; lia).
    assert (E3 : (b - l <? 120 * MICRO) = true) by (apply Z.ltb_lt; lia).
    rewrite E1, E2, E3. cbn [andb].
    assert (Z.quot (a - l) MICRO <= Z.quot (b - l) MICRO)
      by (apply Z.quot_le_mono; unfold MICRO; lia).
    lia.
  - destruct (0 <? b - l) eqn:Eb; cbn [andb]; [|lia].
    destruct (b - l <? 120 * MICRO); [|lia].
    apply Z.ltb_lt in Eb.
    assert (0 <= Z.quot (b - l) MICRO) by (apply Z.quot_pos; unfold MICRO; lia).
    lia.
Qed.

(** What was shown before an [enqueue] call is covered by what the call
    adds to the total, provided the call comes less than 600 s after the
    marker. *)
Lemma live_below_credit (a b : Z) (s : state) :
  a <= b ->
  match _last_tracked_time s with
  | Some l => b - l < 600 * MICRO
  | None => True
  end ->
  get_tracked_time_live a s
  <= _total_tracked_seconds s + elapsed_credit (_last_tracked_time s) b.
Proof.
  intros Hab Hgap. unfold get_tracked_time_live, elapsed_credit.
  destruct (_last_tracked_time s) as [l|]; [|lia]. cbv zeta.
  destruct (0 <? a - l) eqn:Ea; cbn [andb].
  - apply Z.ltb_lt in Ea.
    assert (E2 : (0 <? b - l) = true) by (apply Z.ltb_lt; lia).
    assert (E3 : (b - l <? 600 * MICRO) = true) by (apply Z.ltb_lt; lia).
    rewrite E2, E3. cbn [andb].
    assert (Z.quot (a - l) MICRO <= Z.quot (b - l) MICRO)
      by (apply Z.quot_le_mono; unfold MICRO; lia).
    assert (0 <= Z.quot (a - l) MICRO) by (apply Z.quot_pos; unfold MICRO; lia).
    destruct (a - l <? 120 * MICRO); lia.
  - pose proof (elapsed_credit_nonneg (Some l) b) as H.
    unfold elapsed_credit in H. lia.
Qed.

(** Right after an [enqueue] call the live value is the total. *)
Lemma live_at_marker (now : Z) (s : state) :
  _last_tracked_time s = Some now ->
  get_tracked_time_live now s = _total_tracked_seconds s.
Proof.
  intros H. unfold get_tracked_time_live. rewrite H. cbv zeta.
  now rewrite Z.sub_diag.
Qed.

Section WithProjectName.
Variable simple_project_name : string -> string.

Local Abbreviation enqueue := (Queue.enqueue simple_project_name).
Local Abbreviation replay := (QueueSpec.replay simple_project_name).

(** Every read of a well spaced history with hot reads returns at least
    what a read at the starting time would have returned, and the reads
    are in non-decreasing order. *)
Lemma replay_reads_sorted (evs : list event) :
  forall (s : state) (prev : Z),
    spaced (_current_day s) prev (_last_tracked_time s) evs = true ->
    reads_hot (_last_tracked_time s) evs = true ->
    Forall (Z.le (get_tracked_time_live prev s)) (snd (replay s evs))
    /\ Sorted Z.le (snd (replay s evs)).
Proof.
  induction evs as [|[clk filename is_write | now] rest IH];
    intros s prev Hsp Hhot.
  - cbn. split; constructor.
  - cbn [QueueSpec.replay]. cbn [spaced] in Hsp. cbn [reads_hot] in Hhot.
    apply andb_prop in Hsp as [Hsp Hrest].
    apply andb_prop in Hsp as [Hsp Hgap].
    apply andb_prop in Hsp as [Hchr Hday].
    apply Z.leb_le in Hchr. apply date_eqb_eq in Hday.
    set (s' := enqueue clk filename is_write s).
    assert (Hl : _last_tracked_time s' = Some (datetime_now clk))
      by apply enqueue_last_tracked.
    assert (Hd : _current_day s' = _current_day s).
    { unfold s'. now rewrite enqueue_day. }
    assert (Ht : _total_tracked_seconds s'
                 = _total_tracked_seconds s
                   + elapsed_credit (_last_tracked_time s) (datetime_now clk)).
    { unfold s'. rewrite enqueue_total, Hday.
      now rewrite (proj2 (date_eqb_eq _ _) eq_refl). }
    rewrite <- Hd, <- Hl in Hrest. rewrite <- Hl in Hhot.
    destruct (IH s' (datetime_now clk) Hrest Hhot) as [Hlow Hsorted].
    split; [|exact Hsorted].
    eapply List.Forall_impl; [|exact Hlow].
    intros r Hr. rewrite (live_at_marker _ _ Hl), Ht in Hr.
    etransitivity; [|exact Hr].
    apply live_below_credit; [exact Hchr|].
    destruct (_last_tracked_time s); [now apply Z.ltb_lt | exact I].
  - cbn [QueueSpec.replay]. cbn [spaced] in Hsp. cbn [reads_hot] in Hhot.
    apply andb_prop in Hsp as [Hchr Hrest].
    apply andb_prop in Hhot as [Hnear Hhot].
    apply Z.leb_le in Hchr.
    destruct (IH s now Hrest Hhot) as [Hlow Hsorted].
    destruct (replay s rest) as [s' reads] eqn:E. cbn [snd] in *.
    assert (Hstep : get_tracked_time_live prev s <= get_tracked_time_live now s).
    { apply live_mono_hot; [exact Hchr|].
      destruct (_last_tracked_time s); [now apply Z.ltb_lt | exact I]. }
    split.
    + constructor; [exact Hstep|].
      eapply List.Forall_impl; [|exact Hlow]. intros r Hr. cbn beta in *. lia.
    + constructor; [exact Hsorted|].
      destruct reads as [|r reads]; constructor.
      now inversion Hlow.
Qed.

Lemma reads_hot_at_calls (calls : list (clock * string * bool)) :
  forall last : option Z, reads_hot last (read_at_calls calls) = true.
Proof.
  induction calls as [|[[clk filename] is_write] rest IH]; intros last.
  - reflexivity.
  - cbn [read_at_calls reads_hot]. rewrite IH, Z.sub_diag. reflexivity.
Qed.

(** Read at the calls themselves, the live counter never goes down. *)
Lemma live_sorted_at_calls (s : state) (prev : Z)
    (calls : list (clock * string * bool)) :
  spaced (_current_day s) prev (_last_tracked_time s) (read_at_calls calls)
  = true ->
  Sorted Z.le (snd (replay s (read_at_calls calls))).
Proof.
  intros Hsp. apply (replay_reads_sorted _ s prev Hsp). apply reads_hot_at_calls.
Qed.

(** C2, as the code has it. Along a chronological history of [enqueue]
    calls and reads of [get_tracked_time_live], with all calls on the stored
    calendar day and consecutive calls less than 600 s apart, the values
    read are non-decreasing provided every read is made less than 120 s
    after the call before it (in particular when it is made at the call).
    A call on another date discards the accumulated total: afterwards the
    total, and the live value at that moment, is only what this call
    itself adds, which is under 600 s and is 0 when there is no earlier
    marker. *)
Theorem live_counter_monotone :
  (forall (s : state) (prev : Z) (evs : list event),
      spaced (_current_day s) prev (_last_tracked_time s) evs = true ->
      reads_hot (_last_tracked_time s) evs = true ->
      Sorted Z.le (snd (replay s evs)))
  /\ (forall (s : state) (clk : clock) (filename : string) (is_write : bool),
        date_today clk <> _current_day s ->
        let s' := enqueue clk filename is_write s in
        _total_tracked_seconds s'
        = elapsed_credit (_last_tracked_time s) (datetime_now clk)
        /\ get_tracked_time_live (datetime_now clk) s'
           = _total_tracked_seconds s'
        /\ 0 <= _total_tracked_seconds s' < 600
        /\ (_last_tracked_time s = None -> _total_tracked_seconds s' = 0)).
Proof.
  split.
  - intros s prev evs Hsp Hhot. now apply (replay_reads_sorted evs s prev).
  - intros s clk filename is_write Hne. cbv zeta.
    apply date_eqb_neq in Hne.
    rewrite (live_at_marker _ _ (enqueue_last_tracked _ clk filename is_write s)).
    rewrite enqueue_total, Hne, Z.add_0_l.
    split; [reflexivity|]. split; [reflexivity|]. split.
    + split; [apply elapsed_credit_nonneg | apply elapsed_credit_bound].
    + now intros ->.
Qed.

End WithProjectName.

(** Two calls 100 s apart, each followed by reads 10 s and 20 s later. *)
Lemma live_counter_monotone_witness :
  Sorted Z.le
    (snd (replay (fun f => f) fresh_queue
            [ Enqueue (at_second 0) "/w/scene.blend" false;
              ReadLive (10 * MICRO); ReadLive (20 * MICRO);
              Enqueue (at_second 100) "/w/scene.blend" false;
              ReadLive (110 * MICRO); ReadLive (120 * MICRO) ])).
Proof.
  apply (proj1 (live_counter_monotone (fun f => f)) fresh_queue 0);
    reflexivity.
Defined.

(** The claim as the specification words it, without the condition on
    the reads, fails: two calls 200 s apart on one day, and reads 119 s
    and 121 s after the first. The first read shows 119 s, the second
    falls back to 0. *)
Lemma live_counter_drops :
  let evs := [ Enqueue (at_second 0) "/w/scene.blend" false;
               ReadLive (119 * MICRO); ReadLive (121 * MICRO);
               Enqueue (at_second 200) "/w/scene.blend" false;
               ReadLive (200 * MICRO) ] in
  spaced (_current_day fresh_queue) 0 (_last_tracked_time fresh_queue) evs
  = true
  /\ snd (replay (fun f => f) fresh_queue evs) = [119; 0; 200]
  /\ ~ Sorted Z.le (snd (replay (fun f => f) fresh_queue evs)).
Proof.
  cbv zeta. split; [reflexivity|]. split; [reflexivity|].
  change (~ Sorted Z.le [119; 0; 200]).
  intros H. inversion H as [|x l _ Hd]. inversion Hd. lia.
Qed.

End LiveCounterFacts.

(* ===================================================================== *)
(** * Facts about the delivery client                                    *)
(* ===================================================================== *)

Module DeliveryFacts.
Import PyStr Py Queue Delivery DeliverySpec.

Lemma set_other_key (option value : string) (s : Settings.state) :
  option <> "api_key" ->
  Settings._cfg (Settings.set option value s) !! "api_key"
  = Settings._cfg s !! "api_key".
Proof. intros Hne. unfold Settings.set. cbn. now apply lookup_insert_ne. Qed.

Lemma set_api_key (value : string) (s : Settings.state) :
  Settings._cfg (Settings.set "api_key" value s) !! "api_key" = Some value.
Proof. unfold Settings.set. cbn. apply lookup_insert_eq. Qed.

Lemma synced_keeps_key (endpoint : string) (s : Settings.state) :
  Settings._cfg (Settings._ensure_api_url_synced endpoint s) !! "api_key"
  = Settings._cfg s !! "api_key".
Proof.
  unfold Settings._ensure_api_url_synced.
  destruct (Settings._api_url_synced s); [reflexivity|].
  cbv zeta. destruct (negb _); cbn [Settings.with_synced Settings._cfg];
    [now apply set_other_key | reflexivity].
Qed.

Lemma offline_defaults_keep_key (int_of_str : string -> option Z)
    (s : Settings.state) :
  Settings._cfg (Settings.ensure_offline_defaults int_of_str s) !! "api_key"
  = Settings._cfg s !! "api_key".
Proof.
  unfold Settings.ensure_offline_defaults, Settings._enforce_offline_defaults.
  cbv zeta.
  set (s1 := if negb _ then Settings.set "offline" "true" s else s).
  assert (H1 : Settings._cfg s1 !! "api_key" = Settings._cfg s !! "api_key").
  { unfold s1. destruct (negb _); [now apply set_other_key | reflexivity]. }
  destruct (is_empty _); [now rewrite set_other_key|].
  destruct (_ || _); [now rewrite set_other_key | exact H1].
Qed.

Lemma stored_key_say (lvl : level) (template : string) (w : world) :
  stored_key (say lvl template w) = stored_key w.
Proof. reflexivity. Qed.

(** Reading the exit status touches the stored key for code 104 only. *)
Lemma stored_key_interpret (retcode : Z) (output : string) (w : world) :
  stored_key (interpret retcode output w)
  = if retcode =? 104 then Some "" else stored_key w.
Proof.
  unfold interpret.
  destruct (retcode =? 104) eqn:E104.
  - apply Z.eqb_eq in E104. subst retcode. cbn [Z.eqb Pos.eqb orb andb negb].
    destruct (negb (is_empty output)); unfold stored_key; cbn; apply lookup_insert_eq.
  - destruct (((retcode =? 0) || (retcode =? 102)) && is_empty output);
      destruct (retcode =? 103); destruct (retcode =? 105);
      destruct (negb (retcode =? 0) && negb (retcode =? 102));
      destruct (negb (is_empty output)); reflexivity.
Qed.

Section WithInt.
Variable int_of_str : string -> option Z.

Local Abbreviation _send_to_wakatime := (Delivery._send_to_wakatime int_of_str).

(** C8. A delivery call never lets an exception out. When the CLI was
    run and exited with code 104 the [api_key] option is afterwards the
    empty string; with every other exit code, and whenever the CLI was not
    run or could not be started, the option is what it was before. *)
Theorem invalid_credentials_clear_key (heartbeat : HeartBeat)
    (extra_heartbeats : list HeartBeat) (client_path : option string)
    (proc : popen_outcome) (w : world) :
  exists w' : world,
    _send_to_wakatime heartbeat extra_heartbeats client_path proc w = Ok w'
    /\ (forall output : string,
          ready client_path w = true -> proc = Exited 104 output ->
          stored_key w' = Some "")
    /\ (forall (retcode : Z) (output : string),
          proc = Exited retcode output -> retcode <> 104 ->
          stored_key w' = stored_key w)
    /\ (ready client_path w = false -> stored_key w' = stored_key w)
    /\ ((forall (retcode : Z) (output : string), proc <> Exited retcode output) ->
        stored_key w' = stored_key w).
Proof.
  unfold Delivery._send_to_wakatime, ready.
  destruct (has_api_key w); cbn [negb andb];
    [|eexists; split; [reflexivity|]; repeat split; intros; congruence].
  destruct (has_api_url w); cbn [negb andb];
    [|eexists; split; [reflexivity|]; repeat split; intros; congruence].
  destruct (has_client client_path); cbn [negb andb];
    [|eexists; split; [reflexivity|]; repeat split; intros; congruence].
  unfold Settings.api_heartbeats_url.
  set (st := Settings.ensure_offline_defaults int_of_str _).
  set (w1 := say DEBUG "{cmd}" (with_settings st w)).
  assert (Hk : stored_key w1 = stored_key w).
  { unfold w1, stored_key, with_settings, st. cbn [settings say].
    now rewrite offline_defaults_keep_key, synced_keeps_key. }
  destruct proc as [retcode output | | msg]; cbn [run_client try_except on_error].
  - eexists. split; [reflexivity|]. rewrite stored_key_interpret.
    repeat split.
    + intros out _ E. injection E as -> _. reflexivity.
    + intros rc out E Hne. injection E as -> _.
      apply Z.eqb_neq in Hne. now rewrite Hne.
    + discriminate.
    + intros H. now destruct (H retcode output).
  - eexists. split; [reflexivity|]. rewrite stored_key_say.
    repeat split; intros; congruence.
  - eexists. split; [reflexivity|]. rewrite stored_key_say.
    repeat split; intros; congruence.
Qed.

End WithInt.

(** A configured client whose CLI run ends with exit code 104. *)
Lemma invalid_credentials_clear_key_witness :
  exists w' : world,
    Delivery._send_to_wakatime (fun _ => None) Samples.scene_heartbeat []
      (Some "/home/u/.wakatime/wakatime-runtime/cli.py") (Exited 104 "")
      Samples.world_configured = Ok w'
    /\ stored_key Samples.world_configured = Some "waka_0123"
    /\ stored_key w' = Some "".
Proof.
  destruct (invalid_credentials_clear_key (fun _ => None)
              Samples.scene_heartbeat []
              (Some "/home/u/.wakatime/wakatime-runtime/cli.py")
              (Exited 104 "") Samples.world_configured)
    as [w' [E [H _]]].
  exists w'. split; [exact E|]. split; [reflexivity|].
  apply (H ""); reflexivity.
Defined.

End DeliveryFacts.

(* ===================================================================== *)
(** * Facts about the activity signal and the tracking state             *)
(* ===================================================================== *)

Module TrackingFacts.
Import PyStr PyStrFacts Py Tracking TrackingSpec.

Lemma Qle_bool_false (x y : Q) : Qle_bool x y = false <-> (y < x)%Q.
Proof.
  rewrite <- not_true_iff_false, Qle_bool_iff.
  split; [apply Qnot_le_lt | apply Qlt_not_le].
Qed.

(** The focus query leaves the idle clock and the timeout alone. *)
Lemma focus_keeps_idle_clock (e : env) (s : state) :
  _idle_timeout (snd (_is_blender_focused e s)) = _idle_timeout s
  /\ _last_activity_monotonic (snd (_is_blender_focused e s))
     = _last_activity_monotonic s.
Proof. unfold _is_blender_focused. now destruct (focus_probe e). Qed.

(** With a saved file and a key, the decision rests on focus and idle
    time. *)
Lemma decision_when_configured (e : env) (s : state) :
  saved e = true -> has_key e = true ->
  decision e s
  = if negb (focused e s) then (false, "unfocused")
    else if Qle_bool (_idle_timeout s) (elapsed e s) then (false, "idle")
    else (true, "").
Proof.
  unfold saved, has_key, decision, focused, elapsed, _compute_tracking_condition.
  intros Hs Hk. apply negb_true_iff in Hs, Hk. rewrite Hs, Hk.
  destruct (focus_keeps_idle_clock e s) as [Ht Hl].
  destruct (_is_blender_focused e s) as [f s1]. cbn [fst snd] in *.
  rewrite Ht, Hl. destruct (negb f); [reflexivity|].
  now destruct (Qle_bool _ _).
Qed.

(** C5. The evaluator tests saved document, API key, focus and idle time
    in this order, and the first test that fails gives the reason; so an
    unsaved document with an empty API key is reported as [unsaved], not
    as [api-key]. *)
Theorem tracking_condition_priority (e : env) (s : state) :
  (saved e = false -> decision e s = (false, "unsaved"))
  /\ (saved e = true -> has_key e = false ->
      decision e s = (false, "api-key"))
  /\ (saved e = true -> has_key e = true -> focused e s = false ->
      decision e s = (false, "unfocused"))
  /\ (saved e = true -> has_key e = true -> focused e s = true ->
      (_idle_timeout s <= elapsed e s)%Q ->
      decision e s = (false, "idle"))
  /\ (saved e = true -> has_key e = true -> focused e s = true ->
      (elapsed e s < _idle_timeout s)%Q ->
      decision e s = (true, ""))
  /\ (blend_filepath e = "" -> Settings.api_key (settings e) = "" ->
      decision e s = (false, "unsaved")
      /\ decision e s <> (false, "api-key")).
Proof.
  repeat split.
  - unfold saved, decision, _compute_tracking_condition. intros H.
    apply negb_false_iff in H. now rewrite H.
  - unfold saved, has_key, decision, _compute_tracking_condition. intros Hs Hk.
    apply negb_true_iff in Hs. apply negb_false_iff in Hk. now rewrite Hs, Hk.
  - intros Hs Hk Hf. rewrite (decision_when_configured e s Hs Hk). now rewrite Hf.
  - intros Hs Hk Hf Hi. rewrite (decision_when_configured e s Hs Hk), Hf.
    apply Qle_bool_iff in Hi. now rewrite Hi.
  - intros Hs Hk Hf Hi. rewrite (decision_when_configured e s Hs Hk), Hf.
    apply Qle_bool_false in Hi. now rewrite Hi.
  - unfold decision, _compute_tracking_condition. now rewrite H.
  - unfold decision, _compute_tracking_condition. rewrite H. discriminate.
Qed.

(** C6, as the code has it. With a saved document, an API key and focus,
    the evaluator returns [(False, "idle")] exactly when at least
    [_idle_timeout] seconds have passed since the last recorded activity,
    the exact timeout included, and [(True, "")] exactly when fewer
    have. *)
Theorem idle_from_timeout_on (e : env) (s : state) :
  saved e = true -> has_key e = true -> focused e s = true ->
  (decision e s = (false, "idle") <-> (_idle_timeout s <= elapsed e s)%Q)
  /\ (decision e s = (true, "") <-> (elapsed e s < _idle_timeout s)%Q).
Proof.
  intros Hs Hk Hf. rewrite (decision_when_configured e s Hs Hk), Hf.
  cbn [negb]. destruct (Qle_bool (_idle_timeout s) (elapsed e s)) eqn:E.
  - apply Qle_bool_iff in E. split; split; try easy.
    intros H. exfalso. now apply (Qlt_not_le _ _ H).
  - apply Qle_bool_false in E. split; split; try easy.
    intros H. exfalso. now apply (Qlt_not_le _ _ E).
Qed.

Lemma tracking_condition_priority_witness :
  decision Samples.host_blank Samples.paused_unfocused = (false, "unsaved").
Proof.
  apply (proj2 (proj2 (proj2 (proj2 (proj2
    (tracking_condition_priority Samples.host_blank Samples.paused_unfocused))))));
    reflexivity.
Defined.

(** With focus, a key and a saved file, 29 s after the last activity. *)
Lemma idle_from_timeout_on_witness :
  let e := {| blend_filepath := "/w/scene.blend";
              settings := Samples.configured; focus_probe := Some true;
              monotonic_check := 29 # 1; monotonic_enqueue := 29 # 1;
              clk := Samples.at_second 1029; live_now := 1029 * Queue.MICRO;
              utc_now := utc_now Samples.host |} in
  decision e Samples.paused_unfocused = (true, "").
Proof.
  intros e.
  apply (proj2 (idle_from_timeout_on e Samples.paused_unfocused
                  eq_refl eq_refl eq_refl)).
  reflexivity.
Defined.

(** The claim as the specification words it, idle only after strictly
    more than the timeout, fails at the timeout itself: 30 s after the
    last activity with a timeout of 30 s the decision is already
    [(False, "idle")], not [(True, "")]. *)
Lemma idle_at_exact_timeout :
  saved Samples.host = true
  /\ has_key Samples.host = true
  /\ focused Samples.host Samples.paused_unfocused = true
  /\ (elapsed Samples.host Samples.paused_unfocused
      == _idle_timeout Samples.paused_unfocused)%Q
  /\ decision Samples.host Samples.paused_unfocused = (false, "idle")
  /\ decision Samples.host Samples.paused_unfocused <> (true, "").
Proof. repeat split. discriminate. Qed.

Lemma strip_paused_message (reason : string) :
  strip ("tracking paused (" +:+ reason +:+ ")")
  = "tracking paused (" +:+ reason +:+ ")".
Proof.
  unfold strip. rewrite lstrip_by_keeps by reflexivity.
  apply rstrip_by_keeps with (c := ")"%char); [|reflexivity].
  rewrite <- append_assoc. now rewrite last_char_append.
Qed.

Lemma refresh_keeps_effects (e : env) (s : state) :
  timeline (_refresh_statusbar_cache e s) = timeline s
  /\ _heartbeat_queue (_refresh_statusbar_cache e s) = _heartbeat_queue s
  /\ _tracking_active (_refresh_statusbar_cache e s) = _tracking_active s
  /\ _tracking_reason (_refresh_statusbar_cache e s) = _tracking_reason s.
Proof. now unfold _refresh_statusbar_cache. Qed.

Section WithProjectName.
Variable simple_project_name : string -> string.

Local Abbreviation _set_tracking_state :=
  (Tracking._set_tracking_state simple_project_name).

Lemma set_tracking_state_same (e : env) (s : state) :
  _set_tracking_state e (_tracking_active s) (_tracking_reason s) s = s.
Proof.
  unfold Tracking._set_tracking_state. cbv zeta.
  now rewrite Bool.eqb_reflx, String.eqb_refl.
Qed.

(** C9. Setting the tracking state to the pair it already has changes
    nothing at all: no timeline line, no heartbeat, no refreshed text. So
    a timeline line or a heartbeat shows that the pair changed. A change
    from one pause reason to another, tracking staying paused, logs the
    new reason to the timeline and queues nothing. *)
Theorem set_tracking_state_transitions (e : env) (active : bool)
    (reason : string) (s : state) :
  let s' := _set_tracking_state e active reason s in
  (active = _tracking_active s -> reason = _tracking_reason s -> s' = s)
  /\ (timeline s' <> timeline s \/ _heartbeat_queue s' <> _heartbeat_queue s ->
      active <> _tracking_active s \/ reason <> _tracking_reason s)
  /\ (active = false -> _tracking_active s = false ->
      reason <> _tracking_reason s ->
      timeline s'
      = Timeline.log_event (utc_now e)
          ("tracking paused (" +:+ reason +:+ ")") (timeline s)
      /\ (Timeline.appendable (timeline s) = true ->
          Timeline.lines (timeline s')
          = Timeline.lines (timeline s)
            ++ [(Timeline.day_name (utc_now e) +:+ ".log",
                 Timeline.stamp (utc_now e)
                 +:+ "Z - tracking paused (" +:+ reason +:+ ")")])
      /\ _heartbeat_queue s' = _heartbeat_queue s
      /\ _tracking_active s' = false
      /\ _tracking_reason s' = reason).
Proof.
  cbv zeta. split; [|split].
  - intros -> ->. apply set_tracking_state_same.
  - intros Hchg.
    destruct (Bool.bool_dec active (_tracking_active s)) as [Ea|Ea]; [|now left].
    destruct (String.string_dec reason (_tracking_reason s)) as [Er|Er];
      [|now right].
    subst. rewrite set_tracking_state_same in Hchg. now destruct Hchg.
  - intros -> Hp Hr. unfold Tracking._set_tracking_state. cbv zeta.
    apply String.eqb_neq in Hr. rewrite Hp, Hr. cbn [Bool.eqb andb orb negb].
    destruct (refresh_keeps_effects e
                (timeline_log_event e ("tracking paused (" +:+ reason +:+ ")")
                   (set_tracking false reason s))) as [Ht [Hq [Ha Hn]]].
    rewrite Ht, Hq, Ha, Hn. cbn [timeline_log_event set_timeline set_tracking
      timeline _heartbeat_queue _tracking_active _tracking_reason].
    repeat split.
    intros Happ. unfold Timeline.log_event.
    change (is_empty ("tracking paused (" +:+ reason +:+ ")")) with false.
    cbv iota zeta. rewrite Happ, strip_paused_message, !append_assoc.
    reflexivity.
Qed.

(** A re-evaluation that comes to the pair already held changes at most
    the remembered focus: it logs nothing and queues nothing. *)
Lemma update_tracking_state_stable (e : env) (s : state) :
  decision e s = (_tracking_active s, _tracking_reason s) ->
  let s' := snd (Tracking._update_tracking_state simple_project_name e s) in
  s' = snd (_compute_tracking_condition e s)
  /\ timeline s' = timeline s
  /\ _heartbeat_queue s' = _heartbeat_queue s.
Proof.
  unfold decision, Tracking._update_tracking_state. intros Hd.
  assert (Hk : let s1 := snd (_compute_tracking_condition e s) in
               _tracking_active s1 = _tracking_active s
               /\ _tracking_reason s1 = _tracking_reason s
               /\ timeline s1 = timeline s
               /\ _heartbeat_queue s1 = _heartbeat_queue s).
  { unfold _compute_tracking_condition, _is_blender_focused.
    destruct (is_empty (blend_filepath e)); [now cbn|].
    destruct (is_empty (Settings.api_key (settings e))); [now cbn|].
    destruct (focus_probe e) as [f|].
    - destruct (negb f); [now cbn|]. now destruct (Qle_bool _ _).
    - destruct (negb (_last_focus_state s)); [now cbn|].
      now destruct (Qle_bool _ _). }
  destruct (_compute_tracking_condition e s) as [[active reason] s1].
  cbn [fst snd] in *. destruct Hk as [Ha [Hr [Ht Hq]]].
  injection Hd as -> ->. rewrite <- Ha, <- Hr.
  rewrite set_tracking_state_same. auto.
Qed.

End WithProjectName.

(** Paused for an unfocused window, then paused for idling. *)
Lemma set_tracking_state_transitions_witness :
  Timeline.lines
    (timeline (Tracking._set_tracking_state (fun f => f) Samples.host false
                 "idle" Samples.paused_unfocused))
  = [("2025-03-09.log", "2025-03-09T00:17:11Z - tracking paused (idle)")].
Proof.
  destruct (set_tracking_state_transitions (fun f => f) Samples.host false
              "idle" Samples.paused_unfocused) as [_ [_ H]].
  assert (Hr : "idle" <> _tracking_reason Samples.paused_unfocused)
    by discriminate.
  destruct (H eq_refl eq_refl Hr) as [_ [Hl _]].
  exact (Hl eq_refl).
Defined.

End TrackingFacts.

(* ===================================================================== *)
(** * More facts about the settings store                                *)
(* ===================================================================== *)

Module SettingsMore.
Import PyStr PyStrFacts Settings SettingsFacts SettingsSpec.

Local Ltac last_of_literal :=
  first [ reflexivity | rewrite last_char_append; reflexivity ].

(** X1. [_strip_heartbeats_suffix] only takes text away: its result is a
    prefix of the stripped input, does not begin with white space, and is
    the stripped input without its trailing slashes whenever that does not
    end in [/heartbeats] or [/heartbeats.bulk]. *)
Theorem strip_heartbeats_suffix_only_cuts (url : string) :
  (exists t : string, strip url = _strip_heartbeats_suffix url +:+ t)
  /\ clean_head (_strip_heartbeats_suffix url) = true
  /\ (is_empty url = false ->
      endswith (rstrip_char "/" (strip url)) "/heartbeats" = false ->
      endswith (rstrip_char "/" (strip url)) "/heartbeats.bulk" = false ->
      _strip_heartbeats_suffix url = rstrip_char "/" (strip url)).
Proof.
  split; [|split].
  - unfold _strip_heartbeats_suffix. destruct (is_empty url) eqn:E.
    + destruct url; [|discriminate]. now exists "".
    + cbv zeta.
      destruct (strip_slashes_loop_prefix (String.length (strip url)) (strip url))
        as [t1 H1].
      destruct (cut_first_suffix_prefix heartbeat_suffixes
                  (strip_slashes_loop (String.length (strip url)) (strip url)))
        as [t2 H2].
      exists (t2 +:+ t1). rewrite <- append_assoc, <- H2. exact H1.
  - apply clean_head_strip_heartbeats_suffix.
  - intros E H1 H2. unfold _strip_heartbeats_suffix. rewrite E. cbv zeta.
    rewrite strip_slashes_loop_rstrip by lia.
    cbn [heartbeat_suffixes cut_first_suffix]. rewrite H1, H2.
    destruct (endswith _ "/users/current/heartbeats.bulk") eqn:E3;
      [|reflexivity].
    destruct (endswith_inv _ _ E3) as [p Hp].
    change "/users/current/heartbeats.bulk"
      with ("/users/current" +:+ "/heartbeats.bulk") in Hp.
    rewrite <- append_assoc in Hp. rewrite Hp, endswith_append in H2.
    discriminate.
Qed.

Lemma strip_heartbeats_suffix_only_cuts_witness :
  _strip_heartbeats_suffix "  https://waka.example.org/api/v1//  "
  = rstrip_char "/" (strip "  https://waka.example.org/api/v1//  ").
Proof.
  apply (proj2 (proj2 (strip_heartbeats_suffix_only_cuts
                         "  https://waka.example.org/api/v1//  ")));
    reflexivity.
Defined.

(** A base that ends in [/v1] is left as it is. *)
Lemma normalize_api_v1_base_fixed (q : string) :
  clean_head (q +:+ "/v1") = true ->
  _normalize_api_v1_base (q +:+ "/v1") = q +:+ "/v1".
Proof.
  intros Hc. unfold _normalize_api_v1_base, str_or, _strip_heartbeats_suffix.
  rewrite !is_empty_append. cbv zeta. unfold strip.
  rewrite (lstrip_by_keeps _ Hc).
  rewrite (rstrip_by_keeps isspace _ "1"); [|last_of_literal|reflexivity].
  rewrite (strip_slashes_loop_keeps _ _ "1"); [|last_of_literal|discriminate].
  cbn [heartbeat_suffixes cut_first_suffix].
  rewrite (endswith_last_differs _ "/users/current/heartbeats.bulk" "1" "k");
    [|last_of_literal|reflexivity|discriminate].
  rewrite (endswith_last_differs _ "/heartbeats.bulk" "1" "k");
    [|last_of_literal|reflexivity|discriminate].
  rewrite (endswith_last_differs _ "/heartbeats" "1" "s");
    [|last_of_literal|reflexivity|discriminate].
  unfold rstrip_char.
  rewrite (rstrip_by_keeps _ _ "1"); [|last_of_literal|reflexivity].
  now rewrite (endswith_append q "/v1"), orb_true_r.
Qed.

(** X2. The normalised base always ends in [/v1], and normalising it
    again changes nothing. *)
Theorem normalize_api_v1_base_idempotent (raw_url : string) :
  endswith (_normalize_api_v1_base raw_url) "/v1" = true
  /\ _normalize_api_v1_base (_normalize_api_v1_base raw_url)
     = _normalize_api_v1_base raw_url.
Proof.
  destruct (normalize_api_v1_base_shape raw_url) as [q [Hq Hc]].
  rewrite Hq. split; [apply endswith_append|].
  now apply normalize_api_v1_base_fixed.
Qed.

(** X3. Whatever the input, the derived endpoint ends in
    [/v1/users/current/heartbeats.bulk] and has no white space at either
    end. *)
Theorem api_heartbeats_url_ends_in_bulk (raw_url : string) :
  endswith (api_heartbeats_url_for_value raw_url)
           "/v1/users/current/heartbeats.bulk" = true
  /\ strip (api_heartbeats_url_for_value raw_url)
     = api_heartbeats_url_for_value raw_url.
Proof.
  destruct (api_heartbeats_url_shape raw_url) as [q [Hq Hc]].
  rewrite Hq. split; [apply endswith_append|].
  unfold strip. rewrite (lstrip_by_keeps _ Hc).
  apply rstrip_by_keeps with (c := "k"%char); [last_of_literal | reflexivity].
Qed.

Lemma api_server_url_stages (s : state) :
  api_server_url s
  = choose (pref_part s)
      (cfg_part (cfg_get "api_server_url" "" s) (cfg_get "api_url" "" s)).
Proof. reflexivity. Qed.

Lemma clean_head_strip (x : string) : clean_head (strip x) = true.
Proof.
  unfold strip.
  destruct (rstrip_by_prefix isspace (lstrip_by isspace x)) as [t Ht].
  apply clean_head_prefix with (t := t). rewrite <- Ht.
  apply clean_head_lstrip.
Qed.

Lemma pref_part_clean (s : state) : clean_head (pref_part s) = true.
Proof.
  unfold pref_part, truthy.
  destruct (pref_api_server_url s) as [v|]; [|reflexivity].
  destruct (is_empty v) eqn:E; cbn [negb].
  - destruct v; [reflexivity | discriminate].
  - apply clean_head_strip_heartbeats_suffix.
Qed.

Lemma cfg_part_clean (a b : string) : clean_head (cfg_part a b) = true.
Proof.
  unfold cfg_part. cbv zeta.
  destruct (is_empty (_strip_heartbeats_suffix (strip a)));
    (destruct (is_empty _) eqn:E;
     [ apply clean_head_strip_heartbeats_suffix | apply clean_head_strip ]).
Qed.

(** X4. [api_server_url] never returns the empty string and never a text
    that begins with white space; a preference that is set to something
    other than the default URL wins over the configuration, and with
    nothing set anywhere the default URL is returned. *)
Theorem api_server_url_never_empty (s : state) :
  is_empty (api_server_url s) = false
  /\ clean_head (api_server_url s) = true
  /\ (is_empty (pref_part s) = false ->
      pref_part s <> DEFAULT_API_SERVER_URL ->
      api_server_url s = pref_part s)
  /\ (pref_api_server_url s = None ->
      _cfg s !! "api_server_url" = None -> _cfg s !! "api_url" = None ->
      api_server_url s = DEFAULT_API_SERVER_URL).
Proof.
  rewrite api_server_url_stages.
  pose proof (pref_part_clean s) as Hp.
  pose proof (cfg_part_clean (cfg_get "api_server_url" "" s)
                (cfg_get "api_url" "" s)) as Hc.
  set (pv := pref_part s) in *. set (cv := cfg_part _ _) in *.
  unfold choose. repeat split.
  - destruct (is_empty pv) eqn:Ep; cbn [negb andb].
    + destruct (is_empty cv) eqn:Ec; cbn [negb]; [reflexivity | exact Ec].
    + destruct (String.eqb pv DEFAULT_API_SERVER_URL); cbn [negb];
        [|exact Ep].
      destruct (is_empty cv) eqn:Ec; cbn [negb]; [exact Ep | exact Ec].
  - destruct (negb (is_empty pv) && negb (String.eqb pv DEFAULT_API_SERVER_URL));
      [exact Hp|].
    destruct (negb (is_empty cv)); [exact Hc|].
    destruct (negb (is_empty pv)); [exact Hp | reflexivity].
  - intros Ep Hne. apply String.eqb_neq in Hne. now rewrite Ep, Hne.
  - intros H1 H2 H3. unfold pv, cv, pref_part, cfg_get. now rewrite H1, H2, H3.
Qed.

Lemma api_server_url_never_empty_witness :
  api_server_url
    {| _cfg := {[ "api_server_url" := "https://cfg.example.org/" ]};
       _api_url_synced := false;
       pref_api_key := None;
       pref_api_server_url := Some " https://pref.example.org/api/v1/heartbeats " |}
  = "https://pref.example.org/api/v1".
Proof.
  rewrite (proj1 (proj2 (proj2 (api_server_url_never_empty _))));
    [reflexivity | reflexivity | intros H; vm_compute in H; discriminate].
Defined.

Lemma strip_derived (q : string) :
  clean_head (q +:+ "/v1/users/current/heartbeats.bulk") = true ->
  strip (q +:+ "/v1/users/current/heartbeats.bulk")
  = q +:+ "/v1/users/current/heartbeats.bulk".
Proof.
  intros Hc. unfold strip. rewrite (lstrip_by_keeps _ Hc).
  apply rstrip_by_keeps with (c := "k"%char); [last_of_literal | reflexivity].
Qed.

Lemma clean_head_v1 (q : string) :
  clean_head (q +:+ "/v1/users/current/heartbeats.bulk") = true ->
  clean_head (q +:+ "/v1") = true.
Proof.
  change "/v1/users/current/heartbeats.bulk"
    with ("/v1" +:+ "/users/current/heartbeats.bulk").
  rewrite <- append_assoc. apply clean_head_prefix.
Qed.

Lemma api_heartbeats_url_of_v1 (q : string) :
  clean_head (q +:+ "/v1") = true ->
  api_heartbeats_url_for_value (q +:+ "/v1")
  = q +:+ "/v1/users/current/heartbeats.bulk".
Proof.
  intros Hc. unfold api_heartbeats_url_for_value.
  rewrite (normalize_api_v1_base_fixed _ Hc).
  apply heartbeats_url_of_v1_base.
Qed.

(** Once the endpoint is written to [api_url], the server URL read back
    leads to the same endpoint. *)
Lemma endpoint_after_sync (s : state) :
  api_heartbeats_url_for_value
    (api_server_url
       (set "api_url" (api_heartbeats_url_for_value (api_server_url s)) s))
  = api_heartbeats_url_for_value (api_server_url s).
Proof.
  destruct (api_heartbeats_url_shape (api_server_url s)) as [q [Hq Hc]].
  rewrite Hq. rewrite (api_server_url_stages (set _ _ _)).
  assert (Hp : pref_part (set "api_url"
                 (q +:+ "/v1/users/current/heartbeats.bulk") s) = pref_part s)
    by reflexivity.
  assert (Ha : cfg_get "api_server_url" ""
                 (set "api_url" (q +:+ "/v1/users/current/heartbeats.bulk") s)
               = cfg_get "api_server_url" "" s).
  { unfold cfg_get, set. cbn. now rewrite lookup_insert_ne. }
  assert (Hb : cfg_get "api_url" ""
                 (set "api_url" (q +:+ "/v1/users/current/heartbeats.bulk") s)
               = q +:+ "/v1/users/current/heartbeats.bulk").
  { unfold cfg_get, set. cbn. now rewrite lookup_insert_eq. }
  rewrite Hp, Ha, Hb. rewrite api_server_url_stages in Hq.
  set (pv := pref_part s) in *.
  set (cv := cfg_part (cfg_get "api_server_url" "" s) (cfg_get "api_url" "" s))
    in *.
  assert (Hcv : cfg_part (cfg_get "api_server_url" "" s)
                  (q +:+ "/v1/users/current/heartbeats.bulk") = cv
                \/ cfg_part (cfg_get "api_server_url" "" s)
                     (q +:+ "/v1/users/current/heartbeats.bulk")
                   = q +:+ "/v1").
  { unfold cv, cfg_part. cbv zeta.
    destruct (is_empty (_strip_heartbeats_suffix
                          (strip (cfg_get "api_server_url" "" s)))) eqn:Ea;
      [right | now left].
    rewrite (strip_derived _ Hc), (strip_heartbeats_suffix_derived _ Hc).
    rewrite is_empty_append.
    unfold strip. rewrite (lstrip_by_keeps _ (clean_head_v1 _ Hc)).
    apply rstrip_by_keeps with (c := "1"%char);
      [last_of_literal | reflexivity]. }
  destruct Hcv as [-> | ->]; [exact Hq|].
  revert Hq. unfold choose.
  destruct (negb (is_empty pv) && negb (String.eqb pv DEFAULT_API_SERVER_URL));
    [easy|].
  intros _. rewrite is_empty_append. cbn [negb].
  apply api_heartbeats_url_of_v1. now apply clean_head_v1.
Qed.

(** X5. [api_heartbeats_url] is stable: calling it again returns the same
    endpoint and changes nothing more, although the first call may have
    rewritten the [api_url] option that the server URL is read from. *)
Theorem api_heartbeats_url_stable (s : state) :
  api_heartbeats_url (snd (api_heartbeats_url s)) = api_heartbeats_url s.
Proof.
  unfold api_heartbeats_url. cbn [snd].
  set (ep := api_heartbeats_url_for_value (api_server_url s)).
  destruct (_api_url_synced s) eqn:Es.
  - assert (E : _ensure_api_url_synced ep s = s).
    { unfold _ensure_api_url_synced. now rewrite Es. }
    rewrite E. fold ep. now rewrite E.
  - assert (E : _api_url_synced (_ensure_api_url_synced ep s) = true
                /\ api_heartbeats_url_for_value
                     (api_server_url (_ensure_api_url_synced ep s)) = ep).
    { unfold _ensure_api_url_synced. rewrite Es. cbv zeta.
      split; [reflexivity|].
      change (api_server_url (with_synced true ?x)) with (api_server_url x).
      destruct (negb _); [apply endpoint_after_sync | reflexivity]. }
    destruct E as [E1 E2]. rewrite E2. f_equal.
    unfold _ensure_api_url_synced at 1. now rewrite E1.
Qed.

Section WithInt.
Variable int_of_str : string -> option Z.

Local Abbreviation ensure_offline_defaults :=
  (Settings.ensure_offline_defaults int_of_str).
Local Abbreviation valid_amount := (SettingsSpec.valid_amount int_of_str).
Local Abbreviation offline_ready := (SettingsSpec.offline_ready int_of_str).


Lemma current_sync_set_offline (v : string) (s : state) :
  current_sync (set "offline" v s) = current_sync s.
Proof. unfold current_sync, set. cbn. now rewrite lookup_insert_ne. Qed.







(** X7. Provided [int("100")] is positive, the amount handed to the CLI
    is never empty, never [none] and always a positive integer; once the
    offline defaults are ensured it is the stored option itself. *)
Theorem sync_offline_activity_amount_valid (s : state) :
  valid_amount DEFAULT_SYNC_OFFLINE_ACTIVITY = true ->
  valid_amount (sync_offline_activity_amount int_of_str s) = true
  /\ (offline_ready s = true ->
      sync_offline_activity_amount int_of_str s = current_sync s).
Proof.
  intros Hd. unfold sync_offline_activity_amount. cbv zeta.
  set (value := strip (cfg_get "sync_offline_activity"
                         DEFAULT_SYNC_OFFLINE_ACTIVITY s)).
  split.
  - destruct (is_empty value) eqn:He; [exact Hd|].
    destruct (String.eqb (lower value) "none") eqn:Hn; cbn [orb]; [exact Hd|].
    destruct (not_positive int_of_str value) eqn:Hp; [exact Hd|].
    unfold SettingsSpec.valid_amount. now rewrite He, Hn, Hp.
  - unfold SettingsSpec.offline_ready, SettingsSpec.valid_amount.
    intros H. apply andb_prop in H as [_ H].
    apply andb_prop in H as [H Hp]. apply andb_prop in H as [He Hn].
    apply negb_true_iff in He, Hn, Hp.
    assert (Hv : value = current_sync s).
    { unfold value, current_sync, cfg_get in *.
      destruct (_cfg s !! "sync_offline_activity"); [reflexivity|].
      discriminate. }
    now rewrite Hv, He, Hn, Hp.
Qed.

End WithInt.


Lemma sync_offline_activity_amount_valid_witness :
  let int_of_str := fun t : string =>
    if String.eqb t "100" then Some 100 else None in
  valid_amount int_of_str
    (sync_offline_activity_amount int_of_str Samples.configured) = true.
Proof.
  intros int_of_str.
  apply (sync_offline_activity_amount_valid int_of_str Samples.configured).
  reflexivity.
Defined.

End SettingsMore.

(* ===================================================================== *)
(** * More facts about the persisted counter                             *)
(* ===================================================================== *)

Module StoreMore.
Import PyStr Py Store StoreFacts.

Section WithInt.
Variable int_of_str : string -> option Z.

Local Abbreviation load_tracked_seconds :=
  (Store.load_tracked_seconds int_of_str).

(** Loading what was just saved, on any day. *)
Lemma load_saved (d : date) (n : Z) (dk : disk) :
  writable dk = true ->
  load_tracked_seconds d (save_tracked_seconds d n dk) = Ok (Z.max 0 n, true).
Proof.
  intros W. unfold Store.load_tracked_seconds.
  rewrite (file_after_save d n dk W). unfold payload.
  cbn [dict_get String.eqb Ascii.eqb Bool.eqb equals_str].
  rewrite String.eqb_refl. cbn [negb]. cbv [default from_option id py_int].
  now rewrite (Z.max_r 0 (Z.max 0 n)) by lia.
Qed.

Lemma load_seconds_nonneg (day : date) (d : disk) (n : Z) (found : bool) :
  load_tracked_seconds day d = Ok (n, found) -> 0 <= n.
Proof.
  unfold Store.load_tracked_seconds.
  destruct (file d) as [[ | | | | | | | data ]|]; try discriminate.
  - cbv zeta. destruct (negb _); intros E; injection E as <- _; lia.
  - intros E. injection E as <- _. lia.
Qed.

(** X8. [load_tracked_seconds] returns seconds that are never negative,
    and zero whenever it reports no record; it reports a record only for
    a JSON object whose [date] is the ISO text of the day asked for; and
    it raises, with [AttributeError], exactly on a file that holds JSON
    other than an object. *)
Theorem load_tracked_seconds_outcomes (day : date) (d : disk) :
  match load_tracked_seconds day d with
  | Ok (seconds, found) =>
      0 <= seconds
      /\ (found = false -> seconds = 0)
      /\ (found = true ->
          exists data, file d = Some (JObj data)
                       /\ dict_get "date" data = Some (JStr (isoformat day)))
      /\ (forall v, file d = Some v -> exists data, v = JObj data)
  | Raise e =>
      e = AttributeError
      /\ exists v, file d = Some v /\ forall data, v <> JObj data
  end.
Proof.
  unfold Store.load_tracked_seconds.
  destruct (file d) as [v|] eqn:Ef.
  - destruct v as [ | b | n | q | | t | items | data ];
      try (split; [reflexivity|]; eexists; split; [reflexivity | discriminate]).
    cbv zeta.
    destruct (equals_str (dict_get "date" data) (isoformat day)) eqn:Ed;
      cbn [negb].
    + split; [lia|]. split; [discriminate|]. split.
      * intros _. exists data. split; [reflexivity|].
        unfold equals_str in Ed.
        destruct (dict_get "date" data) as [[ | | | | | t | | ]|];
          try discriminate.
        apply String.eqb_eq in Ed. now subst.
      * intros v E. injection E as <-. now exists data.
    + split; [lia|]. split; [reflexivity|]. split; [discriminate|].
      intros v E. injection E as <-. now exists data.
  - split; [lia|]. split; [reflexivity|]. split; [discriminate|]. discriminate.
Qed.

(** X9. When the file can be written the last [save] wins, negative
    seconds being stored as zero: [load] for the day of the last [save]
    returns its clamped seconds, whatever was saved before. When the file
    cannot be written [save] changes nothing. *)
Theorem save_last_write_wins (d1 d2 : date) (n1 n2 : Z) (dk : disk) :
  (writable dk = true ->
   load_tracked_seconds d2
     (save_tracked_seconds d2 n2 (save_tracked_seconds d1 n1 dk))
   = Ok (Z.max 0 n2, true))
  /\ (writable dk = false -> save_tracked_seconds d2 n2 dk = dk).
Proof.
  split.
  - intros W. apply load_saved. unfold save_tracked_seconds at 1. now rewrite W.
  - intros W. unfold save_tracked_seconds. now rewrite W.
Qed.

(** X10. A record for the day asked for counts as found even when its
    seconds are unusable: whenever [int] of the [seconds] entry (of [0],
    if the entry is missing) raises or is not positive, the result is
    [(0, True)]. *)
Theorem load_tolerates_bad_seconds (day : date) (d : disk)
    (data : list (string * json)) :
  file d = Some (JObj data) ->
  dict_get "date" data = Some (JStr (isoformat day)) ->
  (forall n, py_int int_of_str (default (JInt 0) (dict_get "seconds" data))
             = Some n -> n <= 0) ->
  load_tracked_seconds day d = Ok (0, true).
Proof.
  intros Ef Ed Hs. unfold Store.load_tracked_seconds. rewrite Ef, Ed.
  cbn [equals_str]. rewrite String.eqb_refl. cbn [negb]. cbv zeta.
  destruct (py_int int_of_str _) as [n|] eqn:E; [|reflexivity].
  specialize (Hs n eq_refl). now rewrite Z.max_l by lia.
Qed.

End WithInt.

Lemma save_last_write_wins_witness :
  load_tracked_seconds (fun _ => None) Samples.march_10
    (save_tracked_seconds Samples.march_10 (-5)
       (save_tracked_seconds Samples.march_9 754 Samples.empty_disk))
  = Ok (0, true).
Proof.
  apply (proj1 (save_last_write_wins (fun _ => None) Samples.march_9
                  Samples.march_10 754 (-5) Samples.empty_disk)).
  reflexivity.
Defined.

(** A record whose seconds are [null]. *)
Lemma load_tolerates_bad_seconds_witness :
  load_tracked_seconds (fun _ => None) Samples.march_9
    {| file := Some (JObj [("date", JStr "2025-03-09"); ("seconds", JNull)]);
       writable := true; journal := [] |}
  = Ok (0, true).
Proof.
  apply (load_tolerates_bad_seconds (fun _ => None) Samples.march_9 _
           [("date", JStr "2025-03-09"); ("seconds", JNull)]);
    [reflexivity | reflexivity | discriminate].
Defined.

End StoreMore.

(* ===================================================================== *)
(** * More facts about the heartbeat queue                               *)
(* ===================================================================== *)

Module QueueMore.
Import PyStr Py Store Queue QueueSpec QueueFacts QueueInv StoreFacts StoreMore.

Lemma daily_reset_writable (today : date) (s : state) :
  writable (_disk (daily_reset today s)) = writable (_disk s).
Proof.
  rewrite daily_reset_disk.
  destruct (date_eqb _ _); [reflexivity | apply writable_after_save].
Qed.

Lemma accounted_writable (clk : clock) (s : state) :
  writable (_disk (accounted clk s)) = writable (_disk s).
Proof.
  destruct (accounted_disk clk s) as [[_ E] | E]; rewrite E;
    rewrite ?writable_after_save; apply daily_reset_writable.
Qed.

Lemma accounted_total_nonneg (clk : clock) (s : state) :
  0 <= _total_tracked_seconds s -> 0 <= _total_tracked_seconds (accounted clk s).
Proof.
  intros H. rewrite accounted_total.
  pose proof (elapsed_credit_nonneg (_last_tracked_time s) (datetime_now clk)).
  destruct (date_eqb _ _); lia.
Qed.

Section WithInt.
Variable int_of_str : string -> option Z.

Local Abbreviation persisted := (QueueInv.persisted int_of_str).
Local Abbreviation healthy := (QueueInv.healthy int_of_str).
Local Abbreviation init := (Queue.init int_of_str).

Lemma accounted_healthy (clk : clock) (s : state) :
  healthy s -> healthy (accounted clk s).
Proof.
  intros [W [Hn Hp]]. unfold QueueInv.healthy.
  rewrite accounted_writable. split; [exact W|].
  split; [now apply accounted_total_nonneg|].
  unfold QueueInv.persisted in *. rewrite accounted_day.
  pose proof (accounted_total_nonneg clk s Hn) as Hn'.
  destruct (accounted_disk clk s) as [[Hc E] | E]; rewrite E.
  - rewrite accounted_total, Hc, Z.add_0_r, daily_reset_disk.
    destruct (date_eqb (date_today clk) (_current_day s)) eqn:Ed.
    + apply date_eqb_eq in Ed. now rewrite Ed.
    + now rewrite (load_saved int_of_str _ _ _ W).
  - rewrite (load_saved int_of_str); [now rewrite Z.max_r by lia|].
    now rewrite daily_reset_writable.
Qed.

Section WithProjectName.
Variable simple_project_name : string -> string.

Local Abbreviation enqueue := (Queue.enqueue simple_project_name).
Local Abbreviation replay := (QueueSpec.replay simple_project_name).

Lemma enqueue_healthy (clk : clock) (filename : string) (is_write : bool)
    (s : state) :
  healthy s -> healthy (enqueue clk filename is_write s).
Proof.
  intros H. pose proof (accounted_healthy clk s H) as [W [Hn Hp]].
  destruct (enqueue_cases simple_project_name clk filename is_write s)
    as [-> | ->]; [now repeat split|].
  unfold QueueInv.healthy, QueueInv.persisted, persist, set_disk, put_heartbeat.
  cbn [_disk _current_day _total_tracked_seconds].
  rewrite writable_after_save. split; [exact W|]. split; [exact Hn|].
  rewrite (load_saved int_of_str _ _ _ W). now rewrite Z.max_r by lia.
Qed.

Lemma replay_healthy (evs : list event) :
  forall s : state, healthy s -> healthy (fst (replay s evs)).
Proof.
  induction evs as [|[clk filename is_write | now] rest IH]; intros s H.
  - exact H.
  - cbn [QueueSpec.replay]. apply IH. now apply enqueue_healthy.
  - cbn [QueueSpec.replay]. specialize (IH s H).
    now destruct (replay s rest).
Qed.

(** X11. A queue created over a writable state file starts in good
    standing: its total is not negative and is what the file holds for
    the day, nothing is queued and no time is being tracked yet. From
    there every history of [enqueue] calls and reads keeps the file equal
    to the in-memory total, so that a new queue created on the stored day
    over the same file, with or without a [shutdown] in between, starts
    from that total. *)
Theorem counter_survives_restart (version : string) (today : date)
    (dk : disk) (s0 : state) (evs : list event) :
  writable dk = true ->
  init version today dk = Ok s0 ->
  let s := fst (replay s0 evs) in
  healthy s0
  /\ _queue s0 = [] /\ _last_hb s0 = None /\ _last_tracked_time s0 = None
  /\ healthy s
  /\ exists s' : state,
       init version (_current_day s) (_disk s) = Ok s'
       /\ _total_tracked_seconds s' = _total_tracked_seconds s
       /\ _disk s' = _disk s.
Proof.
  intros W Hi. cbv zeta.
  assert (H0 : healthy s0 /\ _queue s0 = [] /\ _last_hb s0 = None
               /\ _last_tracked_time s0 = None).
  { unfold Queue.init, bind in Hi.
    destruct (load_tracked_seconds int_of_str today dk) as [[n found]|e] eqn:El;
      [|discriminate].
    pose proof (load_seconds_nonneg int_of_str _ _ _ _ El) as Hn.
    injection Hi as <-. unfold QueueInv.healthy, QueueInv.persisted.
    cbn [_disk _total_tracked_seconds _current_day _queue _last_hb
         _last_tracked_time].
    destruct found.
    - now repeat split.
    - rewrite writable_after_save, (load_saved int_of_str _ _ _ W).
      now repeat split. }
  destruct H0 as [H0 [Hq [Hl Ht]]].
  split; [exact H0|]. split; [exact Hq|]. split; [exact Hl|].
  split; [exact Ht|].
  pose proof (replay_healthy evs s0 H0) as [Ws [Hn Hp]].
  split; [now repeat split|].
  unfold Queue.init, bind. unfold QueueInv.persisted in Hp. rewrite Hp.
  eexists. split; [reflexivity|]. now cbn.
Qed.

(** X12. Within one calendar day an [enqueue] call never lowers the
    total and adds fewer than 600 s to it; it leaves it as it is when
    there is no earlier marker, and when the time since the marker is not
    positive or is 600 s or more. *)
Theorem enqueue_total_within_day (clk : clock) (filename : string)
    (is_write : bool) (s : state) :
  date_today clk = _current_day s ->
  let s' := enqueue clk filename is_write s in
  _total_tracked_seconds s <= _total_tracked_seconds s'
  /\ _total_tracked_seconds s' < _total_tracked_seconds s + 600
  /\ (_last_tracked_time s = None ->
      _total_tracked_seconds s' = _total_tracked_seconds s)
  /\ (forall last : Z,
        _last_tracked_time s = Some last ->
        datetime_now clk - last <= 0 \/ 600 * MICRO <= datetime_now clk - last ->
        _total_tracked_seconds s' = _total_tracked_seconds s).
Proof.
  intros Hd. cbv zeta. rewrite (enqueue_total simple_project_name), Hd.
  rewrite (proj2 (date_eqb_eq _ _) eq_refl).
  pose proof (elapsed_credit_nonneg (_last_tracked_time s) (datetime_now clk)).
  pose proof (elapsed_credit_bound (_last_tracked_time s) (datetime_now clk)).
  split; [lia|]. split; [lia|]. split.
  - intros ->. cbn. lia.
  - intros last -> Hgap. unfold elapsed_credit.
    destruct (0 <? datetime_now clk - last) eqn:E1; cbn [andb]; [|lia].
    destruct (datetime_now clk - last <? 600 * MICRO) eqn:E2; [|lia].
    apply Z.ltb_lt in E1, E2. lia.
Qed.


End WithProjectName.

(** X14. [shutdown] saves the total, so that over a writable state file
    a queue created afterwards on the same day starts from it; what was
    still queued is not carried over. *)
Theorem restart_after_shutdown (version : string) (s : state) :
  writable (_disk s) = true ->
  0 <= _total_tracked_seconds s ->
  exists s' : state,
    init version (_current_day s) (_disk (shutdown s)) = Ok s'
    /\ _total_tracked_seconds s' = _total_tracked_seconds s
    /\ _queue s' = []
    /\ _last_hb s' = None.
Proof.
  intros W Hn. unfold Queue.init, bind, shutdown, persist.
  cbn [_disk set_disk put_sentinel set_running _current_day
       _total_tracked_seconds].
  rewrite (load_saved int_of_str _ _ _ W).
  eexists. split; [reflexivity|]. cbn. repeat split. lia.
Qed.

(** X15. A state file that holds the record of another day is discarded
    at start: the queue begins at zero, and the file is overwritten with
    a zero for the new day. *)
Theorem init_discards_other_day (version : string) (today stored : date)
    (n : Z) (dk : disk) :
  valid_date today = true -> valid_date stored = true -> stored <> today ->
  file dk = Some (payload stored n) ->
  writable dk = true ->
  exists s : state,
    init version today dk = Ok s
    /\ _total_tracked_seconds s = 0
    /\ file (_disk s) = Some (payload today 0).
Proof.
  intros Vt Vs Hne Ef W. unfold Queue.init, bind, load_tracked_seconds.
  rewrite Ef. unfold payload at 1.
  cbn [dict_get String.eqb Ascii.eqb Bool.eqb].
  rewrite (equals_str_isoformat stored today Vs Vt Hne). cbn [negb].
  eexists. split; [reflexivity|]. cbn [_total_tracked_seconds _disk].
  split; [reflexivity|]. now apply file_after_save.
Qed.

End WithInt.

(** X16. The live value is never below the stored total and never more
    than 119 s above it; without a marker, and when the marker is not in
    the past or is 120 s old or older, it is the stored total. *)
Theorem live_within_two_minutes (now : Z) (s : state) :
  _total_tracked_seconds s <= get_tracked_time_live now s
  /\ get_tracked_time_live now s <= _total_tracked_seconds s + 119
  /\ (_last_tracked_time s = None ->
      get_tracked_time_live now s = _total_tracked_seconds s)
  /\ (forall last : Z,
        _last_tracked_time s = Some last ->
        now - last <= 0 \/ 120 * MICRO <= now - last ->
        get_tracked_time_live now s = _total_tracked_seconds s).
Proof.
  unfold get_tracked_time_live.
  destruct (_last_tracked_time s) as [l|]; cbv zeta.
  - destruct (0 <? now - l) eqn:E1; cbn [andb].
    + destruct (now - l <? 120 * MICRO) eqn:E2.
      * apply Z.ltb_lt in E1, E2. unfold MICRO in *.
        assert (0 <= Z.quot (now - l) 1000000) by (apply Z.quot_pos; lia).
        assert (Z.quot (now - l) 1000000 < 120)
          by (apply Z.quot_lt_upper_bound; lia).
        repeat split; try lia; try discriminate.
        intros last E. injection E as <-. lia.
      * repeat split; lia.
    + repeat split; lia.
  - repeat split; lia.
Qed.

Lemma counter_survives_restart_witness :
  exists s' : state,
    Queue.init (fun _ => None) "2.0.2" Samples.march_9
      (_disk (fst (QueueSpec.replay (fun f => f) Samples.fresh_queue
                     [ Enqueue (Samples.at_second 0) "/w/scene.blend" false;
                       Enqueue (Samples.at_second 45) "/w/scene.blend" false ])))
    = Ok s'
    /\ _total_tracked_seconds s' = 45.
Proof.
  destruct (counter_survives_restart (fun _ => None) (fun f => f) "2.0.2"
              Samples.march_9 Samples.empty_disk Samples.fresh_queue
              [ Enqueue (Samples.at_second 0) "/w/scene.blend" false;
                Enqueue (Samples.at_second 45) "/w/scene.blend" false ]
              eq_refl eq_refl)
    as [_ [_ [_ [_ [_ [s' [E [Ht _]]]]]]]].
  exists s'. split; [exact E | exact Ht].
Defined.

Lemma enqueue_total_within_day_witness :
  _total_tracked_seconds Samples.busy_queue
  <= _total_tracked_seconds
       (Queue.enqueue (fun f => f) (Samples.at_second 1031) "/w/scene.blend"
          false Samples.busy_queue).
Proof.
  apply (enqueue_total_within_day (fun f => f) (Samples.at_second 1031)
           "/w/scene.blend" false Samples.busy_queue eq_refl).
Defined.


Lemma restart_after_shutdown_witness :
  exists s' : state,
    Queue.init (fun _ => None) "2.0.2" Samples.march_9
      (_disk (shutdown Samples.busy_queue)) = Ok s'
    /\ _total_tracked_seconds s' = 5400.
Proof.
  destruct (restart_after_shutdown (fun _ => None) "2.0.2" Samples.busy_queue
              eq_refl) as [s' [E [Ht _]]].
  - cbn. lia.
  - exists s'. split; [exact E | exact Ht].
Defined.

Lemma init_discards_other_day_witness :
  exists s : state,
    Queue.init (fun _ => None) "2.0.2" Samples.march_10
      {| file := Some (payload Samples.march_9 5400); writable := true;
         journal := [] |} = Ok s
    /\ _total_tracked_seconds s = 0
    /\ file (_disk s) = Some (payload Samples.march_10 0).
Proof.
  apply (init_discards_other_day (fun _ => None) "2.0.2" Samples.march_10
           Samples.march_9 5400);
    [reflexivity | reflexivity | discriminate | reflexivity | reflexivity].
Defined.

Lemma live_within_two_minutes_witness :
  get_tracked_time_live (1200 * MICRO) Samples.busy_queue
  = _total_tracked_seconds Samples.busy_queue.
Proof.
  apply (proj2 (proj2 (proj2 (live_within_two_minutes (1200 * MICRO)
                                 Samples.busy_queue))) (1000 * MICRO) eq_refl).
  right. unfold MICRO. lia.
Defined.

End QueueMore.

(* ===================================================================== *)
(** * Facts about the worker loop                                        *)
(* ===================================================================== *)

Module WorkerFacts.
Import PyStr Py Queue Delivery Worker QueueFacts.

(** The inner loop splits the queue at the first sentinel and keeps the
    order. *)
Lemma take_extras_split (q : list (option HeartBeat)) :
  forall extras stopped remaining,
    take_extras q = (extras, stopped, remaining) ->
    q = map Some extras ++ (if stopped then None :: remaining else [])
    /\ (stopped = false -> remaining = []).
Proof.
  induction q as [|[hb|] rest IH]; intros extras stopped remaining E;
    cbn [take_extras] in E.
  - injection E as <- <- <-. now split.
  - destruct (take_extras rest) as [[ex st] rm] eqn:Er.
    injection E as <- <- <-. destruct (IH ex st rm eq_refl) as [H1 H2].
    split; [|exact H2]. cbn [map app]. now rewrite <- H1.
  - injection E as <- <- <-. split; [reflexivity | discriminate].
Qed.


Section WithInt.
Variable int_of_str : string -> option Z.

Local Abbreviation _send_to_wakatime := (Delivery._send_to_wakatime int_of_str).
Local Abbreviation iteration := (Worker.iteration int_of_str).
Local Abbreviation loop := (Worker.loop int_of_str).

(** The delivery call always returns. *)
Lemma send_returns (heartbeat : HeartBeat) (extras : list HeartBeat)
    (path : option string) (p : popen_outcome) (wd : Delivery.world) :
  exists wd', _send_to_wakatime heartbeat extras path p wd = Ok wd'.
Proof.
  unfold Delivery._send_to_wakatime.
  destruct (negb (has_api_key wd)); [eexists; reflexivity|].
  destruct (negb (has_api_url wd)); [eexists; reflexivity|].
  destruct (negb (has_client path)); [eexists; reflexivity|].
  destruct (Settings.api_heartbeats_url (settings wd)) as [url st].
  cbv zeta. destruct p; cbn [run_client try_except on_error];
    eexists; reflexivity.
Qed.

(** X17. Without an API key a turn of the worker takes nothing from the
    queue and changes no setting. It is either silent, which it is only
    while the last warning is less than 300 s old, or it logs one error
    and dates the warning; it warns only when there was no warning yet or
    the last one is at least 300 s old. *)
Theorem iteration_without_key (t : turn) (w : state) :
  is_empty (Settings.api_key (settings (world w))) = true ->
  exists w' : state,
    iteration t w = Continue w'
    /\ hq w' = hq w
    /\ settings (world w') = settings (world w)
    /\ ((w' = w
         /\ exists last, _last_api_key_warning w = Some last
                         /\ (now_check t - last < 300 # 1)%Q)
        \/ (console (world w')
            = console (world w)
              ++ [(ERROR, "Wakatime API key not configured. Please set your API key in Blender preferences.")]
            /\ _last_api_key_warning w' = Some (now_set t)
            /\ forall last, _last_api_key_warning w = Some last ->
                            (300 # 1 <= now_check t - last)%Q)).
Proof.
  intros Hk. unfold Worker.iteration. rewrite Hk. cbv zeta.
  destruct (_last_api_key_warning w) as [last|] eqn:El.
  - destruct (Qlt_bool (now_check t - last) (300 # 1)) eqn:Eq.
    + exists w. split; [reflexivity|]. split; [reflexivity|].
      split; [reflexivity|]. left. split; [reflexivity|].
      exists last. split; [reflexivity|]. now apply Qlt_bool_iff.
    + eexists. split; [reflexivity|]. split; [reflexivity|].
      split; [reflexivity|]. right. split; [reflexivity|].
      split; [reflexivity|]. intros l E. injection E as <-.
      apply Qnot_lt_le. intros H. apply Qlt_bool_iff in H. congruence.
  - eexists. split; [reflexivity|]. split; [reflexivity|].
    split; [reflexivity|]. right. split; [reflexivity|].
    split; [reflexivity|]. discriminate.
Qed.

(** X18. With an API key, a turn that finds a heartbeat at the head of
    the queue hands it to one delivery call together with every heartbeat
    queued behind it up to the first sentinel, in queue order. What
    follows the sentinel stays in the queue; the stop flag is cleared
    exactly when a sentinel was met; the turn never raises. *)
Theorem iteration_delivers_backlog (t : turn) (w : state)
    (heartbeat : HeartBeat) (rest : list (option HeartBeat)) :
  is_empty (Settings.api_key (settings (world w))) = false ->
  _queue (hq w) = Some heartbeat :: rest ->
  exists (w' : state) (extras : list HeartBeat) (stopped : bool),
    iteration t w = Continue w'
    /\ rest = map Some extras
              ++ (if stopped then None :: _queue (hq w') else [])
    /\ (stopped = false -> _queue (hq w') = [])
    /\ _running (hq w') = (if stopped then false else _running (hq w))
    /\ _send_to_wakatime heartbeat extras (client_path t) (proc t)
         (say DEBUG "Sending heartbeat: {} -> {}"
            (say DEBUG "Processing heartbeat from queue" (world w)))
       = Ok (world w')
    /\ _total_tracked_seconds (hq w') = _total_tracked_seconds (hq w)
    /\ _disk (hq w') = _disk (hq w).
Proof.
  intros Hk Hq. unfold Worker.iteration. rewrite Hk, Hq. cbv zeta.
  destruct (take_extras rest) as [[extras stopped] remaining] eqn:Et.
  destruct (take_extras_split rest extras stopped remaining Et) as [H1 H2].
  destruct (send_returns heartbeat extras (client_path t) (proc t)
              (say DEBUG "Sending heartbeat: {} -> {}"
                 (say DEBUG "Processing heartbeat from queue" (world w))))
    as [wd' Hs].
  rewrite Hs. eexists. exists extras, stopped.
  split; [reflexivity|]. cbn [hq world].
  destruct stopped; cbn; repeat split; auto.
Qed.


End WithInt.

Lemma iteration_without_key_witness :
  exists w' : state,
    Worker.iteration (fun _ => None)
      {| now_check := 1000 # 1; now_set := 1000 # 1; client_path := None;
         proc := NotFound |}
      {| hq := Samples.busy_queue;
         world := {| settings := Tracking.settings Samples.host_blank;
                     console := [] |};
         _last_api_key_warning := None |} = Continue w'
    /\ hq w' = Samples.busy_queue.
Proof.
  destruct (iteration_without_key (fun _ => None)
              {| now_check := 1000 # 1; now_set := 1000 # 1;
                 client_path := None; proc := NotFound |}
              {| hq := Samples.busy_queue;
                 world := {| settings := Tracking.settings Samples.host_blank;
                             console := [] |};
                 _last_api_key_warning := None |} eq_refl)
    as [w' [E [H _]]].
  exists w'. split; [exact E | exact H].
Defined.

Lemma iteration_delivers_backlog_witness :
  exists w' : state,
    Worker.iteration (fun _ => None)
      {| now_check := 1000 # 1; now_set := 1000 # 1;
         client_path := Some "/home/u/.wakatime/wakatime-runtime/cli.py";
         proc := Exited 0 "" |}
      {| hq := Samples.busy_queue; world := Samples.world_configured;
         _last_api_key_warning := None |} = Continue w'
    /\ _total_tracked_seconds (hq w') = 5400.
Proof.
  destruct (iteration_delivers_backlog (fun _ => None)
              {| now_check := 1000 # 1; now_set := 1000 # 1;
                 client_path := Some "/home/u/.wakatime/wakatime-runtime/cli.py";
                 proc := Exited 0 "" |}
              {| hq := Samples.busy_queue; world := Samples.world_configured;
                 _last_api_key_warning := None |}
              Samples.scene_heartbeat [] eq_refl eq_refl)
    as [w' [extras [stopped [E [_ [_ [_ [_ [Ht _]]]]]]]]].
  exists w'. split; [exact E | exact Ht].
Defined.


End WorkerFacts.

(* ===================================================================== *)
(** * Facts about recorded activity                                      *)
(* ===================================================================== *)

Module ActivityFacts.
Import PyStr PyStrFacts Py Tracking TrackingSpec TrackingFacts Activity.
Import QueueSpec QueueFacts.

(** The evaluation changes nothing but the remembered focus. *)
Lemma compute_keeps (e : env) (s : state) :
  let s1 := snd (_compute_tracking_condition e s) in
  _tracking_active s1 = _tracking_active s
  /\ _tracking_reason s1 = _tracking_reason s
  /\ timeline s1 = timeline s
  /\ _heartbeat_queue s1 = _heartbeat_queue s
  /\ _last_activity_monotonic s1 = _last_activity_monotonic s
  /\ _idle_timeout s1 = _idle_timeout s.
Proof.
  unfold _compute_tracking_condition, _is_blender_focused.
  destruct (is_empty (blend_filepath e)); [now cbn|].
  destruct (is_empty (Settings.api_key (settings e))); [now cbn|].
  destruct (focus_probe e) as [f|].
  - destruct (negb f); [now cbn|]. now destruct (Qle_bool _ _).
  - destruct (negb (_last_focus_state s)); [now cbn|].
    now destruct (Qle_bool _ _).
Qed.

Lemma focused_set_last_activity (e : env) (now : Q) (s : state) :
  focused e (set_last_activity now s) = focused e s.
Proof. unfold focused, _is_blender_focused. now destruct (focus_probe e). Qed.

Section WithProjectName.
Variable simple_project_name : string -> string.

Local Abbreviation _set_tracking_state :=
  (Tracking._set_tracking_state simple_project_name).
Local Abbreviation _update_tracking_state :=
  (Tracking._update_tracking_state simple_project_name).
Local Abbreviation _enqueue_current_file :=
  (Tracking._enqueue_current_file simple_project_name).
Local Abbreviation _record_general_activity :=
  (Activity._record_general_activity simple_project_name).
Local Abbreviation enqueue := (Queue.enqueue simple_project_name).

Lemma enqueue_current_file_keeps (e : env) (w : bool) (s : state) :
  _tracking_active (_enqueue_current_file e w s) = _tracking_active s
  /\ _tracking_reason (_enqueue_current_file e w s) = _tracking_reason s
  /\ timeline (_enqueue_current_file e w s) = timeline s.
Proof.
  unfold Tracking._enqueue_current_file.
  destruct (_tracking_active s) eqn:Ea; [|now rewrite Ea].
  destruct (_heartbeat_queue s); [|now rewrite Ea].
  cbv zeta. destruct (is_empty (blend_filepath e)); cbn; now rewrite ?Ea.
Qed.

(** What [_enqueue_current_file] does while tracking is active and a
    queue and a file are there. *)
Lemma enqueue_current_file_active (e : env) (w : bool) (s : state)
    (q : Queue.state) :
  _tracking_active s = true -> _heartbeat_queue s = Some q ->
  is_empty (blend_filepath e) = false ->
  _enqueue_current_file e w s
  = set_queue (Some (enqueue (clk e) (blend_filepath e) w q))
      (set_last_activity (monotonic_enqueue e) s).
Proof.
  intros Ha Hq Hf. unfold Tracking._enqueue_current_file.
  now rewrite Ha, Hq, Hf.
Qed.

Lemma set_tracking_state_sets (e : env) (active : bool) (reason : string)
    (s : state) :
  _tracking_active (_set_tracking_state e active reason s) = active
  /\ _tracking_reason (_set_tracking_state e active reason s) = reason.
Proof.
  unfold Tracking._set_tracking_state. cbv zeta.
  destruct (Bool.eqb active (_tracking_active s)) eqn:Ea; cbn [andb].
  - destruct (String.eqb reason (_tracking_reason s)) eqn:Er.
    + apply Bool.eqb_prop in Ea. apply String.eqb_eq in Er. now subst.
    + destruct active.
      * destruct (negb (_tracking_active s));
          [|now unfold _refresh_statusbar_cache].
        unfold _refresh_statusbar_cache. cbn [set_display _tracking_active
          _tracking_reason].
        destruct (enqueue_current_file_keeps e false
                    (timeline_log_event e "tracking resumed"
                       (set_tracking true reason s))) as [H1 [H2 _]].
        now rewrite H1, H2.
      * destruct (_ || _); now unfold _refresh_statusbar_cache.
  - destruct active.
    + destruct (negb (_tracking_active s));
        [|now unfold _refresh_statusbar_cache].
      unfold _refresh_statusbar_cache. cbn [set_display _tracking_active
        _tracking_reason].
      destruct (enqueue_current_file_keeps e false
                  (timeline_log_event e "tracking resumed"
                     (set_tracking true reason s))) as [H1 [H2 _]].
      now rewrite H1, H2.
    + destruct (_ || _); now unfold _refresh_statusbar_cache.
Qed.

(** While tracking is active, setting the state never touches the
    queue. *)
Lemma set_tracking_state_queue_active (e : env) (active : bool)
    (reason : string) (s : state) :
  _tracking_active s = true ->
  _heartbeat_queue (_set_tracking_state e active reason s)
  = _heartbeat_queue s.
Proof.
  intros Ha. unfold Tracking._set_tracking_state. cbv zeta. rewrite Ha.
  destruct (Bool.eqb active true && String.eqb reason (_tracking_reason s));
    [reflexivity|].
  destruct active; cbn [negb orb]; now unfold _refresh_statusbar_cache.
Qed.

(** X20. An activity pulse that arrives while tracking is active never
    reaches the heartbeat queue: whatever the re-evaluation decides, the
    queue object, and with it the day's total and the marker of the last
    tracked time, stay as they were. *)
Theorem general_activity_skips_queue (now : Q) (e e2 : env) (s : state) :
  _tracking_active s = true ->
  _heartbeat_queue (_record_general_activity now e e2 s) = _heartbeat_queue s.
Proof.
  intros Ha. unfold Activity._record_general_activity. cbv zeta.
  cbn [set_last_activity _tracking_active]. rewrite Ha.
  unfold Tracking._update_tracking_state.
  destruct (compute_keeps e (set_last_activity now s)) as [H1 [_ [_ [H4 _]]]].
  destruct (_compute_tracking_condition e (set_last_activity now s))
    as [[active reason] s1].
  cbn [snd] in *. rewrite andb_false_r.
  rewrite set_tracking_state_queue_active by (now rewrite H1).
  exact H4.
Qed.

(** X21. An activity pulse with a saved file, an API key and focus, whose
    re-evaluation comes less than the idle timeout after it, leaves
    tracking active with no pause reason, whatever the state before. *)
Theorem general_activity_resumes (now : Q) (e e2 : env) (s : state) :
  saved e = true -> has_key e = true -> focused e s = true ->
  (monotonic_check e - now < _idle_timeout s)%Q ->
  _tracking_active (_record_general_activity now e e2 s) = true
  /\ _tracking_reason (_record_general_activity now e e2 s) = "".
Proof.
  intros Hs Hk Hf Hi. unfold Activity._record_general_activity. cbv zeta.
  assert (Hd : decision e (set_last_activity now s) = (true, "")).
  { rewrite (decision_when_configured e _ Hs Hk).
    rewrite focused_set_last_activity, Hf. cbn [negb].
    apply Qle_bool_false in Hi. unfold elapsed.
    cbn [set_last_activity _idle_timeout _last_activity_monotonic].
    now rewrite Hi. }
  unfold decision, Tracking._update_tracking_state in *.
  destruct (_compute_tracking_condition e (set_last_activity now s))
    as [[active reason] s1].
  cbn [fst] in Hd. injection Hd as -> ->.
  destruct (set_tracking_state_sets e true "" s1) as [H1 H2].
  destruct (_ && _); [|now split].
  destruct (enqueue_current_file_keeps e2 false
              (_set_tracking_state e true "" s1)) as [H3 [H4 _]].
  now rewrite H3, H4.
Qed.

Lemma set_tracking_state_same_pair (e : env) (active : bool)
    (reason : string) (s : state) :
  active = _tracking_active s -> reason = _tracking_reason s ->
  _set_tracking_state e active reason s = s.
Proof. intros -> ->. apply set_tracking_state_same. Qed.

(** With a saved file, a key, focus and an evaluation that comes less
    than the timeout after the last activity, the decision is to track. *)
Lemma decision_to_track (e : env) (s : state) :
  saved e = true -> has_key e = true -> focused e s = true ->
  (elapsed e s < _idle_timeout s)%Q ->
  decision e s = (true, "").
Proof.
  intros Hs Hk Hf Hi. rewrite (decision_when_configured e _ Hs Hk), Hf.
  cbn [negb]. apply Qle_bool_false in Hi. now rewrite Hi.
Qed.

Lemma focused_ext (e : env) (s s0 : state) :
  _last_focus_state s0 = _last_focus_state s -> focused e s0 = focused e s.
Proof.
  intros H. unfold focused, _is_blender_focused.
  destruct (focus_probe e); [reflexivity | exact H].
Qed.

Section WithBasename.
Variable basename : string -> string.

Local Abbreviation _record_save_activity :=
  (Activity._record_save_activity simple_project_name basename).

(** X22. A save while tracking is active, and stays so, always calls
    [enqueue] for the current file with the write flag and restarts the
    idle clock; so the save is queued as a write heartbeat whenever the
    throttling rule for writes lets it through. *)
Theorem save_while_active_enqueues_write (now : Q) (logged_at : Timeline.utc)
    (filepath : option string) (e e2 : env) (s : state) (q : Queue.state) :
  _tracking_active s = true -> _tracking_reason s = "" ->
  saved e = true -> has_key e = true -> focused e s = true ->
  (monotonic_check e - now < _idle_timeout s)%Q ->
  _heartbeat_queue s = Some q ->
  is_empty (blend_filepath e2) = false ->
  let s' := _record_save_activity now logged_at filepath e e2 s in
  let q' := enqueue (clk e2) (blend_filepath e2) true q in
  _heartbeat_queue s' = Some q'
  /\ _last_activity_monotonic s' = monotonic_enqueue e2
  /\ (heartbeat_due (clk e2) (blend_filepath e2) true q ->
      Queue._last_hb q'
      = Some (new_heartbeat simple_project_name (clk e2) (blend_filepath e2)
                true)).
Proof.
  intros Ha Hr Hs Hk Hf Hi Hq Hfp. cbv zeta.
  unfold Activity._record_save_activity. cbv zeta.
  set (s0 := set_timeline _ (set_last_activity now s)).
  assert (Hd : decision e s0 = (true, "")).
  { apply decision_to_track; try assumption.
    now rewrite (focused_ext e s s0). }
  unfold decision, Tracking._update_tracking_state in *.
  destruct (compute_keeps e s0) as [H1 [H2 [_ [H4 _]]]].
  destruct (_compute_tracking_condition e s0) as [[active reason] s1].
  cbn [fst snd] in *. injection Hd as -> ->.
  rewrite (set_tracking_state_same_pair e true "" s1)
    by (rewrite ?H1, ?H2; unfold s0; cbn; congruence).
  rewrite (enqueue_current_file_active e2 true s1 q)
    by (rewrite ?H1, ?H4; unfold s0; cbn; congruence).
  cbn [set_queue set_last_activity _heartbeat_queue _last_activity_monotonic].
  split; [reflexivity|]. split; [reflexivity|].
  intros Hdue.
  assert (Hne : blend_filepath e2 <> "") by (intros E; now rewrite E in Hfp).
  rewrite (enqueue_when_due simple_project_name _ _ _ _ Hne Hdue).
  apply last_hb_after_put.
Qed.


End WithBasename.

(** X24. Going from active to paused logs the pause with its reason and
    leaves the queue and the idle clock alone. Going from paused to active
    logs the resumption and, when there is a queue, restarts the idle
    clock and, when a file is saved, calls [enqueue] for it once, without
    the write flag. *)
Theorem pause_and_resume_effects (e : env) (reason : string) (s : state) :
  (_tracking_active s = true ->
   let s' := _set_tracking_state e false reason s in
   timeline s'
   = Timeline.log_event (utc_now e)
       ("tracking paused (" +:+ reason +:+ ")") (timeline s)
   /\ _heartbeat_queue s' = _heartbeat_queue s
   /\ _last_activity_monotonic s' = _last_activity_monotonic s)
  /\ (_tracking_active s = false ->
      let s' := _set_tracking_state e true reason s in
      timeline s' = Timeline.log_event (utc_now e) "tracking resumed" (timeline s)
      /\ _heartbeat_queue s'
         = match _heartbeat_queue s with
           | Some q =>
               Some (if is_empty (blend_filepath e) then q
                     else enqueue (clk e) (blend_filepath e) false q)
           | None => None
           end
      /\ _last_activity_monotonic s'
         = match _heartbeat_queue s with
           | Some _ => monotonic_enqueue e
           | None => _last_activity_monotonic s
           end).
Proof.
  split; intros Ha; cbv zeta; unfold Tracking._set_tracking_state; cbv zeta;
    rewrite Ha; cbn [Bool.eqb andb negb orb].
  - now unfold _refresh_statusbar_cache.
  - unfold _refresh_statusbar_cache, Tracking._enqueue_current_file.
    cbn [timeline_log_event set_timeline set_tracking _tracking_active
         _heartbeat_queue].
    destruct (_heartbeat_queue s) as [q|] eqn:Eq; cbv zeta;
      [destruct (is_empty (blend_filepath e))|];
      cbn [set_display set_timeline set_tracking set_queue set_last_activity
           timeline_log_event timeline _heartbeat_queue
           _last_activity_monotonic];
      rewrite ?Eq; repeat split; reflexivity.
Qed.

(** X25. A timer tick whose evaluation comes to the pair already held
    logs nothing, queues nothing and leaves the pair and the idle clock as
    they were; it only refreshes the status text and the remembered
    focus. *)
Theorem timer_tick_without_change (e e2 : env) (s : state) :
  decision e s = (_tracking_active s, _tracking_reason s) ->
  let s' := Activity._tracking_timer_fn simple_project_name e e2 s in
  timeline s' = timeline s
  /\ _heartbeat_queue s' = _heartbeat_queue s
  /\ _tracking_active s' = _tracking_active s
  /\ _tracking_reason s' = _tracking_reason s
  /\ _last_activity_monotonic s' = _last_activity_monotonic s.
Proof.
  intros Hd. cbv zeta. unfold Activity._tracking_timer_fn.
  destruct (update_tracking_state_stable simple_project_name e s Hd)
    as [E [Ht Hq]].
  destruct (compute_keeps e s) as [H1 [H2 [_ [_ [H5 _]]]]].
  destruct (Tracking._update_tracking_state simple_project_name e s)
    as [active s1].
  cbn [snd] in *. unfold _refresh_statusbar_cache.
  cbn [set_display timeline _heartbeat_queue _tracking_active _tracking_reason
       _last_activity_monotonic].
  rewrite Ht, Hq, E, H1, H2, H5. now repeat split.
Qed.

End WithProjectName.

Lemma general_activity_skips_queue_witness :
  _heartbeat_queue
    (Activity._record_general_activity (fun f => f) (29 # 1)
       Samples.host Samples.host MoreSpec.tracking_active)
  = _heartbeat_queue MoreSpec.tracking_active.
Proof.
  apply (general_activity_skips_queue (fun f => f) (29 # 1) Samples.host
           Samples.host MoreSpec.tracking_active).
  reflexivity.
Defined.

Lemma general_activity_resumes_witness :
  _tracking_active
    (Activity._record_general_activity (fun f => f) (29 # 1)
       Samples.host Samples.host Samples.paused_unfocused) = true.
Proof.
  apply (general_activity_resumes (fun f => f) (29 # 1) Samples.host
           Samples.host Samples.paused_unfocused);
    reflexivity.
Defined.

(** A save of [scene.blend] 31 s after its last heartbeat, tracking being
    active. *)
Lemma save_while_active_enqueues_write_witness :
  _heartbeat_queue
    (Activity._record_save_activity (fun f => f) (fun f => f) (29 # 1)
       (utc_now Samples.host) (Some "/w/scene.blend") Samples.host
       Samples.host MoreSpec.tracking_active)
  = Some (Queue.enqueue (fun f => f) (Samples.at_second 1031)
            "/w/scene.blend" true Samples.busy_queue).
Proof.
  apply (save_while_active_enqueues_write (fun f => f) (fun f => f) (29 # 1)
           (utc_now Samples.host) (Some "/w/scene.blend") Samples.host
           Samples.host MoreSpec.tracking_active Samples.busy_queue);
    reflexivity.
Defined.


Lemma pause_and_resume_effects_witness :
  _heartbeat_queue
    (Tracking._set_tracking_state (fun f => f) Samples.host false "idle"
       MoreSpec.tracking_active)
  = _heartbeat_queue MoreSpec.tracking_active.
Proof.
  apply (proj1 (pause_and_resume_effects (fun f => f) Samples.host "idle"
                  MoreSpec.tracking_active) eq_refl).
Defined.

Lemma timer_tick_without_change_witness :
  timeline
    (Activity._tracking_timer_fn (fun f => f) Samples.host_blank
       Samples.host_blank MoreSpec.paused_unsaved)
  = timeline MoreSpec.paused_unsaved.
Proof.
  apply (timer_tick_without_change (fun f => f) Samples.host_blank
           Samples.host_blank MoreSpec.paused_unsaved).
  reflexivity.
Defined.

(** ** The timeline line of an operator *)

Lemma rstrip_by_cons_keep (p : ascii -> bool) (c : ascii) (s : string) :
  p c = false -> rstrip_by p (String c s) = String c (rstrip_by p s).
Proof. intros H. cbn [rstrip_by]. rewrite H. now destruct (rstrip_by p s). Qed.

Lemma rstrip_keeps_prefix (pre : string) :
  MoreSpec.no_space pre = true ->
  forall s, exists r, rstrip_by isspace (pre +:+ s) = pre +:+ r.
Proof.
  induction pre as [|c pre IH]; intros H s.
  - exists (rstrip_by isspace s). reflexivity.
  - cbn [MoreSpec.no_space] in H. apply andb_prop in H as [Hc Hp].
    apply negb_true_iff in Hc. destruct (IH Hp s) as [r Hr].
    exists r. rewrite !append_cons, rstrip_by_cons_keep by exact Hc.
    now rewrite Hr.
Qed.

Lemma prefix_append (pre r : string) : String.prefix pre (pre +:+ r) = true.
Proof.
  induction pre as [|c pre IH]; [now destruct r|].
  rewrite append_cons. cbn [String.prefix].
  destruct (ascii_dec c c); [exact IH | congruence].
Qed.

(** A message that begins with [operator] gives one line that does. *)
Lemma operator_line (now : Timeline.utc) (rest : string) (t : Timeline.files) :
  Timeline.appendable t = true ->
  exists text : string,
    Timeline.lines (Timeline.log_event now ("operator" +:+ rest) t)
    = Timeline.lines t
      ++ [(Timeline.day_name now +:+ ".log",
           Timeline.stamp now +:+ "Z - " +:+ text)]
    /\ startswith text "operator" = true.
Proof.
  intros Ha. unfold Timeline.log_event.
  assert (He : is_empty ("operator" +:+ rest) = false) by reflexivity.
  rewrite He, Ha. cbv zeta. unfold strip.
  rewrite lstrip_by_keeps by reflexivity.
  destruct (rstrip_keeps_prefix "operator" eq_refl rest) as [r Hr].
  rewrite Hr. exists ("operator" +:+ r). cbn [Timeline.lines].
  split; [now rewrite !append_assoc | apply prefix_append].
Qed.

(** X26. On a timeline that can be written, [log_operator_event] leaves
    exactly one new line for every operator, whichever of its label and
    identifier are missing, in the file of the day and with a text that
    begins with [operator]; earlier lines stay as they are, and without
    an operator nothing is logged. *)
Theorem operator_logged_once (now : Timeline.utc) (t : Timeline.files) :
  log_operator_event now None t = t
  /\ (forall o : operator,
        Timeline.appendable t = true ->
        exists text : string,
          Timeline.lines (log_operator_event now (Some o) t)
          = Timeline.lines t
            ++ [(Timeline.day_name now +:+ ".log",
                 Timeline.stamp now +:+ "Z - " +:+ text)]
          /\ startswith text "operator" = true).
Proof.
  split; [reflexivity|]. intros o Ha. unfold log_operator_event. cbv zeta.
  destruct (Settings.truthy _ && Settings.truthy _);
    [|destruct (Settings.truthy _); [|destruct (Settings.truthy _)]].
  - apply (operator_line now (" " +:+ _)), Ha.
  - apply (operator_line now (" " +:+ _)), Ha.
  - apply (operator_line now (" " +:+ _)), Ha.
  - apply (operator_line now " <unknown>"), Ha.
Qed.

Lemma operator_logged_once_witness :
  exists text : string,
    Timeline.lines
      (log_operator_event (utc_now Samples.host)
         (Some MoreSpec.translate_operator)
         (timeline Samples.paused_unfocused))
    = [("2025-03-09" +:+ ".log", "2025-03-09T00:17:11" +:+ "Z - " +:+ text)]
    /\ startswith text "operator" = true.
Proof.
  apply (proj2 (operator_logged_once (utc_now Samples.host)
                  (timeline Samples.paused_unfocused))
           MoreSpec.translate_operator).
  reflexivity.
Defined.

(** ** The status text of a duration *)

Lemma two_digits_below_100 (k : Z) :
  0 <= k < 100 ->
  two_digits k
  = String (Store.digit (k / 10)) (String (Store.digit k) EmptyString).
Proof.
  intros H. rewrite <- (Z2Nat.id k) by lia.
  assert (Hn : (Z.to_nat k < 100)%nat) by lia.
  generalize dependent (Z.to_nat k). clear. intros n Hn.
  do 100 (destruct n as [|n]; [vm_compute; reflexivity|]). lia.
Qed.

Lemma format_below_100_hours (n : Z) :
  0 <= n < 360000 ->
  format_tracking_time n
  = String (Store.digit (n / 3600 / 10)) (String (Store.digit (n / 3600))
    (String ":" (String (Store.digit (n mod 3600 / 60 / 10))
    (String (Store.digit (n mod 3600 / 60))
    (String ":" (String (Store.digit (n mod 3600 mod 60 / 10))
    (String (Store.digit (n mod 3600 mod 60)) EmptyString))))))).
Proof.
  intros H. unfold format_tracking_time. cbv zeta.
  rewrite Z.max_r by lia.
  rewrite !two_digits_below_100 by (Z.div_mod_to_equations; lia).
  reflexivity.
Qed.

(** X27. [format_tracking_time] shows every duration that is not
    positive as [00:00:00], and below 100 hours it gives eight
    characters and never the same text for two different durations. *)
Theorem format_tracking_time_faithful :
  (forall n : Z, n <= 0 -> format_tracking_time n = "00:00:00")
  /\ (forall n : Z,
        0 <= n < 360000 -> String.length (format_tracking_time n) = 8%nat)
  /\ (forall a b : Z,
        0 <= a < 360000 -> 0 <= b < 360000 ->
        format_tracking_time a = format_tracking_time b -> a = b).
Proof.
  split; [|split].
  - intros n H. unfold format_tracking_time. cbv zeta.
    now rewrite Z.max_l by lia.
  - intros n H. now rewrite format_below_100_hours.
  - intros a b Ha Hb E. rewrite !format_below_100_hours in E by assumption.
    injection E as E1 E2 E3 E4 E5 E6.
    apply StoreFacts.digit_inj in E1, E2, E3, E4, E5, E6.
    Z.div_mod_to_equations. lia.
Qed.

Lemma format_tracking_time_faithful_witness :
  format_tracking_time (-30) = "00:00:00".
Proof.
  apply (proj1 format_tracking_time_faithful). lia.
Defined.

End ActivityFacts.

(* ===================================================================== *)
(** * More facts about the delivery client                               *)
(* ===================================================================== *)

Module DeliveryMore.
Import PyStr Py Queue Delivery DeliverySpec DeliveryFacts MoreSpec.

Lemma pref_key_set (option value : string) (s : Settings.state) :
  Settings.pref_api_key (Settings.set option value s) = Settings.pref_api_key s.
Proof. reflexivity. Qed.

Lemma pref_key_synced (endpoint : string) (s : Settings.state) :
  Settings.pref_api_key (Settings._ensure_api_url_synced endpoint s)
  = Settings.pref_api_key s.
Proof.
  unfold Settings._ensure_api_url_synced.
  destruct (Settings._api_url_synced s); [reflexivity|].
  cbv zeta. now destruct (negb _).
Qed.

Lemma pref_key_offline_defaults (int_of_str : string -> option Z)
    (s : Settings.state) :
  Settings.pref_api_key (Settings.ensure_offline_defaults int_of_str s)
  = Settings.pref_api_key s.
Proof.
  unfold Settings.ensure_offline_defaults, Settings._enforce_offline_defaults.
  cbv zeta.
  set (s1 := if negb _ then Settings.set "offline" "true" s else s).
  assert (H1 : Settings.pref_api_key s1 = Settings.pref_api_key s).
  { unfold s1. now destruct (negb _). }
  destruct (is_empty _); [exact H1|]. now destruct (_ || _).
Qed.


Section WithInt.
Variable int_of_str : string -> option Z.

Local Abbreviation _send_to_wakatime := (Delivery._send_to_wakatime int_of_str).


(** X29. Clearing the key after exit code 104 reaches the configuration
    only. When the preferences of the host hold a key, [api_key()] goes on
    returning it after the call, so the next delivery passes the key
    check with the key that was refused; without such a preference
    [api_key()] is empty afterwards. *)
Theorem cleared_key_and_preferences (heartbeat : HeartBeat)
    (extra_heartbeats : list HeartBeat) (path : option string)
    (output : string) (w w' : world) :
  ready path w = true ->
  _send_to_wakatime heartbeat extra_heartbeats path (Exited 104 output) w
  = Ok w' ->
  Settings.api_key (settings w')
  = (if Settings.truthy (Settings.pref_api_key (settings w))
     then default "" (Settings.pref_api_key (settings w))
     else "")
  /\ has_api_key w' = Settings.truthy (Settings.pref_api_key (settings w)).
Proof.
  unfold ready, Delivery._send_to_wakatime. intros Hr.
  apply andb_prop in Hr as [Hr Hc]. apply andb_prop in Hr as [Hk Hu].
  rewrite Hk, Hu, Hc. cbn [negb].
  unfold Settings.api_heartbeats_url. cbv zeta.
  cbn [run_client try_except]. intros E. injection E as <-.
  assert (Hp : Settings.pref_api_key (settings (interpret 104 output
                 (say DEBUG "{cmd}"
                    (with_settings
                       (Settings.ensure_offline_defaults int_of_str
                          (Settings._ensure_api_url_synced
                             (Settings.api_heartbeats_url_for_value
                                (Settings.api_server_url (settings w)))
                             (settings w))) w))))
               = Settings.pref_api_key (settings w)).
  { unfold interpret. cbn [Z.eqb Pos.eqb orb andb negb].
    destruct (negb (is_empty output));
      cbn [settings say with_settings];
      now rewrite pref_key_set, pref_key_offline_defaults, pref_key_synced. }
  assert (Hs : stored_key (interpret 104 output
                 (say DEBUG "{cmd}"
                    (with_settings
                       (Settings.ensure_offline_defaults int_of_str
                          (Settings._ensure_api_url_synced
                             (Settings.api_heartbeats_url_for_value
                                (Settings.api_server_url (settings w)))
                             (settings w))) w))) = Some "")
    by now rewrite stored_key_interpret.
  unfold has_api_key, Settings.api_key, Settings.cfg_get. rewrite Hp.
  unfold stored_key in Hs. rewrite Hs.
  unfold Settings.truthy.
  destruct (Settings.pref_api_key (settings w)) as [k|]; [|now split].
  destruct (is_empty k) eqn:Ek; cbn [negb]; [now split|].
  cbn. now rewrite Ek.
Qed.

End WithInt.

Lemma cleared_key_and_preferences_witness :
  exists w' : world,
    Delivery._send_to_wakatime (fun _ => None) Samples.scene_heartbeat []
      (Some "/home/u/.wakatime/wakatime-runtime/cli.py") (Exited 104 "")
      key_in_prefs = Ok w'
    /\ Settings.api_key (settings w') = "waka_pref_77".
Proof.
  destruct (WorkerFacts.send_returns (fun _ => None) Samples.scene_heartbeat []
              (Some "/home/u/.wakatime/wakatime-runtime/cli.py")
              (Exited 104 "") key_in_prefs) as [w' E].
  exists w'. split; [exact E|].
  assert (Hr : ready (Some "/home/u/.wakatime/wakatime-runtime/cli.py")
                 key_in_prefs = true) by (vm_compute; reflexivity).
  exact (proj1 (cleared_key_and_preferences (fun _ => None)
                  Samples.scene_heartbeat []
                  (Some "/home/u/.wakatime/wakatime-runtime/cli.py") ""
                  key_in_prefs w' Hr E)).
Defined.

End DeliveryMore.
